(** * Weather data pipeline: a shallow embedding of [weather_pipeline.py]

    The pipeline class [WeatherDataPipeline] keeps one pandas DataFrame in
    [self.df] and runs five stages over it: [load_data], [clean_data],
    [transform_data], [analyze_data] and [save_results], chained by
    [run_pipeline].

    Conventions of the embedding:
    - a float64 cell is an [option Q]: [None] is NaN (the missing marker),
      [Some q] a finite number, with exact rational arithmetic;
    - a datetime64[ns] cell is a [Z], the nanoseconds since 1970-01-01,
      [NaT] being a separate constructor;
    - a text cell is a [string] of bytes, ASCII case rules;
    - a DataFrame is the list of its column labels and the list of its
      rows, a row being a record with one field per column the pipeline
      ever touches;
    - Python objects live in a heap, [self.df] holds a location, and a
      method is a function from the machine state to an outcome (a value or
      a raised exception) and a new state. *)

From Stdlib Require Import ZArith QArith Qround Lqa List String Ascii Bool Arith Lia.
From Stdlib Require Import Permutation Sorted DecimalString.
Import ListNotations.

Open Scope string_scope.
Open Scope list_scope.

(** ** Text: [str.lower], [str.strip] *)

Module Text.

Definition is_upper (c : ascii) : bool :=
  let n := nat_of_ascii c in (65 <=? n)%nat && (n <=? 90)%nat.

Definition to_lower (c : ascii) : ascii :=
  if is_upper c then ascii_of_nat (nat_of_ascii c + 32) else c.

(** Python's whitespace for [str.strip()] in the ASCII range:
    TAB, LF, VT, FF, CR, FS, GS, RS, US and SPACE. *)
Definition is_space (c : ascii) : bool :=
  let n := nat_of_ascii c in
  ((9 <=? n)%nat && (n <=? 13)%nat) || ((28 <=? n)%nat && (n <=? 32)%nat).

Fixpoint lower (s : string) : string :=
  match s with
  | EmptyString => EmptyString
  | String c s' => String (to_lower c) (lower s')
  end.

Fixpoint lstrip (s : string) : string :=
  match s with
  | EmptyString => EmptyString
  | String c s' => if is_space c then lstrip s' else s
  end.

Fixpoint rstrip (s : string) : string :=
  match s with
  | EmptyString => EmptyString
  | String c s' =>
      match rstrip s' with
      | EmptyString => if is_space c then EmptyString else String c EmptyString
      | r => String c r
      end
  end.

Definition strip (s : string) : string := rstrip (lstrip s).


(** [", ".join(l)] *)
Fixpoint join (sep : string) (l : list string) : string :=
  match l with
  | [] => ""
  | [x] => x
  | x :: l' => x ++ sep ++ join sep l'
  end.

(** [str(n)] of a non-negative integer. *)
Definition of_nat (n : nat) : string := NilEmpty.string_of_uint (Nat.to_uint n).

Definition mem (s : string) (l : list string) : bool := existsb (String.eqb s) l.

End Text.

(** ** Generic list helpers: sorting, positions *)

Section Sorting.
Context {A : Type} (leb : A -> A -> bool).

Fixpoint insert (x : A) (l : list A) : list A :=
  match l with
  | [] => [x]
  | y :: l' => if leb x y then x :: l else y :: insert x l'
  end.

(** Insertion sort placing a new element before the first element it is
    [leb] to; folding from the right keeps equal elements in their
    original order when [leb] is a non-strict order. *)
Fixpoint isort (l : list A) : list A :=
  match l with
  | [] => []
  | x :: l' => insert x (isort l')
  end.

End Sorting.

(** [take idx l]: the elements of [l] at the positions [idx], in that order
    (positional indexing, [iloc]); a position out of range is skipped. *)
Fixpoint take {A : Type} (idx : list nat) (l : list A) : list A :=
  match idx with
  | [] => []
  | i :: idx' =>
      match nth_error l i with
      | Some x => x :: take idx' l
      | None => take idx' l
      end
  end.

(** Positions of the elements satisfying [p], ascending, counted from [i]. *)
Fixpoint positions_from {A : Type} (p : A -> bool) (i : nat) (l : list A) : list nat :=
  match l with
  | [] => []
  | x :: l' => if p x then i :: positions_from p (S i) l' else positions_from p (S i) l'
  end.

Definition positions {A : Type} (p : A -> bool) (l : list A) : list nat :=
  positions_from p 0 l.

(** ** Numbers: float64 idealised as [Q], NaN as [None] *)

Module Num.

Definition dropna (col : list (option Q)) : list Q :=
  flat_map (fun v => match v with Some q => [q] | None => [] end) col.

Definition isna {V : Type} (v : option V) : bool :=
  match v with None => true | Some _ => false end.

Definition sum (xs : list Q) : Q := fold_right Qplus 0 xs.

(** Mean of the given values, NaN when there is none. *)
Definition mean_of (xs : list Q) : option Q :=
  match xs with
  | [] => None
  | _ => Some (sum xs / inject_Z (Z.of_nat (List.length xs)))
  end.

(** Median of the given values: the middle one of the sorted values, the
    mean of the two middle ones for an even count, NaN for none. *)
Definition median_of (xs : list Q) : option Q :=
  let s := isort Qle_bool xs in
  let n := List.length s in
  if (n =? 0)%nat then None
  else if Nat.odd n then nth_error s (n / 2)
  else match nth_error s (n / 2 - 1), nth_error s (n / 2) with
       | Some a, Some b => Some ((a + b) / 2)
       | _, _ => None
       end.

(** [Series.mean()], [Series.median()], [Series.min()], [Series.max()]:
    missing values are skipped. *)
Definition mean (col : list (option Q)) : option Q := mean_of (dropna col).
Definition median (col : list (option Q)) : option Q := median_of (dropna col).

Definition min_of (xs : list Q) : option Q :=
  match xs with
  | [] => None
  | x :: xs' => Some (fold_left (fun m y => if Qle_bool y m then y else m) xs' x)
  end.

Definition max_of (xs : list Q) : option Q :=
  match xs with
  | [] => None
  | x :: xs' => Some (fold_left (fun m y => if Qle_bool m y then y else m) xs' x)
  end.

Definition min (col : list (option Q)) : option Q := min_of (dropna col).
Definition max (col : list (option Q)) : option Q := max_of (dropna col).

(** [Series.fillna(v)]: NaN cells take the value [v] (itself possibly NaN,
    in which case nothing changes). *)
Definition fill (v x : option Q) : option Q :=
  match x with Some q => Some q | None => v end.

Definition fillna (v : option Q) (col : list (option Q)) : list (option Q) :=
  map (fill v) col.

(** Round half to even to an integer. *)
Definition rint (q : Q) : Z :=
  let f := Qfloor q in
  let r := q - inject_Z f in
  if Qle_bool r (1 # 2)
  then if Qle_bool (1 # 2) r
       then (if Z.even f then f else f + 1)%Z
       else f
  else (f + 1)%Z.

(** [round(2)] *)
Definition round2 (q : Q) : Q := inject_Z (rint (q * 100)) / 100.

Definition round2_opt (v : option Q) : option Q := option_map round2 v.

(** Linear-interpolation quantile of [describe()] ([p] in [0,1]). *)
Definition quantile_of (p : Q) (xs : list Q) : option Q :=
  let s := isort Qle_bool xs in
  match s with
  | [] => None
  | x0 :: _ =>
      let h := p * inject_Z (Z.of_nat (List.length s - 1)) in
      let lo := Z.to_nat (Qfloor h) in
      let a := nth lo s x0 in
      let b := nth (S lo) s a in
      Some (a + (h - inject_Z (Qfloor h)) * (b - a))
  end.

End Num.

(** ** Calendar: components of a datetime64[ns] value *)

Module Calendar.

Definition ns_per_day : Z := 86400000000000.

(** Days since 1970-01-01 to (year, month, day), proleptic Gregorian. *)
Definition civil_from_days (days : Z) : Z * Z * Z :=
  let z := (days + 719468)%Z in
  let era := (z / 146097)%Z in
  let doe := (z - era * 146097)%Z in
  let yoe := ((doe - doe / 1460 + doe / 36524 - doe / 146096) / 365)%Z in
  let y := (yoe + era * 400)%Z in
  let doy := (doe - (365 * yoe + yoe / 4 - yoe / 100))%Z in
  let mp := ((5 * doy + 2) / 153)%Z in
  let d := (doy - (153 * mp + 2) / 5 + 1)%Z in
  let m := (if mp <? 10 then mp + 3 else mp - 9)%Z in
  ((if m <=? 2 then y + 1 else y)%Z, m, d).

Definition days_from_civil (y m d : Z) : Z :=
  let y' := (if m <=? 2 then y - 1 else y)%Z in
  let era := (y' / 400)%Z in
  let yoe := (y' - era * 400)%Z in
  let doy := ((153 * (if 2 <? m then m - 3 else m + 9) + 2) / 5 + d - 1)%Z in
  let doe := (yoe * 365 + yoe / 4 - yoe / 100 + doy)%Z in
  (era * 146097 + doe - 719468)%Z.

Definition dt_year (t : Z) : Z := fst (fst (civil_from_days (t / ns_per_day))).
Definition dt_month (t : Z) : Z := snd (fst (civil_from_days (t / ns_per_day))).
Definition dt_day (t : Z) : Z := snd (civil_from_days (t / ns_per_day)).

(** Midnight of a calendar date as a timestamp. *)
Definition timestamp (y m d : Z) : Z := (days_from_civil y m d * ns_per_day)%Z.

End Calendar.

(** ** Data model *)

(** A cell of the [date] column: a parsed timestamp, the missing marker, or
    text that [read_csv] left unparsed (the column then has dtype object). *)
Inductive DateCell : Type :=
| NaT
| Timestamp (t : Z)
| DateText (s : string).

(** One row of the observation table.  A text or float cell is [None] when
    it holds NaN; the fields of a column that the frame does not have (see
    [columns]) are [None] and are never read. *)
Record Row : Type := mkRow {
  date : DateCell;
  city : option string;
  temperature_celsius : option Q;
  humidity_percent : option Q;
  wind_speed_kph : option Q;
  weather_condition : option string;
  year : option Z;
  month : option Z;
  day : option Z;
  temperature_fahrenheit : option Q
}.

Record DataFrame : Type := mkDataFrame {
  columns : list string;
  rows : list Row
}.

Definition set_date (v : DateCell) (r : Row) : Row :=
  mkRow v (city r) (temperature_celsius r) (humidity_percent r) (wind_speed_kph r)
        (weather_condition r) (year r) (month r) (day r) (temperature_fahrenheit r).

Definition set_weather_condition (v : option string) (r : Row) : Row :=
  mkRow (date r) (city r) (temperature_celsius r) (humidity_percent r) (wind_speed_kph r)
        v (year r) (month r) (day r) (temperature_fahrenheit r).

Definition set_year (v : option Z) (r : Row) : Row :=
  mkRow (date r) (city r) (temperature_celsius r) (humidity_percent r) (wind_speed_kph r)
        (weather_condition r) v (month r) (day r) (temperature_fahrenheit r).

Definition set_month (v : option Z) (r : Row) : Row :=
  mkRow (date r) (city r) (temperature_celsius r) (humidity_percent r) (wind_speed_kph r)
        (weather_condition r) (year r) v (day r) (temperature_fahrenheit r).

Definition set_day (v : option Z) (r : Row) : Row :=
  mkRow (date r) (city r) (temperature_celsius r) (humidity_percent r) (wind_speed_kph r)
        (weather_condition r) (year r) (month r) v (temperature_fahrenheit r).

(** The float columns are addressed by label, as in [self.df[col]]. *)
Definition get_float (col : string) (r : Row) : option Q :=
  if col =? "temperature_celsius" then temperature_celsius r
  else if col =? "humidity_percent" then humidity_percent r
  else if col =? "wind_speed_kph" then wind_speed_kph r
  else if col =? "temperature_fahrenheit" then temperature_fahrenheit r
  else None.

Definition set_float (col : string) (v : option Q) (r : Row) : Row :=
  if col =? "temperature_celsius" then
    mkRow (date r) (city r) v (humidity_percent r) (wind_speed_kph r)
          (weather_condition r) (year r) (month r) (day r) (temperature_fahrenheit r)
  else if col =? "humidity_percent" then
    mkRow (date r) (city r) (temperature_celsius r) v (wind_speed_kph r)
          (weather_condition r) (year r) (month r) (day r) (temperature_fahrenheit r)
  else if col =? "wind_speed_kph" then
    mkRow (date r) (city r) (temperature_celsius r) (humidity_percent r) v
          (weather_condition r) (year r) (month r) (day r) (temperature_fahrenheit r)
  else if col =? "temperature_fahrenheit" then
    mkRow (date r) (city r) (temperature_celsius r) (humidity_percent r) (wind_speed_kph r)
          (weather_condition r) (year r) (month r) (day r) v
  else r.

(** ** The pandas and numpy operations the pipeline calls *)

(** What the pipeline takes from its libraries without fixing it in its own
    code: the two date parsers, the default sorting kind and the sample
    standard deviation (which is not rational).

    [argsort] is numpy's [argsort(kind='quicksort')], the default kind of
    [sort_values]: it returns the positions of the keys in an order that
    sorts them.  It is not a stable sort, so the order of the positions of
    equal keys is left open. *)
Class Pandas : Type := {
  parse_datetime : string -> option Z;
  parse_datetime_dayfirst : string -> option Z;
  argsort : list Z -> list nat;
  argsort_perm : forall ks, Permutation (argsort ks) (seq 0 (List.length ks));
  argsort_sorted : forall ks, Sorted Z.le (take (argsort ks) ks);
  std : list Q -> option Q
}.

Module pd.

(** [col in df.columns] *)
Definition has_column (col : string) (df : DataFrame) : bool :=
  Text.mem col (columns df).

Definition add_column (col : string) (cols : list string) : list string :=
  if Text.mem col cols then cols else cols ++ [col].

(** [df[col] = vals], the values aligned with the rows by position (the
    series assigned in the pipeline are all computed from [df] itself and
    carry its index); a new label is appended to the columns. *)
Definition assign {V : Type} (set : V -> Row -> Row) (col : string)
           (vals : list V) (df : DataFrame) : DataFrame :=
  mkDataFrame (add_column col (columns df))
              (map (fun p => set (fst p) (snd p)) (combine vals (rows df))).

(** [pd.to_datetime(series, errors='coerce')]: timestamps stay, text is
    parsed, what does not parse becomes NaT. *)
Definition to_datetime_cell `{Pandas} (c : DateCell) : DateCell :=
  match c with
  | NaT => NaT
  | Timestamp t => Timestamp t
  | DateText s => match parse_datetime s with
                  | Some t => Timestamp t
                  | None => NaT
                  end
  end.

Definition to_datetime `{Pandas} (series : list DateCell) : list DateCell :=
  map to_datetime_cell series.

Definition date_notna (c : DateCell) : bool :=
  match c with NaT => false | _ => true end.

(** [df.dropna(subset=['date']).copy()] *)
Definition dropna_date (df : DataFrame) : DataFrame :=
  mkDataFrame (columns df) (filter (fun r => date_notna (date r)) (rows df)).

(** [series.astype(str)]: NaN becomes the text "nan". *)
Definition astype_str (v : option string) : string :=
  match v with Some s => s | None => "nan" end.

(** [series.isin(values)] on one cell. *)
Definition isin (v : option string) (values : list string) : bool :=
  match v with Some s => Text.mem s values | None => false end.

(** [df[mask]] with a boolean mask aligned with the rows. *)
Definition mask_rows (mask : list bool) (df : DataFrame) : DataFrame :=
  mkDataFrame (columns df)
              (map snd (filter (fun p => fst p) (combine mask (rows df)))).

(** First occurrences, in order of appearance. *)
Fixpoint unique (l : list string) : list string :=
  match l with
  | [] => []
  | x :: l' => x :: filter (fun y => negb (y =? x)) (unique l')
  end.

Definition dropna_str (col : list (option string)) : list string :=
  flat_map (fun v => match v with Some s => [s] | None => [] end) col.

Definition city_is (k : string) (r : Row) : bool :=
  match city r with Some c => c =? k | None => false end.

(** The groups of [df.groupby('city')]: the distinct non-missing keys in
    ascending order ([sort=True], [dropna=True]). *)
Definition group_keys (df : DataFrame) : list string :=
  isort String.leb (unique (dropna_str (map city (rows df)))).

(** Row positions of the group of key [k]. *)
Definition group_positions (k : string) (df : DataFrame) : list nat :=
  positions (city_is k) (rows df).

Fixpoint lookup {V : Type} (i : nat) (l : list (nat * V)) : option V :=
  match l with
  | [] => None
  | (j, v) :: l' => if (i =? j)%nat then Some v else lookup i l'
  end.

(** [df.groupby('city')[col].transform(func)]: [func] is applied to the
    sub-series of each group, and the results are put back at the row
    positions of the group.  The rows whose key is missing belong to no
    group and get NaN. *)
Definition groupby_transform (func : list (option Q) -> list (option Q))
           (col : string) (df : DataFrame) : list (option Q) :=
  let series := map (get_float col) (rows df) in
  let results :=
    flat_map (fun k => let idx := group_positions k df in
                       combine idx (func (take idx series)))
             (group_keys df) in
  map (fun i => match lookup i results with Some v => v | None => None end)
      (seq 0 (List.length (rows df))).

(** [df.groupby('city')[col].agg(f)]: one value per group, in key order. *)
Definition groupby_agg (f : list (option Q) -> option Q) (col : string)
           (df : DataFrame) : list (string * option Q) :=
  map (fun k => (k, f (map (get_float col) (filter (city_is k) (rows df)))))
      (group_keys df).

Definition date_key (c : DateCell) : option Z :=
  match c with Timestamp t => Some t | _ => None end.

Definition dropna_Z (col : list (option Z)) : list Z :=
  flat_map (fun v => match v with Some s => [s] | None => [] end) col.

(** [nargsort(items, kind='quicksort', ascending=True, na_position='last')]:
    the positions of the non-missing keys in sorted order, then those of
    the missing ones. *)
Definition nargsort `{Pandas} (items : list (option Z)) : list nat :=
  let non_nan_idx := positions (fun v => negb (Num.isna v)) items in
  let non_nans := dropna_Z items in
  let nan_idx := positions Num.isna items in
  take (argsort non_nans) non_nan_idx ++ nan_idx.

(** The same with [ascending=False]: keys and positions are reversed,
    sorted ascending, and the result reversed; missing keys stay last. *)
Definition nargsort_desc `{Pandas} (items : list (option Z)) : list nat :=
  let non_nan_idx := rev (positions (fun v => negb (Num.isna v)) items) in
  let non_nans := rev (dropna_Z items) in
  let nan_idx := positions Num.isna items in
  rev (take (argsort non_nans) non_nan_idx) ++ nan_idx.

(** [df.sort_values('date')] *)
Definition sort_values_date `{Pandas} (df : DataFrame) : DataFrame :=
  mkDataFrame (columns df)
              (take (nargsort (map (fun r => date_key (date r)) (rows df))) (rows df)).

(** [series.dt.year] and the like: NaN on NaT. *)
Definition dt (f : Z -> Z) (c : DateCell) : option Z :=
  match c with Timestamp t => Some (f t) | _ => None end.

(** [series.value_counts()]: the distinct non-missing values in order of
    first appearance with their counts, then sorted by count, descending,
    with the default sorting kind. *)
Definition value_counts `{Pandas} (col : list (option string)) : list (string * nat) :=
  let vals := dropna_str col in
  let counts := map (fun v => (v, List.length (filter (String.eqb v) vals))) (unique vals) in
  take (nargsort_desc (map (fun p => Some (Z.of_nat (snd p))) counts)) counts.

(** Key order of [nlargest]: [x] goes before [y] when its value is at
    least that of [y], a missing value going last. *)
Definition ge_nan_last (x y : string * option Q) : bool :=
  match snd y with
  | None => true
  | Some qy => match snd x with
               | Some qx => Qle_bool qy qx
               | None => false
               end
  end.

(** [series.nlargest(n)] with the default [keep='first']: the [n] largest
    values in descending order, equal values in their order of appearance
    in the series; missing values come after all others. *)
Definition nlargest (n : nat) (series : list (string * option Q))
  : list (string * option Q) :=
  firstn n (isort ge_nan_last series).

(** One column of [describe()]. *)
Record Describe : Type := mkDescribe {
  d_count : Q; d_mean : option Q; d_std : option Q; d_min : option Q;
  d_q25 : option Q; d_q50 : option Q; d_q75 : option Q; d_max : option Q
}.

Definition describe `{Pandas} (col : list (option Q)) : Describe :=
  let xs := Num.dropna col in
  mkDescribe (inject_Z (Z.of_nat (List.length xs))) (Num.mean_of xs) (std xs)
             (Num.min_of xs) (Num.quantile_of (1 # 4) xs) (Num.quantile_of (1 # 2) xs)
             (Num.quantile_of (3 # 4) xs) (Num.max_of xs).

Definition round2_describe (d : Describe) : Describe :=
  mkDescribe (Num.round2 (d_count d)) (Num.round2_opt (d_mean d)) (Num.round2_opt (d_std d))
             (Num.round2_opt (d_min d)) (Num.round2_opt (d_q25 d)) (Num.round2_opt (d_q50 d))
             (Num.round2_opt (d_q75 d)) (Num.round2_opt (d_max d)).

(** One cell group of [agg(["mean", "median", "min", "max"])]. *)
Record Agg : Type := mkAgg {
  a_mean : option Q; a_median : option Q; a_min : option Q; a_max : option Q
}.

Definition agg4 (col : list (option Q)) : Agg :=
  mkAgg (Num.mean col) (Num.median col) (Num.min col) (Num.max col).

Definition round2_agg (a : Agg) : Agg :=
  mkAgg (Num.round2_opt (a_mean a)) (Num.round2_opt (a_median a))
        (Num.round2_opt (a_min a)) (Num.round2_opt (a_max a)).

End pd.

(** ** Machine state, exceptions and the method monad *)

Inductive exn : Type :=
| ValueError (msg : string)
| KeyError (key : string)
| TypeError (msg : string)
| OSError (msg : string).

(** [str(e)] *)
Definition str_exn (e : exn) : string :=
  match e with
  | ValueError msg => msg
  | KeyError key => "'" ++ key ++ "'"
  | TypeError msg => msg
  | OSError msg => msg
  end.

(** The error kinds of the specification, as the code signals them. *)
Definition not_loaded_msg : string := "Data not loaded. Call load_data() first.".


(** A [ValueError] about missing columns, be it the pipeline's own
    "Missing required columns: ..." or the one of [read_csv],
    "Missing column provided to 'parse_dates': ...". *)
Definition is_SchemaError (e : exn) : bool :=
  match e with ValueError msg => String.prefix "Missing " msg | _ => false end.

Definition is_IOError (e : exn) : bool :=
  match e with OSError _ => true | _ => false end.

(** One record of the input file.  A text field is the text between the
    delimiters.  A float field is the number written there, or [None] when
    the field holds one of the NA tokens; files whose numeric columns hold
    other text are outside the model.  The fields of a column that the
    header does not name are ignored. *)
Record CsvRecord : Type := mkCsvRecord {
  f_date : string;
  f_city : string;
  f_temperature_celsius : option Q;
  f_humidity_percent : option Q;
  f_wind_speed_kph : option Q;
  f_weather_condition : string
}.

Inductive File : Type :=
| NoSuchFile
| Csv (header : list string) (records : list CsvRecord).

(** The objects the pipeline creates: the table and the four views. *)
Inductive Obj : Type :=
| ODataFrame (df : DataFrame)
| OBasicStats (view : list (string * pd.Describe))
| OCityStats (view : list (string * list (string * pd.Agg)))
| OWeatherFreq (view : list (string * nat))
| OTopCities (view : list (string * option Q)).

(** The pipeline instance ([self_] fields), the heap its references point
    into, the standard output, and the file system: what a path reads as,
    which paths can be written, and the paths written so far. *)
Record State : Type := mkState {
  self_input_file : string;
  self_output_dir : string;
  self_df : option nat;
  heap : list Obj;
  stdout : list string;
  disk : string -> File;
  writable : string -> bool;
  written : list string
}.

Definition with_df (v : option nat) (s : State) : State :=
  mkState (self_input_file s) (self_output_dir s) v (heap s) (stdout s)
          (disk s) (writable s) (written s).

Definition with_heap (h : list Obj) (s : State) : State :=
  mkState (self_input_file s) (self_output_dir s) (self_df s) h (stdout s)
          (disk s) (writable s) (written s).

Definition with_stdout (out : list string) (s : State) : State :=
  mkState (self_input_file s) (self_output_dir s) (self_df s) (heap s) out
          (disk s) (writable s) (written s).

Definition with_written (w : list string) (s : State) : State :=
  mkState (self_input_file s) (self_output_dir s) (self_df s) (heap s) (stdout s)
          (disk s) (writable s) w.

Inductive Outcome (A : Type) : Type :=
| Return (a : A)
| Raise (e : exn).

Arguments Return {A} a.
Arguments Raise {A} e.

Definition M (A : Type) : Type := State -> Outcome A * State.

Definition ret {A : Type} (a : A) : M A := fun s => (Return a, s).

Definition bind {A B : Type} (m : M A) (k : A -> M B) : M B :=
  fun s => match m s with
           | (Return a, s') => k a s'
           | (Raise e, s') => (Raise e, s')
           end.

Definition raise {A : Type} (e : exn) : M A := fun s => (Raise e, s).

(** [try: body  except Exception as e: handler(e)] *)
Definition try_except {A : Type} (body : M A) (handler : exn -> M A) : M A :=
  fun s => match body s with
           | (Return a, s') => (Return a, s')
           | (Raise e, s') => handler e s'
           end.

Declare Scope monad_scope.
Delimit Scope monad_scope with monad.
Notation "x <- m ;; k" := (bind m (fun x => k))
  (at level 61, m at next level, right associativity) : monad_scope.
Notation "m ;; k" := (bind m (fun _ => k))
  (at level 61, right associativity) : monad_scope.
Open Scope monad_scope.

Definition print (line : string) : M unit :=
  fun s => (Return tt, with_stdout (stdout s ++ [line]) s).

Definition when (b : bool) (m : M unit) : M unit := if b then m else ret tt.

Fixpoint for_each {A : Type} (l : list A) (body : A -> M unit) : M unit :=
  match l with
  | [] => ret tt
  | x :: l' => body x ;; for_each l' body
  end.

(** Replace the element at position [i]. *)
Fixpoint store {A : Type} (i : nat) (x : A) (l : list A) : list A :=
  match l, i with
  | [], _ => []
  | _ :: l', O => x :: l'
  | y :: l', S i' => y :: store i' x l'
  end.

(** A new object, at a location no reference holds yet. *)
Definition alloc (o : Obj) : M nat :=
  fun s => (Return (List.length (heap s)), with_heap (heap s ++ [o]) s).

(** [if self.df is None: raise ValueError(msg)] *)
Definition check_df (msg : string) : M unit :=
  fun s => match self_df s with
           | None => (Raise (ValueError msg), s)
           | Some _ => (Return tt, s)
           end.

(** The frame [self.df] refers to. *)
Definition get_df : M DataFrame :=
  fun s => match self_df s with
           | None => (Raise (TypeError "'NoneType' object is not subscriptable"), s)
           | Some l => match nth_error (heap s) l with
                       | Some (ODataFrame df) => (Return df, s)
                       | _ => (Raise (TypeError "not a DataFrame"), s)
                       end
           end.

(** Mutation of the frame [self.df] refers to, in place. *)
Definition update_df (f : DataFrame -> DataFrame) : M unit :=
  df <- get_df ;;
  fun s => match self_df s with
           | Some l => (Return tt, with_heap (store l (ODataFrame (f df)) (heap s)) s)
           | None => (Return tt, s)
           end.

(** [self.df = <new frame>] *)
Definition rebind_df (df : DataFrame) : M unit :=
  l <- alloc (ODataFrame df) ;;
  fun s => (Return tt, with_df (Some l) s).

(** [self.df[col]], a [KeyError] when the frame has no such column. *)
Definition getitem {V : Type} (get : Row -> V) (col : string) : M (list V) :=
  df <- get_df ;;
  if pd.has_column col df then ret (map get (rows df)) else raise (KeyError col).

(** [self.df[col] = vals] *)
Definition setitem {V : Type} (set : V -> Row -> Row) (col : string) (vals : list V) : M unit :=
  update_df (pd.assign set col vals).

(** [len(self.df)] *)
Definition len_df : M nat := df <- get_df ;; ret (List.length (rows df)).

(** Opening [path] for writing and writing to it. *)
Definition write_file (path : string) : M unit :=
  fun s => if writable s path
           then (Return tt, with_written (written s ++ [path]) s)
           else (Raise (OSError ("[Errno 13] Permission denied: '" ++ path ++ "'")), s).

(** ** [WeatherDataPipeline] *)

Definition required_columns : list string :=
  ["date"; "city"; "temperature_celsius"; "humidity_percent"; "wind_speed_kph";
   "weather_condition"].

(** The [na_values] argument of [load_data]. *)
Definition na_values : list string :=
  [""; " "; "NA"; "N/A"; "NaN"; "None"; "unknown"; "Unknown"].

(** The tokens [read_csv] takes as missing by itself ([keep_default_na]). *)
Definition STR_NA_VALUES : list string :=
  ["-1.#IND"; "1.#QNAN"; "1.#IND"; "-1.#QNAN"; "#N/A N/A"; "#N/A"; "N/A"; "n/a";
   "NA"; "<NA>"; "#NA"; "NULL"; "null"; "NaN"; "-NaN"; "nan"; "-nan"; "None"; ""].

Definition is_na_token (s : string) : bool :=
  Text.mem s na_values || Text.mem s STR_NA_VALUES.

Definition read_text (s : string) : option string :=
  if is_na_token s then None else Some s.

(** The [date] column under [parse_dates=["date"], dayfirst=True]: when
    every field that is not an NA token parses, the column holds
    timestamps; otherwise it is left as text. *)
Definition read_dates `{Pandas} (fields : list string) : list DateCell :=
  let cells := map read_text fields in
  if forallb (fun c => match c with
                       | None => true
                       | Some s => match parse_datetime_dayfirst s with
                                   | Some _ => true
                                   | None => false
                                   end
                       end) cells
  then map (fun c => match c with
                     | None => NaT
                     | Some s => match parse_datetime_dayfirst s with
                                 | Some t => Timestamp t
                                 | None => NaT
                                 end
                     end) cells
  else map (fun c => match c with None => NaT | Some s => DateText s end) cells.

Definition read_record (header : list string) (d : DateCell) (rec : CsvRecord) : Row :=
  mkRow d
        (if Text.mem "city" header then read_text (f_city rec) else None)
        (if Text.mem "temperature_celsius" header then f_temperature_celsius rec else None)
        (if Text.mem "humidity_percent" header then f_humidity_percent rec else None)
        (if Text.mem "wind_speed_kph" header then f_wind_speed_kph rec else None)
        (if Text.mem "weather_condition" header then read_text (f_weather_condition rec) else None)
        None None None None.

(** The frame of a file that has a [date] column. *)
Definition read_frame `{Pandas} (header : list string) (records : list CsvRecord) : DataFrame :=
  mkDataFrame header
              (map (fun p => read_record header (fst p) (snd p))
                   (combine (read_dates (map f_date records)) records)).

(** [pd.read_csv(path, parse_dates=["date"], dayfirst=True, na_values=...)] *)
Definition read_csv `{Pandas} (path : string) : M DataFrame :=
  fun s => match disk s path with
           | NoSuchFile =>
               (Raise (OSError ("[Errno 2] No such file or directory: '" ++ path ++ "'")), s)
           | Csv header records =>
               if Text.mem "date" header
               then (Return (read_frame header records), s)
               else (Raise (ValueError "Missing column provided to 'parse_dates': 'date'"), s)
           end.

Definition load_data `{Pandas} : M unit :=
  try_except
    (input_file <- (fun s => (Return (self_input_file s), s)) ;;
     df <- read_csv input_file ;;
     rebind_df df ;;
     let missing_cols :=
       filter (fun col => negb (pd.has_column col df)) required_columns in
     match missing_cols with
     | [] => ret tt
     | _ => raise (ValueError ("Missing required columns: " ++ Text.join ", " missing_cols))
     end)
    (fun e => print ("Error loading data: " ++ str_exn e) ;; raise e).

Definition numeric_cols : list string :=
  ["temperature_celsius"; "humidity_percent"; "wind_speed_kph"].

(** [self.df.groupby('city')[col].transform(lambda x: x.fillna(x.median()))] *)
Definition fill_with_city_median (col : string) : M (list (option Q)) :=
  df <- get_df ;;
  if pd.has_column "city" df
  then ret (pd.groupby_transform (fun x => Num.fillna (Num.median x) x) col df)
  else raise (KeyError "city").

(** [series.astype(str).str.lower().str.strip()] on one cell. *)
Definition normalize_condition (v : option string) : option string :=
  Some (Text.strip (Text.lower (pd.astype_str v))).

(** [~series.isin(['unknown', ''])] on one cell. *)
Definition known_condition (v : option string) : bool :=
  negb (pd.isin v ["unknown"; ""]).

Definition clean_data `{Pandas} : M unit :=
  check_df not_loaded_msg ;;
  dates <- getitem date "date" ;;
  setitem set_date "date" (pd.to_datetime dates) ;;
  initial_count <- len_df ;;
  df <- get_df ;;
  rebind_df (pd.dropna_date df) ;;
  n <- len_df ;;
  let dropped_count := (initial_count - n)%nat in
  when (0 <? dropped_count)%nat
       (print ("Dropped " ++ Text.of_nat dropped_count ++ " rows with invalid/missing dates")) ;;
  df <- get_df ;;
  when (pd.has_column "weather_condition" df)
       (conds <- getitem weather_condition "weather_condition" ;;
        setitem set_weather_condition "weather_condition" (map normalize_condition conds)) ;;
  df <- get_df ;;
  when (pd.has_column "weather_condition" df)
       (initial_count <- len_df ;;
        conds <- getitem weather_condition "weather_condition" ;;
        df <- get_df ;;
        rebind_df (pd.mask_rows (map known_condition conds) df) ;;
        n <- len_df ;;
        let dropped_count := (initial_count - n)%nat in
        when (0 <? dropped_count)%nat
             (print ("Dropped " ++ Text.of_nat dropped_count
                     ++ " rows with unknown/empty weather conditions"))) ;;
  for_each numeric_cols (fun col =>
    df <- get_df ;;
    when (pd.has_column col df)
         (vals <- fill_with_city_median col ;;
          setitem (set_float col) col vals)) ;;
  for_each numeric_cols (fun col =>
    df <- get_df ;;
    when (pd.has_column col df && existsb Num.isna (map (get_float col) (rows df)))
         (vals <- getitem (get_float col) col ;;
          setitem (set_float col) col (Num.fillna (Num.median vals) vals))).

Definition to_fahrenheit (c : option Q) : option Q :=
  option_map (fun q => q * 9 / 5 + 32) c.

Definition transform_data `{Pandas} : M unit :=
  check_df not_loaded_msg ;;
  dates <- getitem date "date" ;;
  setitem set_date "date" (pd.to_datetime dates) ;;
  df <- get_df ;;
  rebind_df (pd.sort_values_date df) ;;
  dates <- getitem date "date" ;;
  setitem set_year "year" (map (pd.dt Calendar.dt_year) dates) ;;
  dates <- getitem date "date" ;;
  setitem set_month "month" (map (pd.dt Calendar.dt_month) dates) ;;
  dates <- getitem date "date" ;;
  setitem set_day "day" (map (pd.dt Calendar.dt_day) dates) ;;
  df <- get_df ;;
  when (pd.has_column "temperature_celsius" df)
       (temps <- getitem (get_float "temperature_celsius") "temperature_celsius" ;;
        setitem (set_float "temperature_fahrenheit") "temperature_fahrenheit"
                (map to_fahrenheit temps)).

Definition analysis_cols : list string :=
  ["temperature_celsius"; "humidity_percent"; "wind_speed_kph"; "temperature_fahrenheit"].

(** [self.df[cols]] and [groupby(...)[cols]] need every label of [cols]. *)
Definition require_columns (cols : list string) : M unit :=
  df <- get_df ;;
  match filter (fun col => negb (pd.has_column col df)) cols with
  | [] => ret tt
  | col :: _ => raise (KeyError col)
  end.

(** The dictionary [analysis_results]: view name to the object it holds. *)
Definition analyze_data `{Pandas} : M (list (string * nat)) :=
  check_df not_loaded_msg ;;
  require_columns analysis_cols ;;
  df <- get_df ;;
  basic_stats <- alloc (OBasicStats
    (map (fun col => (col, pd.round2_describe (pd.describe (map (get_float col) (rows df)))))
         analysis_cols)) ;;
  require_columns ["city"] ;;
  df <- get_df ;;
  city_stats <- alloc (OCityStats
    (map (fun k => (k, map (fun col =>
                              (col, pd.round2_agg
                                      (pd.agg4 (map (get_float col)
                                                    (filter (pd.city_is k) (rows df))))))
                           analysis_cols))
         (pd.group_keys df))) ;;
  conds <- getitem weather_condition "weather_condition" ;;
  weather_freq <- alloc (OWeatherFreq (pd.value_counts conds)) ;;
  require_columns ["city"; "temperature_celsius"] ;;
  df <- get_df ;;
  top_cities <- alloc (OTopCities
    (map (fun p => (fst p, Num.round2_opt (snd p)))
         (pd.nlargest 5 (pd.groupby_agg Num.mean "temperature_celsius" df)))) ;;
  ret [("basic_stats", basic_stats); ("city_stats", city_stats);
       ("weather_freq", weather_freq); ("top_cities", top_cities)].

Definition path_join (dir name : string) : string := dir ++ "/" ++ name.

(** The text of the report is outside the model; what is kept is that the
    report file is written and announced. *)
Definition generate_report (analysis_results : list (string * nat)) : M string :=
  out <- (fun s => (Return (self_output_dir s), s)) ;;
  let report_path := path_join out "top_cities_report.md" in
  write_file report_path ;;
  print ("Report saved to " ++ report_path) ;;
  ret report_path.

Definition plot_temperature_by_city : M string :=
  require_columns ["city"; "temperature_celsius"] ;;
  out <- (fun s => (Return (self_output_dir s), s)) ;;
  let plot_path := path_join out "avg_temperature_by_city.png" in
  write_file plot_path ;;
  print ("Plot saved to " ++ plot_path) ;;
  ret plot_path.

Definition save_results (analysis_results : list (string * nat)) : M unit :=
  check_df "No data to save. Process data first." ;;
  out <- (fun s => (Return (self_output_dir s), s)) ;;
  let processed_file := path_join out "transformed_weather_data.csv" in
  write_file processed_file ;;
  print ("Processed data saved to " ++ processed_file) ;;
  for_each analysis_results (fun item =>
    let name := fst item in
    when (negb (name =? "top_cities"))
         (let output_file := path_join out (name ++ ".csv") in
          write_file output_file ;;
          print (name ++ " saved to " ++ output_file))) ;;
  generate_report analysis_results ;;
  plot_temperature_by_city ;;
  ret tt.

(** The five stages in the order [run_pipeline] calls them. *)
Definition stages `{Pandas} : M unit :=
  load_data ;;
  clean_data ;;
  transform_data ;;
  analysis_results <- analyze_data ;;
  save_results analysis_results.

Definition newline : string := String (ascii_of_nat 10) EmptyString.

Definition run_pipeline `{Pandas} : M bool :=
  print "Starting weather data processing pipeline..." ;;
  try_except
    (stages ;;
     print (newline ++ "Pipeline completed successfully!") ;;
     ret true)
    (fun e => print (newline ++ "Error in pipeline: " ++ str_exn e) ;; ret false).

(** [WeatherDataPipeline(input_file, output_dir)] on a given file system. *)
Definition init (input_file output_dir : string) (files : string -> File)
           (can_write : string -> bool) : State :=
  mkState input_file output_dir None [] [] files can_write [].

(** * Properties *)

(** ** The frame a state holds, and frame-level triples *)

(** The frame [self.df] refers to, if any. *)
Definition frame (s : State) : option DataFrame :=
  match self_df s with
  | None => None
  | Some l => match nth_error (heap s) l with
              | Some (ODataFrame df) => Some df
              | _ => None
              end
  end.

(** [m] run on any state holding the frame [df] returns [a] and leaves a
    state holding [df']. *)
Definition on_frame {A : Type} (m : M A) (df : DataFrame) (a : A) (df' : DataFrame) : Prop :=
  forall s, frame s = Some df ->
            exists s', m s = (Return a, s') /\ frame s' = Some df'.

Lemma nth_error_store_same {A : Type} (l : list A) (i : nat) (x : A) :
  (i < List.length l)%nat -> nth_error (store i x l) i = Some x.
Proof.
  revert i; induction l as [|y l IH]; intros [|i] Hi; simpl in *; try lia; auto.
  apply IH; lia.
Qed.

Lemma nth_error_snoc {A : Type} (l : list A) (x : A) :
  nth_error (l ++ [x]) (List.length l) = Some x.
Proof.
  rewrite nth_error_app2 by lia. now rewrite Nat.sub_diag.
Qed.

Lemma frame_some (s : State) (df : DataFrame) :
  frame s = Some df ->
  exists l, self_df s = Some l /\ nth_error (heap s) l = Some (ODataFrame df).
Proof.
  unfold frame. destruct (self_df s) as [l|]; [|discriminate].
  destruct (nth_error (heap s) l) as [[d| | | |]|] eqn:E; try discriminate.
  intros [= <-]. eauto.
Qed.

Lemma on_frame_ret {A : Type} (a : A) (df : DataFrame) : on_frame (ret a) df a df.
Proof. intros s Hs. exists s. auto. Qed.

Lemma on_frame_bind {A B : Type} (m : M A) (k : A -> M B) df a df1 b df2 :
  on_frame m df a df1 -> on_frame (k a) df1 b df2 -> on_frame (bind m k) df b df2.
Proof.
  intros Hm Hk s Hs. destruct (Hm s Hs) as (s1 & E1 & F1).
  destruct (Hk s1 F1) as (s2 & E2 & F2).
  exists s2. unfold bind. rewrite E1. auto.
Qed.

Lemma get_df_frame (s : State) (df : DataFrame) :
  frame s = Some df -> get_df s = (Return df, s).
Proof.
  intros Hs. destruct (frame_some s df Hs) as (l & Hl & Hn).
  unfold get_df. now rewrite Hl, Hn.
Qed.

Lemma on_frame_get_df df : on_frame get_df df df df.
Proof. intros s Hs. exists s. split; [now apply get_df_frame|assumption]. Qed.

Lemma on_frame_check_df msg df : on_frame (check_df msg) df tt df.
Proof.
  intros s Hs. exists s. split; [|assumption].
  destruct (frame_some s df Hs) as (l & Hl & _).
  unfold check_df. now rewrite Hl.
Qed.

Lemma on_frame_print line df : on_frame (print line) df tt df.
Proof. intros s Hs. eexists. split; [reflexivity|]. exact Hs. Qed.

Lemma on_frame_update_df f df : on_frame (update_df f) df tt (f df).
Proof.
  intros s Hs. destruct (frame_some s df Hs) as (l & Hl & Hn).
  eexists. split.
  - unfold update_df, bind. rewrite (get_df_frame s df Hs).
    rewrite Hl. reflexivity.
  - unfold frame. simpl. rewrite Hl.
    rewrite nth_error_store_same; [reflexivity|].
    apply nth_error_Some. now rewrite Hn.
Qed.

Lemma on_frame_rebind_df df df' : on_frame (rebind_df df') df tt df'.
Proof.
  intros s Hs. eexists. split; [reflexivity|].
  unfold frame. simpl. now rewrite nth_error_snoc.
Qed.

Lemma on_frame_getitem {V : Type} (get : Row -> V) col df :
  pd.has_column col df = true ->
  on_frame (getitem get col) df (map get (rows df)) df.
Proof.
  intros Hc. unfold getitem. eapply on_frame_bind; [apply on_frame_get_df|].
  rewrite Hc. apply on_frame_ret.
Qed.

Lemma on_frame_setitem {V : Type} (set : V -> Row -> Row) col vals df :
  on_frame (setitem set col vals) df tt (pd.assign set col vals df).
Proof. apply on_frame_update_df. Qed.

Lemma on_frame_len_df df : on_frame len_df df (List.length (rows df)) df.
Proof.
  unfold len_df. eapply on_frame_bind; [apply on_frame_get_df|apply on_frame_ret].
Qed.

Lemma on_frame_when_same b m df :
  on_frame m df tt df -> on_frame (when b m) df tt df.
Proof. destruct b; simpl; auto using on_frame_ret. Qed.

(** ** Column bookkeeping *)

Lemma add_column_present col cols :
  Text.mem col cols = true -> pd.add_column col cols = cols.
Proof. unfold pd.add_column. now intros ->. Qed.

Lemma assign_map {V : Type} (set : V -> Row -> Row) (f : Row -> V) (l : list Row) :
  map (fun p => set (fst p) (snd p)) (combine (map f l) l) = map (fun r => set (f r) r) l.
Proof. induction l as [|r l IH]; simpl; congruence. Qed.

Lemma assign_present {V : Type} (set : V -> Row -> Row) col (f : Row -> V) df :
  pd.has_column col df = true ->
  pd.assign set col (map f (rows df)) df
  = mkDataFrame (columns df) (map (fun r => set (f r) r) (rows df)).
Proof.
  intros Hc. unfold pd.assign. rewrite assign_map, add_column_present; auto.
Qed.

Lemma mask_rows_filter (g : Row -> bool) df :
  pd.mask_rows (map g (rows df)) df = mkDataFrame (columns df) (filter g (rows df)).
Proof.
  unfold pd.mask_rows. f_equal.
  induction (rows df) as [|r l IH]; simpl; [reflexivity|].
  destruct (g r); simpl; congruence.
Qed.

(** ** [clean_data] read as a function on frames *)

Section CleanFrames.
Context `{Pandas}.

(** The frame after the date is coerced. *)
Definition with_dates (df : DataFrame) : DataFrame :=
  mkDataFrame (columns df)
              (map (fun r => set_date (pd.to_datetime_cell (date r)) r) (rows df)).

(** The frame after the conditions are normalised. *)
Definition with_conditions (df : DataFrame) : DataFrame :=
  mkDataFrame (columns df)
              (map (fun r => set_weather_condition
                               (normalize_condition (weather_condition r)) r) (rows df)).

(** The frame after the rows of unknown condition are dropped. *)
Definition known_rows (df : DataFrame) : DataFrame :=
  mkDataFrame (columns df) (filter (fun r => known_condition (weather_condition r)) (rows df)).

(** The frame as it stands when imputation starts. *)
Definition before_imputation (df : DataFrame) : DataFrame :=
  known_rows (with_conditions (pd.dropna_date (with_dates df))).

(** The group pass on one column. *)
Definition city_pass (df : DataFrame) (col : string) : DataFrame :=
  pd.assign (set_float col) col
            (pd.groupby_transform (fun x => Num.fillna (Num.median x) x) col df) df.

(** The global pass on one column. *)
Definition global_pass (df : DataFrame) (col : string) : DataFrame :=
  let vals := map (get_float col) (rows df) in
  if existsb Num.isna vals
  then pd.assign (set_float col) col (Num.fillna (Num.median vals) vals) df
  else df.

Definition after_city_pass (df : DataFrame) : DataFrame :=
  fold_left city_pass numeric_cols (before_imputation df).

Definition cleaned (df : DataFrame) : DataFrame :=
  fold_left global_pass numeric_cols (after_city_pass df).

Definition has_required (df : DataFrame) : Prop :=
  forall col, In col required_columns -> pd.has_column col df = true.

Lemma columns_city_pass df col :
  pd.has_column col df = true -> columns (city_pass df col) = columns df.
Proof. intros Hc. simpl. now apply add_column_present. Qed.

Lemma columns_global_pass df col :
  pd.has_column col df = true -> columns (global_pass df col) = columns df.
Proof.
  intros Hc. unfold global_pass.
  destruct (existsb _ _); [simpl; now apply add_column_present|reflexivity].
Qed.

Lemma on_frame_city_step df col :
  pd.has_column "city" df = true -> pd.has_column col df = true ->
  on_frame (df <- get_df ;;
            when (pd.has_column col df)
                 (vals <- fill_with_city_median col ;;
                  setitem (set_float col) col vals))
           df tt (city_pass df col).
Proof.
  intros Hcity Hcol.
  eapply on_frame_bind; [apply on_frame_get_df|]. rewrite Hcol. simpl.
  eapply on_frame_bind.
  - unfold fill_with_city_median.
    eapply on_frame_bind; [apply on_frame_get_df|]. rewrite Hcity. apply on_frame_ret.
  - apply on_frame_setitem.
Qed.

Lemma on_frame_global_step df col :
  pd.has_column col df = true ->
  on_frame (df <- get_df ;;
            when (pd.has_column col df && existsb Num.isna (map (get_float col) (rows df)))
                 (vals <- getitem (get_float col) col ;;
                  setitem (set_float col) col (Num.fillna (Num.median vals) vals)))
           df tt (global_pass df col).
Proof.
  intros Hcol.
  eapply on_frame_bind; [apply on_frame_get_df|]. rewrite Hcol. simpl.
  unfold global_pass. destruct (existsb _ _); simpl; [|apply on_frame_ret].
  eapply on_frame_bind; [now apply on_frame_getitem|]. apply on_frame_setitem.
Qed.

Lemma clean_data_on_frame df :
  has_required df -> on_frame clean_data df tt (cleaned df).
Proof.
  intros Hreq.
  assert (Hdate : pd.has_column "date" df = true) by (apply Hreq; simpl; auto).
  assert (Hcity : pd.has_column "city" df = true) by (apply Hreq; simpl; auto).
  assert (Htemp : pd.has_column "temperature_celsius" df = true) by (apply Hreq; simpl; auto).
  assert (Hhum : pd.has_column "humidity_percent" df = true) by (apply Hreq; simpl; auto).
  assert (Hwind : pd.has_column "wind_speed_kph" df = true) by (apply Hreq; simpl; auto 10).
  assert (Hcond : pd.has_column "weather_condition" df = true) by (apply Hreq; simpl; auto 10).
  unfold clean_data.
  eapply on_frame_bind; [apply on_frame_check_df|].
  eapply on_frame_bind; [now apply on_frame_getitem|].
  eapply on_frame_bind; [apply on_frame_setitem|].
  unfold pd.to_datetime. rewrite map_map, assign_present by assumption.
  fold (with_dates df).
  eapply on_frame_bind; [apply on_frame_len_df|].
  eapply on_frame_bind; [apply on_frame_get_df|].
  eapply on_frame_bind; [apply on_frame_rebind_df|].
  eapply on_frame_bind; [apply on_frame_len_df|].
  eapply on_frame_bind; [apply on_frame_when_same, on_frame_print|].
  eapply on_frame_bind; [apply on_frame_get_df|].
  change (pd.has_column "weather_condition" (pd.dropna_date (with_dates df)))
    with (pd.has_column "weather_condition" df).
  rewrite Hcond. simpl when.
  eapply on_frame_bind.
  { eapply on_frame_bind; [now apply on_frame_getitem|]. apply on_frame_setitem. }
  rewrite map_map, assign_present by assumption.
  fold (with_conditions (pd.dropna_date (with_dates df))).
  eapply on_frame_bind; [apply on_frame_get_df|].
  change (pd.has_column "weather_condition" (with_conditions (pd.dropna_date (with_dates df))))
    with (pd.has_column "weather_condition" df).
  rewrite Hcond. simpl when.
  eapply on_frame_bind.
  { eapply on_frame_bind; [apply on_frame_len_df|].
    eapply on_frame_bind; [now apply on_frame_getitem|].
    eapply on_frame_bind; [apply on_frame_get_df|].
    eapply on_frame_bind; [apply on_frame_rebind_df|].
    eapply on_frame_bind; [apply on_frame_len_df|].
    apply on_frame_when_same, on_frame_print. }
  rewrite map_map.
  rewrite (mask_rows_filter (fun r => known_condition (weather_condition r))).
  fold (known_rows (with_conditions (pd.dropna_date (with_dates df)))).
  fold (before_imputation df).
  assert (Hcols : columns (before_imputation df) = columns df) by reflexivity.
  unfold cleaned, after_city_pass. simpl for_each. simpl fold_left.
  set (d0 := before_imputation df) in *.
  set (d1 := city_pass d0 "temperature_celsius").
  set (d2 := city_pass d1 "humidity_percent").
  set (d3 := city_pass d2 "wind_speed_kph").
  set (d4 := global_pass d3 "temperature_celsius").
  set (d5 := global_pass d4 "humidity_percent").
  assert (C1 : columns d1 = columns df)
    by (unfold d1; rewrite columns_city_pass; unfold pd.has_column; now rewrite ?Hcols).
  assert (C2 : columns d2 = columns df)
    by (unfold d2; rewrite columns_city_pass; unfold pd.has_column; now rewrite ?C1).
  assert (C3 : columns d3 = columns df)
    by (unfold d3; rewrite columns_city_pass; unfold pd.has_column; now rewrite ?C2).
  assert (C4 : columns d4 = columns df)
    by (unfold d4; rewrite columns_global_pass; unfold pd.has_column; now rewrite ?C3).
  assert (C5 : columns d5 = columns df)
    by (unfold d5; rewrite columns_global_pass; unfold pd.has_column; now rewrite ?C4).
  eapply on_frame_bind.
  { eapply on_frame_bind;
      [apply on_frame_city_step; unfold pd.has_column; now rewrite Hcols|].
    eapply on_frame_bind;
      [apply on_frame_city_step; unfold pd.has_column; fold d1; now rewrite C1|].
    eapply on_frame_bind;
      [apply on_frame_city_step; unfold pd.has_column; fold d1 d2; now rewrite C2|].
    apply on_frame_ret. }
  fold d1 d2 d3.
  eapply on_frame_bind;
    [apply on_frame_global_step; unfold pd.has_column; now rewrite C3|].
  eapply on_frame_bind;
    [apply on_frame_global_step; unfold pd.has_column; fold d4; now rewrite C4|].
  eapply on_frame_bind;
    [apply on_frame_global_step; unfold pd.has_column; fold d4 d5; now rewrite C5|].
  apply on_frame_ret.
Qed.

End CleanFrames.

(** ** Insertion sort: permutation, order, stability *)

Section SortingFacts.
Context {A : Type} (leb : A -> A -> bool).

Lemma insert_perm (x : A) (l : list A) : Permutation (insert leb x l) (x :: l).
Proof.
  induction l as [|y l IH]; simpl; [reflexivity|].
  destruct (leb x y); [reflexivity|].
  rewrite IH. apply perm_swap.
Qed.

Lemma isort_perm (l : list A) : Permutation (isort leb l) l.
Proof.
  induction l as [|x l IH]; simpl; [reflexivity|].
  rewrite insert_perm. now constructor.
Qed.


Variable R : A -> A -> Prop.
Hypothesis leb_true : forall x y, leb x y = true -> R x y.
Hypothesis leb_false : forall x y, leb x y = false -> R y x.

Lemma insert_sorted (x : A) (l : list A) : Sorted R l -> Sorted R (insert leb x l).
Proof.
  induction l as [|y l IH]; simpl; intros Hs.
  - repeat constructor.
  - destruct (leb x y) eqn:E.
    + constructor; [assumption|]. constructor. now apply leb_true.
    + inversion Hs as [|? ? Hs' Hd]; subst.
      constructor; [now apply IH|].
      destruct l as [|z l]; simpl.
      * constructor. now apply leb_false.
      * destruct (leb x z); constructor.
        -- now apply leb_false.
        -- now inversion Hd.
Qed.

Lemma isort_sorted (l : list A) : Sorted R (isort leb l).
Proof.
  induction l as [|x l IH]; simpl; [constructor|]. now apply insert_sorted.
Qed.

End SortingFacts.

Section Stability.
Context {A : Type} (leb : A -> A -> bool) (p : A -> bool).
(** The elements selected by [p] are pairwise ties of the order. *)
Hypothesis ties : forall x y, p x = true -> p y = true -> leb x y = true.



End Stability.

(** ** Positional indexing *)

Lemma take_app {A : Type} (i1 i2 : list nat) (l : list A) :
  take (i1 ++ i2) l = take i1 l ++ take i2 l.
Proof.
  induction i1 as [|i i1 IH]; simpl; [reflexivity|].
  destruct (nth_error l i); simpl; now rewrite IH.
Qed.

Lemma take_map {A B : Type} (f : A -> B) (idx : list nat) (l : list A) :
  take idx (map f l) = map f (take idx l).
Proof.
  induction idx as [|i idx IH]; simpl; [reflexivity|].
  rewrite nth_error_map. destruct (nth_error l i); simpl; now rewrite IH.
Qed.

Lemma take_seq_from {A : Type} (l1 l2 : list A) :
  take (seq (List.length l1) (List.length l2)) (l1 ++ l2) = l2.
Proof.
  revert l1; induction l2 as [|x l2 IH]; intros l1; simpl; [reflexivity|].
  rewrite nth_error_app2, Nat.sub_diag by lia. simpl.
  replace (l1 ++ x :: l2) with ((l1 ++ [x]) ++ l2) by now rewrite <- app_assoc.
  replace (S (List.length l1)) with (List.length (l1 ++ [x]))
    by (rewrite length_app; simpl; lia).
  now rewrite IH.
Qed.

Lemma take_seq {A : Type} (l : list A) : take (seq 0 (List.length l)) l = l.
Proof. exact (take_seq_from [] l). Qed.

Lemma take_perm {A : Type} (i1 i2 : list nat) (l : list A) :
  Permutation i1 i2 -> Permutation (take i1 l) (take i2 l).
Proof.
  induction 1 as [|i ? ? ? IH|i j ?|]; simpl.
  - reflexivity.
  - destruct (nth_error l i); [now constructor|assumption].
  - destruct (nth_error l i), (nth_error l j); try reflexivity. apply perm_swap.
  - etransitivity; eassumption.
Qed.

Lemma take_pairs {A : Type} (ps : list (A * nat)) (l : list A) :
  (forall k i, In (k, i) ps -> nth_error l i = Some k) ->
  take (map snd ps) l = map fst ps.
Proof.
  induction ps as [|[k i] ps IH]; simpl; intros Hin; [reflexivity|].
  rewrite (Hin k i) by auto. f_equal. apply IH. intros; apply Hin; auto.
Qed.

Lemma in_combine_seq {A : Type} (l : list A) (a : nat) (k : A) (i : nat) :
  In (k, i) (combine l (seq a (List.length l))) ->
  (a <= i)%nat /\ nth_error l (i - a) = Some k.
Proof.
  revert a; induction l as [|x l IH]; simpl; intros a; [tauto|].
  intros [E|Hin].
  - inversion E; subst. rewrite Nat.sub_diag. auto.
  - destruct (IH _ Hin) as [Hle Hn]. split; [lia|].
    replace (i - a)%nat with (S (i - S a)) by lia. exact Hn.
Qed.

Lemma map_snd_combine {A B : Type} (l : list A) (l' : list B) :
  List.length l = List.length l' -> map snd (combine l l') = l'.
Proof.
  revert l'; induction l as [|x l IH]; intros [|y l'] Hl; simpl in *;
    try discriminate; [reflexivity|]. f_equal. apply IH. lia.
Qed.

(** ** Two sorting kinds that meet the contract of [argsort] *)

(** Positions by insertion sort of the (key, position) pairs under [leb]. *)
Definition argsort_with (leb : Z * nat -> Z * nat -> bool) (ks : list Z) : list nat :=
  map snd (isort leb (combine ks (seq 0 (List.length ks)))).

Section ArgsortWith.
Variable leb : Z * nat -> Z * nat -> bool.
Hypothesis leb_true : forall x y, leb x y = true -> (fst x <= fst y)%Z.
Hypothesis leb_false : forall x y, leb x y = false -> (fst y <= fst x)%Z.

Lemma argsort_with_perm (ks : list Z) :
  Permutation (argsort_with leb ks) (seq 0 (List.length ks)).
Proof.
  unfold argsort_with.
  rewrite (Permutation_map snd (isort_perm leb _)).
  rewrite map_snd_combine; [reflexivity|now rewrite length_seq].
Qed.

Lemma argsort_with_sorted (ks : list Z) : Sorted Z.le (take (argsort_with leb ks) ks).
Proof.
  unfold argsort_with. rewrite take_pairs.
  - assert (Hs := isort_sorted leb (fun x y => (fst x <= fst y)%Z) leb_true leb_false
                               (combine ks (seq 0 (List.length ks)))).
    induction Hs as [|x l Hs IH Hd]; simpl; constructor; auto.
    destruct Hd; simpl; constructor; auto.
  - intros k i Hin.
    apply (Permutation_in _ (isort_perm leb _)) in Hin.
    apply in_combine_seq in Hin. destruct Hin as [_ Hn].
    now rewrite Nat.sub_0_r in Hn.
Qed.

End ArgsortWith.

(** Ties in order of position (a stable kind). *)
Definition leb_stable (x y : Z * nat) : bool := (fst x <=? fst y)%Z.


(** A parser of "YYYY-MM-DD". *)
Definition digit (c : ascii) : option Z :=
  let n := nat_of_ascii c in
  if (48 <=? n)%nat && (n <=? 57)%nat then Some (Z.of_nat (n - 48)) else None.

Fixpoint digits (acc : Z) (s : string) : option Z :=
  match s with
  | EmptyString => Some acc
  | String c s' => match digit c with
                   | Some d => digits (acc * 10 + d) s'
                   | None => None
                   end
  end.

Definition civil (y m d : option Z) : option Z :=
  match y, m, d with
  | Some y, Some m, Some d =>
      let days := Calendar.days_from_civil y m d in
      match Calendar.civil_from_days days with
      | (y', m', d') =>
          if (y' =? y)%Z && (m' =? m)%Z && (d' =? d)%Z
          then Some (days * Calendar.ns_per_day)%Z else None
      end
  | _, _, _ => None
  end.

Definition parse_iso (s : string) : option Z :=
  if (String.length s =? 10)%nat
     && (substring 4 1 s =? "-") && (substring 7 1 s =? "-")
  then civil (digits 0 (substring 0 4 s)) (digits 0 (substring 5 2 s))
             (digits 0 (substring 8 2 s))
  else None.

(** A parser of "DD/MM/YYYY", falling back on "YYYY-MM-DD". *)
Definition parse_dayfirst (s : string) : option Z :=
  if (String.length s =? 10)%nat
     && (substring 2 1 s =? "/") && (substring 5 1 s =? "/")
  then civil (digits 0 (substring 6 4 s)) (digits 0 (substring 3 2 s))
             (digits 0 (substring 0 2 s))
  else parse_iso s.

(** A library whose default sort happens to be stable. *)
#[local] Instance StablePandas : Pandas := {
  parse_datetime := parse_iso;
  parse_datetime_dayfirst := parse_dayfirst;
  argsort := argsort_with leb_stable;
  argsort_perm := argsort_with_perm leb_stable;
  argsort_sorted := argsort_with_sorted leb_stable
                      (fun x y E => proj1 (Z.leb_le _ _) E)
                      (fun x y E => Z.lt_le_incl _ _ (proj1 (Z.leb_gt _ _) E));
  std := fun _ => None
}.


Example parse_iso_example :
  parse_iso "2023-01-02" = Some (Calendar.timestamp 2023 1 2)
  /\ Calendar.dt_year (Calendar.timestamp 2023 1 2) = 2023%Z
  /\ Calendar.dt_month (Calendar.timestamp 2023 1 2) = 1%Z
  /\ Calendar.dt_day (Calendar.timestamp 2023 1 2) = 2%Z
  /\ parse_iso "invalid_date" = None
  /\ parse_iso "2023-02-30" = None
  /\ parse_dayfirst "02/01/2023" = Some (Calendar.timestamp 2023 1 2).
Proof. vm_compute. repeat split; reflexivity. Qed.

(** ** Which exceptions a computation can raise *)

(** [m] raises no [ValueError], whatever the state. *)
Definition no_value_error {A : Type} (m : M A) : Prop :=
  forall s e s', m s = (Raise e, s') -> forall msg, e <> ValueError msg.

Lemma nve_ret {A : Type} (a : A) : no_value_error (ret a).
Proof. intros s e s' E. discriminate. Qed.

Lemma nve_bind {A B : Type} (m : M A) (k : A -> M B) :
  no_value_error m -> (forall a, no_value_error (k a)) -> no_value_error (bind m k).
Proof.
  intros Hm Hk s e s' E. unfold bind in E.
  destruct (m s) as [[a|e1] s1] eqn:E1.
  - eapply Hk; eauto.
  - inversion E; subst. eapply Hm; eauto.
Qed.

Lemma nve_get_df : no_value_error get_df.
Proof.
  intros s e s' E msg. unfold get_df in E.
  destruct (self_df s) as [l|]; [|inversion E; discriminate].
  destruct (nth_error (heap s) l) as [[]|]; inversion E; discriminate.
Qed.

Lemma nve_print line : no_value_error (print line).
Proof. intros s e s' E. discriminate. Qed.

Lemma nve_alloc o : no_value_error (alloc o).
Proof. intros s e s' E. discriminate. Qed.

Lemma nve_update_df f : no_value_error (update_df f).
Proof.
  apply nve_bind; [apply nve_get_df|].
  intros df s e s' E. destruct (self_df s); discriminate.
Qed.

Lemma nve_rebind_df df : no_value_error (rebind_df df).
Proof.
  apply nve_bind; [apply nve_alloc|]. intros l s e s' E. discriminate.
Qed.

Lemma nve_getitem {V : Type} (get : Row -> V) col : no_value_error (getitem get col).
Proof.
  apply nve_bind; [apply nve_get_df|]. intros df.
  destruct (pd.has_column col df); [apply nve_ret|].
  intros s e s' E msg. inversion E; discriminate.
Qed.

Lemma nve_len_df : no_value_error len_df.
Proof. apply nve_bind; [apply nve_get_df|]. intros; apply nve_ret. Qed.

Lemma nve_when b m : no_value_error m -> no_value_error (when b m).
Proof. destruct b; simpl; auto using nve_ret. Qed.

Lemma nve_for_each {A : Type} (l : list A) body :
  (forall x, no_value_error (body x)) -> no_value_error (for_each l body).
Proof.
  intros Hb. induction l as [|x l IH]; simpl; [apply nve_ret|].
  apply nve_bind; auto.
Qed.

Lemma nve_fill_with_city_median col : no_value_error (fill_with_city_median col).
Proof.
  apply nve_bind; [apply nve_get_df|]. intros df.
  destruct (pd.has_column "city" df); [apply nve_ret|].
  intros s e s' E msg. inversion E; discriminate.
Qed.

Create HintDb nve.

#[local] Hint Resolve nve_ret nve_get_df nve_print nve_alloc nve_update_df nve_rebind_df
  nve_getitem nve_len_df nve_fill_with_city_median : nve.

Ltac nve :=
  repeat first
    [ solve [unfold setitem; auto with nve]
    | apply nve_when
    | apply nve_for_each; intros ?
    | apply nve_bind; [|intros ?] ].


(** ** [load_data], case by case *)

Section LoadData.
Context `{Pandas}.

Definition missing_columns (header : list string) : list string :=
  filter (fun col => negb (Text.mem col header)) required_columns.

Lemma load_data_unreadable (s : State) :
  disk s (self_input_file s) = NoSuchFile ->
  exists msg s', load_data s = (Raise (OSError msg), s')
                 /\ self_df s' = self_df s /\ heap s' = heap s.
Proof.
  intros Hd. unfold load_data, try_except, bind, read_csv. rewrite Hd.
  eexists _, _. split; [reflexivity|]. split; reflexivity.
Qed.

Lemma load_data_no_date (s : State) header records :
  disk s (self_input_file s) = Csv header records ->
  Text.mem "date" header = false ->
  exists s', load_data s
             = (Raise (ValueError "Missing column provided to 'parse_dates': 'date'"), s')
             /\ self_df s' = self_df s /\ heap s' = heap s.
Proof.
  intros Hd Hm. unfold load_data, try_except, bind, read_csv. rewrite Hd, Hm.
  eexists. split; [reflexivity|]. split; reflexivity.
Qed.

Lemma load_data_missing (s : State) header records col cols :
  disk s (self_input_file s) = Csv header records ->
  Text.mem "date" header = true ->
  missing_columns header = col :: cols ->
  exists s', load_data s
             = (Raise (ValueError ("Missing required columns: "
                                   ++ Text.join ", " (col :: cols))), s')
             /\ frame s' = Some (read_frame header records).
Proof.
  intros Hd Hm Hc.
  unfold load_data, try_except, bind, read_csv. rewrite Hd, Hm.
  unfold rebind_df, bind, alloc. cbv beta iota.
  change (filter _ required_columns) with (missing_columns header). rewrite Hc.
  eexists. split; [reflexivity|].
  unfold frame. simpl. now rewrite nth_error_snoc.
Qed.

Lemma load_data_complete (s : State) header records :
  disk s (self_input_file s) = Csv header records ->
  Text.mem "date" header = true ->
  missing_columns header = [] ->
  exists s', load_data s = (Return tt, s')
             /\ frame s' = Some (read_frame header records).
Proof.
  intros Hd Hm Hc.
  unfold load_data, try_except, bind, read_csv. rewrite Hd, Hm.
  unfold rebind_df, bind, alloc. cbv beta iota.
  change (filter _ required_columns) with (missing_columns header). rewrite Hc.
  eexists. split; [reflexivity|].
  unfold frame. simpl. now rewrite nth_error_snoc.
Qed.

Lemma missing_columns_nil header :
  missing_columns header = [] <->
  (forall col, In col required_columns -> Text.mem col header = true).
Proof.
  unfold missing_columns. split.
  - intros Hf col Hin.
    destruct (Text.mem col header) eqn:E; [reflexivity|].
    assert (Hx : In col (filter (fun c => negb (Text.mem c header)) required_columns))
      by (apply filter_In; split; [assumption|now rewrite E]).
    rewrite Hf in Hx. destruct Hx.
  - intros Hall. induction required_columns as [|c l IH]; simpl; [reflexivity|].
    rewrite (Hall c) by (simpl; auto). simpl. apply IH. intros; apply Hall; simpl; auto.
Qed.

Lemma date_required_missing header :
  Text.mem "date" header = false -> missing_columns header <> [].
Proof.
  intros Hm Hnil. rewrite missing_columns_nil in Hnil.
  rewrite Hnil in Hm; [discriminate|simpl; auto].
Qed.


End LoadData.

(** ** Sample inputs: the data of the test suite *)

Definition test_records : list CsvRecord :=
  [ mkCsvRecord "2023-01-01" "TestCity" (Some 25) (Some 60) (Some 10) "sunny";
    mkCsvRecord "2023-01-02" "TestCity" None (Some 65) (Some 12) "cloudy";
    mkCsvRecord "2023-01-03" "TestCity" (Some 22) None (Some 8) "rainy";
    mkCsvRecord "2023-01-04" "TestCity" (Some 20) (Some 70) None "cloudy";
    mkCsvRecord "2023-01-05" "TestCity" (Some 18) (Some 75) (Some 15) "sunny";
    mkCsvRecord "invalid_date" "TestCity" (Some 15) (Some 80) (Some 20) "unknown";
    mkCsvRecord "2023-01-06" "TestCity" (Some 19) (Some 85) (Some 25) "sunny" ].

Definition one_file (path : string) (f : File) : string -> File :=
  fun p => if p =? path then f else NoSuchFile.

Definition test_state : State :=
  init "test_weather_data.csv" "outputs"
       (one_file "test_weather_data.csv" (Csv required_columns test_records))
       (fun _ => true).

(** The same file without its [city] column. *)
Definition no_city_state : State :=
  init "test_weather_data.csv" "outputs"
       (one_file "test_weather_data.csv"
                 (Csv ["date"; "temperature_celsius"; "humidity_percent"; "wind_speed_kph";
                       "weather_condition"] test_records))
       (fun _ => true).

Definition after {A : Type} (m : M A) (s : State) : State := snd (m s).

(** ** Error handling of [clean_data] *)




(** ** Error handling of [load_data] *)

Lemma missing_columns_in header col :
  In col (missing_columns header) <-> In col required_columns /\ Text.mem col header = false.
Proof.
  unfold missing_columns. rewrite filter_In.
  destruct (Text.mem col header); simpl; intuition congruence.
Qed.

(** C7, as the code has it: [load_data] fails with a schema error exactly
    when a required column is absent and with an I/O error when the file
    cannot be read, and a complete file is loaded.  A failure leaves
    [self.df] and the heap untouched when the file cannot be read or has no
    [date] column; when [date] is there and another required column is
    absent, the parsed table is in [self.df] when the error is raised. *)
Theorem load_data_failures `{Pandas} (s : State) :
  match disk s (self_input_file s) with
  | NoSuchFile =>
      exists e s', load_data s = (Raise e, s') /\ is_IOError e = true
                   /\ self_df s' = self_df s /\ heap s' = heap s
  | Csv header records =>
      ((exists e s', load_data s = (Raise e, s') /\ is_SchemaError e = true)
       <-> (exists col, In col required_columns /\ Text.mem col header = false))
      /\ ((forall col, In col required_columns -> Text.mem col header = true) ->
          exists s', load_data s = (Return tt, s')
                     /\ frame s' = Some (read_frame header records))
      /\ (Text.mem "date" header = false ->
          forall e s', load_data s = (Raise e, s') ->
                       self_df s' = self_df s /\ heap s' = heap s)
      /\ (Text.mem "date" header = true ->
          forall e s', load_data s = (Raise e, s') ->
                       frame s' = Some (read_frame header records))
  end.
Proof.
  destruct (disk s (self_input_file s)) as [|header records] eqn:Hd.
  - destruct (load_data_unreadable s Hd) as (msg & s' & E & Hdf & Hh).
    exists (OSError msg), s'. auto.
  - destruct (Text.mem "date" header) eqn:Hm.
    + destruct (missing_columns header) as [|c cs] eqn:Hc.
      * destruct (load_data_complete s header records Hd Hm Hc) as (s1 & E1 & F1).
        pose proof (proj1 (missing_columns_nil header) Hc) as Hall.
        repeat split.
        -- intros (e & s' & E & _). congruence.
        -- intros (col & Hin & Hf). rewrite (Hall col Hin) in Hf. discriminate.
        -- intros _. eauto.
        -- discriminate.
        -- discriminate.
        -- intros _ e s' E. congruence.
      * destruct (load_data_missing s header records c cs Hd Hm Hc) as (s1 & E1 & F1).
        assert (Hin : In c (missing_columns header)) by (rewrite Hc; simpl; auto).
        apply missing_columns_in in Hin.
        repeat split.
        -- intros _. exists c. exact Hin.
        -- intros _. do 2 eexists. split; [exact E1|reflexivity].
        -- intros Hall. destruct Hin as [Hin Hf].
           rewrite (Hall c Hin) in Hf. discriminate.
        -- discriminate.
        -- discriminate.
        -- intros _ e s' E. congruence.
    + destruct (load_data_no_date s header records Hd Hm) as (s1 & E1 & Hdf & Hh).
      repeat split.
      * intros _. exists "date". split; [simpl; auto|assumption].
      * intros _. do 2 eexists. split; [exact E1|reflexivity].
      * intros Hall. rewrite Hall in Hm; [discriminate|simpl; auto].
      * assert (s' = s1) by congruence. now subst.
      * assert (s' = s1) by congruence. now subst.
      * discriminate.
Qed.

(** C7, the part the code does not keep: on the test file without its
    [city] column the load fails with a schema error, and yet the state it
    leaves holds a table where there was none. *)
Lemma load_data_failure_leaves_table :
  frame no_city_state = None
  /\ exists e s' df, load_data no_city_state = (Raise e, s')
                     /\ is_SchemaError e = true
                     /\ frame s' = Some df.
Proof.
  split; [reflexivity|].
  eexists _, _, _. vm_compute. repeat split; reflexivity.
Qed.

(** ** [run_pipeline] *)

Lemma bind_returns {A B : Type} (m : M A) (k : A -> M B) (s s' : State) (b : B) :
  bind m k s = (Return b, s') <->
  exists a s1, m s = (Return a, s1) /\ k a s1 = (Return b, s').
Proof.
  unfold bind. destruct (m s) as [[a|e] s1]; split.
  - eauto.
  - intros (a' & s1' & E & K). now inversion E; subst.
  - discriminate.
  - intros (a' & s1' & E & _). discriminate.
Qed.

(** C8: [run_pipeline] never raises.  It returns [True] exactly when the
    five stages, run in the order load, clean, transform, analyze, save,
    each on the state the one before left, all return; otherwise the
    exception of the first stage that fails is caught, a diagnostic line is
    printed last, and the result is [False]. *)
Theorem run_pipeline_reports `{Pandas} (s : State) :
  let s0 := with_stdout (stdout s ++ ["Starting weather data processing pipeline..."]) s in
  exists b s',
    run_pipeline s = (Return b, s')
    /\ (b = true <->
        exists s1 s2 s3 r s4 s5,
          load_data s0 = (Return tt, s1) /\ clean_data s1 = (Return tt, s2)
          /\ transform_data s2 = (Return tt, s3) /\ analyze_data s3 = (Return r, s4)
          /\ save_results r s4 = (Return tt, s5))
    /\ (b = true -> last (stdout s') "" = (newline ++ "Pipeline completed successfully!")%string)
    /\ (b = false ->
        exists e s1, stages s0 = (Raise e, s1)
                     /\ s' = with_stdout
                                (stdout s1 ++ [(newline ++ "Error in pipeline: "
                                                ++ str_exn e)%string]) s1).
Proof.
  intros s0.
  assert (Hchain : forall s5, stages s0 = (Return tt, s5) <->
            exists s1 s2 s3 r s4,
              load_data s0 = (Return tt, s1) /\ clean_data s1 = (Return tt, s2)
              /\ transform_data s2 = (Return tt, s3) /\ analyze_data s3 = (Return r, s4)
              /\ save_results r s4 = (Return tt, s5)).
  { intros s5. unfold stages. rewrite bind_returns. split.
    - intros ([] & s1 & E1 & K1). apply bind_returns in K1.
      destruct K1 as ([] & s2 & E2 & K2). apply bind_returns in K2.
      destruct K2 as ([] & s3 & E3 & K3). apply bind_returns in K3.
      destruct K3 as (r & s4 & E4 & K4). exists s1, s2, s3, r, s4. auto.
    - intros (s1 & s2 & s3 & r & s4 & E1 & E2 & E3 & E4 & E5).
      exists tt, s1. split; [assumption|]. apply bind_returns.
      exists tt, s2. split; [assumption|]. apply bind_returns.
      exists tt, s3. split; [assumption|]. apply bind_returns.
      exists r, s4. auto. }
  unfold run_pipeline, try_except.
  unfold bind at 1. unfold print at 1. fold s0.
  unfold bind at 1.
  destruct (stages s0) as [[[]|e] s1] eqn:Es.
  - eexists true, _. split; [reflexivity|]. repeat split.
    + intros _. destruct (proj1 (Hchain s1) eq_refl) as (t1 & t2 & t3 & r & t4 & Hc).
      exists t1, t2, t3, r, t4, s1. exact Hc.
    + intros _. simpl. now rewrite last_last.
    + discriminate.
  - eexists false, _. split; [reflexivity|]. repeat split.
    + discriminate.
    + intros (t1 & t2 & t3 & r & t4 & t5 & Hc).
      assert (X : (@Raise unit e, s1) = (Return tt, t5)) by (apply Hchain; eauto 10).
      discriminate.
    + discriminate.
    + intros _. exists e, s1. split; reflexivity.
Qed.

(** ** [analyze_data] leaves the table alone *)

(** [m] only reads the state. *)
Definition reads_only {A : Type} (m : M A) : Prop :=
  forall s o s', m s = (o, s') -> s' = s.

Lemma reads_only_ret {A : Type} (a : A) : reads_only (ret a).
Proof. intros s o s' E. now inversion E. Qed.

Lemma reads_only_raise {A : Type} (e : exn) : reads_only (@raise A e).
Proof. intros s o s' E. now inversion E. Qed.

Lemma reads_only_bind {A B : Type} (m : M A) (k : A -> M B) :
  reads_only m -> (forall a, reads_only (k a)) -> reads_only (bind m k).
Proof.
  intros Hm Hk s o s' E. unfold bind in E.
  destruct (m s) as [[a|e] s1] eqn:E1; apply Hm in E1; subst s1.
  - eapply Hk; eauto.
  - now inversion E.
Qed.

Lemma reads_only_check_df msg : reads_only (check_df msg).
Proof. intros s o s' E. unfold check_df in E. destruct (self_df s); now inversion E. Qed.

Lemma reads_only_get_df : reads_only get_df.
Proof.
  intros s o s' E. unfold get_df in E.
  destruct (self_df s) as [l|]; [|now inversion E].
  destruct (nth_error (heap s) l) as [[]|]; now inversion E.
Qed.

Lemma reads_only_getitem {V : Type} (get : Row -> V) col : reads_only (getitem get col).
Proof.
  apply reads_only_bind; [apply reads_only_get_df|]. intros df.
  destruct (pd.has_column col df); [apply reads_only_ret|apply reads_only_raise].
Qed.

Lemma reads_only_require_columns cols : reads_only (require_columns cols).
Proof.
  apply reads_only_bind; [apply reads_only_get_df|]. intros df.
  destruct (filter _ cols); [apply reads_only_ret|apply reads_only_raise].
Qed.

Lemma alloc_returns o s l s' :
  alloc o s = (Return l, s') -> l = List.length (heap s) /\ s' = with_heap (heap s ++ [o]) s.
Proof. unfold alloc. intros E. inversion E. auto. Qed.

Lemma four_allocs {A : Type} (h : list A) (o1 o2 o3 o4 : A) :
  (((h ++ [o1]) ++ [o2]) ++ [o3]) ++ [o4] = h ++ [o1; o2; o3; o4].
Proof. now repeat rewrite <- app_assoc. Qed.

Definition is_view (o : Obj) : bool :=
  match o with ODataFrame _ => false | _ => true end.

(** The effect of a call of [analyze_data] that returns: nothing that was in
    the heap changes, and the views are new objects. *)
Lemma analyze_data_effect `{Pandas} (s s' : State) (views : list (string * nat)) :
  analyze_data s = (Return views, s') ->
  self_df s' = self_df s
  /\ frame s' = frame s
  /\ (forall l, (l < List.length (heap s))%nat ->
                nth_error (heap s') l = nth_error (heap s) l)
  /\ map fst views = ["basic_stats"; "city_stats"; "weather_freq"; "top_cities"]
  /\ NoDup (map snd views)
  /\ (forall name l, In (name, l) views ->
        (List.length (heap s) <= l)%nat
        /\ self_df s <> Some l
        /\ exists o, nth_error (heap s') l = Some o /\ is_view o = true).
Proof.
  intros E. unfold analyze_data in E.
  apply bind_returns in E. destruct E as (? & s1 & E1 & E).
  apply reads_only_check_df in E1. subst s1.
  apply bind_returns in E. destruct E as (? & s1 & E1 & E).
  apply reads_only_require_columns in E1. subst s1.
  apply bind_returns in E. destruct E as (df & s1 & E1 & E).
  pose proof E1 as Hget. apply reads_only_get_df in E1. subst s1.
  apply bind_returns in E. destruct E as (l1 & s1 & E1 & E).
  apply alloc_returns in E1. destruct E1 as [-> ->].
  apply bind_returns in E. destruct E as (? & s1 & E1 & E).
  apply reads_only_require_columns in E1. subst s1.
  apply bind_returns in E. destruct E as (df2 & s1 & E1 & E).
  apply reads_only_get_df in E1. subst s1.
  apply bind_returns in E. destruct E as (l2 & s1 & E1 & E).
  apply alloc_returns in E1. destruct E1 as [-> ->].
  apply bind_returns in E. destruct E as (conds & s1 & E1 & E).
  apply reads_only_getitem in E1. subst s1.
  apply bind_returns in E. destruct E as (l3 & s1 & E1 & E).
  apply alloc_returns in E1. destruct E1 as [-> ->].
  apply bind_returns in E. destruct E as (? & s1 & E1 & E).
  apply reads_only_require_columns in E1. subst s1.
  apply bind_returns in E. destruct E as (df3 & s1 & E1 & E).
  apply reads_only_get_df in E1. subst s1.
  apply bind_returns in E. destruct E as (l4 & s1 & E1 & E).
  apply alloc_returns in E1. destruct E1 as [-> ->].
  unfold ret in E. inversion E; subst; clear E.
  simpl heap. simpl self_df.
  set (h := heap s) in *.
  rewrite four_allocs.
  repeat rewrite length_app. simpl List.length.
  assert (Hdf : exists l, self_df s = Some l /\ (l < List.length h)%nat).
  { unfold get_df in Hget. destruct (self_df s) as [l|]; [|discriminate].
    exists l. split; [reflexivity|]. apply nth_error_Some. fold h in Hget.
    destruct (nth_error h l); [discriminate|]. discriminate. }
  destruct Hdf as (l0 & Hl0 & Hlt).
  split; [reflexivity|]. split.
  { unfold frame. simpl. rewrite Hl0. fold h. now rewrite nth_error_app1. }
  split; [intros l Hl; now apply nth_error_app1|].
  split; [reflexivity|]. split.
  { simpl. repeat constructor; simpl; intuition lia. }
  intros name l Hin. simpl in Hin.
  destruct Hin as [Hin|[Hin|[Hin|[Hin|[]]]]]; inversion Hin; subst; clear Hin;
    (split; [lia|]); (split; [rewrite Hl0; intros [= ->]; lia|]);
    rewrite nth_error_app2 by lia.
  - rewrite Nat.sub_diag. simpl. eauto.
  - replace (List.length h + 1 - List.length h)%nat with 1%nat by lia. simpl. eauto.
  - replace (List.length h + 1 + 1 - List.length h)%nat with 2%nat by lia. simpl. eauto.
  - replace (List.length h + 1 + 1 + 1 - List.length h)%nat with 3%nat by lia. simpl. eauto.
Qed.

(** The test data after load, clean and transform. *)
Definition transformed_test_state : State :=
  after transform_data (after clean_data (after load_data test_state)).

(** ** [transform_data] read as a function on frames *)

Lemma mem_add_column c col cols :
  Text.mem c cols = true -> Text.mem c (pd.add_column col cols) = true.
Proof.
  unfold pd.add_column. destruct (Text.mem col cols); [auto|].
  intros Hc. unfold Text.mem in *. rewrite existsb_app, Hc. reflexivity.
Qed.

Lemma has_column_assign {V : Type} (set : V -> Row -> Row) c col vals df :
  pd.has_column c df = true -> pd.has_column c (pd.assign set col vals df) = true.
Proof. apply mem_add_column. Qed.

Lemma rows_assign_map {V : Type} (set : V -> Row -> Row) col (f : Row -> V) df :
  rows (pd.assign set col (map f (rows df)) df) = map (fun r => set (f r) r) (rows df).
Proof. simpl. apply assign_map. Qed.

Section TransformFrames.
Context `{Pandas}.

(** The derived columns of one row. *)
Definition derive (r : Row) : Row :=
  let r1 := set_year (pd.dt Calendar.dt_year (date r)) r in
  let r2 := set_month (pd.dt Calendar.dt_month (date r1)) r1 in
  let r3 := set_day (pd.dt Calendar.dt_day (date r2)) r2 in
  set_float "temperature_fahrenheit" (to_fahrenheit (temperature_celsius r3)) r3.

Definition derived_columns (cols : list string) : list string :=
  pd.add_column "temperature_fahrenheit"
    (pd.add_column "day" (pd.add_column "month" (pd.add_column "year" cols))).

(** The frame [transform_data] leaves. *)
Definition transformed (df : DataFrame) : DataFrame :=
  mkDataFrame (derived_columns (columns df))
              (map derive (rows (pd.sort_values_date (with_dates df)))).

Lemma transform_data_on_frame df :
  pd.has_column "date" df = true ->
  pd.has_column "temperature_celsius" df = true ->
  on_frame transform_data df tt (transformed df).
Proof.
  intros Hdate Htemp. unfold transform_data.
  eapply on_frame_bind; [apply on_frame_check_df|].
  eapply on_frame_bind; [now apply on_frame_getitem|].
  eapply on_frame_bind; [apply on_frame_setitem|].
  unfold pd.to_datetime. rewrite map_map, assign_present by assumption.
  fold (with_dates df).
  eapply on_frame_bind; [apply on_frame_get_df|].
  eapply on_frame_bind; [apply on_frame_rebind_df|].
  set (d0 := pd.sort_values_date (with_dates df)).
  assert (H0 : pd.has_column "date" d0 = true) by exact Hdate.
  assert (T0 : pd.has_column "temperature_celsius" d0 = true) by exact Htemp.
  eapply on_frame_bind; [now apply on_frame_getitem|].
  eapply on_frame_bind; [apply on_frame_setitem|].
  set (d1 := pd.assign set_year "year" _ d0).
  assert (H1 : pd.has_column "date" d1 = true) by now apply has_column_assign.
  eapply on_frame_bind; [now apply on_frame_getitem|].
  eapply on_frame_bind; [apply on_frame_setitem|].
  set (d2 := pd.assign set_month "month" _ d1).
  assert (H2 : pd.has_column "date" d2 = true) by now apply has_column_assign.
  eapply on_frame_bind; [now apply on_frame_getitem|].
  eapply on_frame_bind; [apply on_frame_setitem|].
  set (d3 := pd.assign set_day "day" _ d2).
  assert (T3 : pd.has_column "temperature_celsius" d3 = true)
    by (repeat apply has_column_assign; exact T0).
  eapply on_frame_bind; [apply on_frame_get_df|].
  rewrite T3. simpl when.
  eapply on_frame_bind; [now apply on_frame_getitem|].
  assert (E : pd.assign (set_float "temperature_fahrenheit") "temperature_fahrenheit"
                (map to_fahrenheit (map (get_float "temperature_celsius") (rows d3))) d3
              = transformed df).
  { unfold transformed, derived_columns. unfold pd.assign at 1. f_equal.
    unfold d3, d2, d1, pd.assign. cbn [rows].
    fold d0. generalize (rows d0). intros l.
    induction l as [|r l IH]; [reflexivity|].
    cbn [map combine fst snd]. f_equal. exact IH. }
  rewrite <- E. apply on_frame_setitem.
Qed.

End TransformFrames.

Lemma mem_add_column_self col cols : Text.mem col (pd.add_column col cols) = true.
Proof.
  unfold pd.add_column. destruct (Text.mem col cols) eqn:E; [exact E|].
  unfold Text.mem. rewrite existsb_app. simpl. rewrite String.eqb_refl.
  now rewrite orb_true_r.
Qed.



Definition cleaned_test_state : State := after clean_data (after load_data test_state).

Definition frame_of (s : State) : DataFrame :=
  match frame s with Some df => df | None => mkDataFrame [] [] end.


(** ** [sort_values]: order and permutation *)

(** Order of the sort keys with [na_position='last']. *)
Definition key_le (a b : option Z) : Prop :=
  match a, b with
  | Some x, Some y => (x <= y)%Z
  | _, None => True
  | None, Some _ => False
  end.

(** Non-decreasing dates, missing dates last. *)
Definition date_le (a b : DateCell) : Prop := key_le (pd.date_key a) (pd.date_key b).

Lemma positions_from_bounds {A : Type} (p : A -> bool) (a : nat) (l : list A) (i : nat) :
  In i (positions_from p a l) -> (a <= i < a + List.length l)%nat.
Proof.
  revert a; induction l as [|x l IH]; simpl; intros a; [tauto|].
  destruct (p x); simpl; intros Hin.
  - destruct Hin as [<-|Hin]; [lia|]. apply IH in Hin. lia.
  - apply IH in Hin. lia.
Qed.

Lemma take_positions_from {A : Type} (p : A -> bool) (pre l : list A) :
  take (positions_from p (List.length pre) l) (pre ++ l) = filter p l.
Proof.
  revert pre; induction l as [|x l IH]; intros pre; simpl; [reflexivity|].
  assert (E : take (positions_from p (S (List.length pre)) l) (pre ++ x :: l) = filter p l).
  { replace (pre ++ x :: l) with ((pre ++ [x]) ++ l) by now rewrite <- app_assoc.
    replace (S (List.length pre)) with (List.length (pre ++ [x]))
      by (rewrite length_app; simpl; lia).
    apply IH. }
  destruct (p x); simpl; [|exact E].
  rewrite nth_error_app2, Nat.sub_diag by lia. simpl. now rewrite E.
Qed.

Lemma take_positions {A : Type} (p : A -> bool) (l : list A) :
  take (positions p l) l = filter p l.
Proof. exact (take_positions_from p [] l). Qed.

Lemma length_positions_from {A : Type} (p : A -> bool) (a : nat) (l : list A) :
  List.length (positions_from p a l) = List.length (filter p l).
Proof.
  revert a; induction l as [|x l IH]; intros a; simpl; [reflexivity|].
  destruct (p x); simpl; now rewrite IH.
Qed.

Lemma positions_split {A : Type} (p q : A -> bool) (a : nat) (l : list A) :
  (forall x, q x = negb (p x)) ->
  Permutation (positions_from p a l ++ positions_from q a l) (seq a (List.length l)).
Proof.
  intros Hq. revert a; induction l as [|x l IH]; intros a; simpl; [reflexivity|].
  rewrite (Hq x). destruct (p x); simpl.
  - constructor. apply IH.
  - rewrite <- Permutation_middle. constructor. apply IH.
Qed.

Lemma nth_error_take {A : Type} (j : list nat) (l : list A) (k : nat) :
  (forall x, In x j -> (x < List.length l)%nat) ->
  nth_error (take j l) k
  = match nth_error j k with Some x => nth_error l x | None => None end.
Proof.
  revert k; induction j as [|x j IH]; intros k Hj; simpl.
  - now destruct k.
  - destruct (nth_error l x) as [y|] eqn:E.
    + destruct k; simpl; [now rewrite E|]. apply IH. intros; apply Hj; simpl; auto.
    + apply nth_error_None in E. specialize (Hj x (or_introl eq_refl)). lia.
Qed.

Lemma take_take {A : Type} (i j : list nat) (l : list A) :
  (forall x, In x j -> (x < List.length l)%nat) ->
  take (take i j) l = take i (take j l).
Proof.
  intros Hj. induction i as [|k i IH]; simpl; [reflexivity|].
  rewrite (nth_error_take j l k Hj).
  destruct (nth_error j k) as [x|] eqn:E; simpl; [|exact IH].
  destruct (nth_error l x); [now rewrite IH|exact IH].
Qed.

Lemma filter_notna_dropna (items : list (option Z)) :
  filter (fun v => negb (Num.isna v)) items = map Some (pd.dropna_Z items).
Proof.
  induction items as [|[z|] l IH]; simpl; [reflexivity| |]; now rewrite ?IH.
Qed.

Lemma filter_isna_none (items : list (option Z)) :
  Forall (fun v => v = None) (filter Num.isna items).
Proof.
  induction items as [|[z|] l IH]; simpl; auto.
Qed.

Lemma sorted_somes_nones (xs : list Z) (nones : list (option Z)) :
  Sorted Z.le xs -> Forall (fun v => v = None) nones ->
  Sorted key_le (map Some xs ++ nones).
Proof.
  intros Hs Hn. induction Hs as [|x xs Hs IH Hd]; simpl.
  - induction Hn as [|v l Hv Hn IH]; [constructor|]. subst v.
    constructor; [exact IH|]. destruct Hn as [|w l' Hw _]; constructor.
    now subst w.
  - constructor; [exact IH|].
    destruct Hd as [|y ys Hxy]; simpl.
    + destruct Hn as [|w l' Hw _]; constructor. now subst w.
    + constructor. exact Hxy.
Qed.

Section SortValues.
Context `{Pandas}.

Lemma nargsort_sorted (items : list (option Z)) :
  Sorted key_le (take (pd.nargsort items) items).
Proof.
  unfold pd.nargsort. rewrite take_app, take_take.
  - rewrite !take_positions, filter_notna_dropna, take_map.
    apply sorted_somes_nones; [apply argsort_sorted|apply filter_isna_none].
  - intros x Hx. apply positions_from_bounds in Hx. simpl in Hx. lia.
Qed.

Lemma nargsort_perm (items : list (option Z)) :
  Permutation (pd.nargsort items) (seq 0 (List.length items)).
Proof.
  unfold pd.nargsort.
  set (nn_idx := positions (fun v => negb (Num.isna v)) items).
  assert (Hlen : List.length (pd.dropna_Z items) = List.length nn_idx).
  { unfold nn_idx, positions. rewrite length_positions_from, filter_notna_dropna.
    now rewrite length_map. }
  rewrite (take_perm _ _ nn_idx (argsort_perm (pd.dropna_Z items))).
  rewrite Hlen, take_seq.
  apply positions_split. intros x. now rewrite negb_involutive.
Qed.

Lemma sort_values_date_perm (df : DataFrame) :
  Permutation (rows (pd.sort_values_date df)) (rows df).
Proof.
  unfold pd.sort_values_date. simpl.
  rewrite (take_perm _ _ (rows df) (nargsort_perm _)).
  now rewrite length_map, take_seq.
Qed.

Lemma sort_values_date_sorted (df : DataFrame) :
  Sorted date_le (map date (rows (pd.sort_values_date df))).
Proof.
  unfold pd.sort_values_date. simpl.
  assert (Hs := nargsort_sorted (map (fun r => pd.date_key (date r)) (rows df))).
  rewrite take_map in Hs.
  set (l := take _ (rows df)) in *. clearbody l.
  induction l as [|r l IH]; simpl in *; [constructor|].
  inversion Hs as [|? ? Hs' Hd]; subst.
  constructor; [now apply IH|].
  destruct l; simpl in *; constructor. now inversion Hd.
Qed.

End SortValues.

Lemma date_derive r : date (derive r) = date r.
Proof. now destruct r. Qed.






(** ** [groupby('city')[col].transform(...)], position by position *)

(** The value the specification gives a cell in the group pass: a row
    without a city is in no group and is left without a value; a present
    value is kept; a missing value becomes the median of the values of the
    column over the rows of the same city (NaN if there is none). *)
Definition city_median_fill (col : string) (t : DataFrame) (r : Row) : option Q :=
  match city r with
  | None => None
  | Some c =>
      match get_float col r with
      | Some v => Some v
      | None => Num.median (map (get_float col) (filter (pd.city_is c) (rows t)))
      end
  end.

Lemma lookup_app {V : Type} (i : nat) (l1 l2 : list (nat * V)) :
  pd.lookup i (l1 ++ l2)
  = match pd.lookup i l1 with Some v => Some v | None => pd.lookup i l2 end.
Proof.
  induction l1 as [|[j v] l1 IH]; simpl; [reflexivity|].
  destruct (i =? j)%nat; [reflexivity|exact IH].
Qed.

Lemma lookup_combine_positions {V : Type} (p : Row -> bool) (g : Row -> V)
      (a : nat) (l : list Row) (i : nat) :
  pd.lookup i (combine (positions_from p a l) (map g (filter p l)))
  = if (i <? a)%nat then None
    else match nth_error l (i - a) with
         | Some r => if p r then Some (g r) else None
         | None => None
         end.
Proof.
  revert a; induction l as [|x l IH]; intros a; simpl.
  - destruct (i <? a)%nat; [reflexivity|]. now destruct (i - a)%nat.
  - destruct (p x) eqn:Px; simpl.
    + destruct (i =? a)%nat eqn:Eia.
      * apply Nat.eqb_eq in Eia. subst i.
        rewrite Nat.ltb_irrefl, Nat.sub_diag. simpl. now rewrite Px.
      * apply Nat.eqb_neq in Eia. rewrite IH.
        destruct (i <? a)%nat eqn:Lt.
        -- apply Nat.ltb_lt in Lt.
           assert (Hlt : (i <? S a)%nat = true) by (apply Nat.ltb_lt; lia).
           now rewrite Hlt.
        -- apply Nat.ltb_ge in Lt.
           assert (Hge : (i <? S a)%nat = false) by (apply Nat.ltb_ge; lia).
           rewrite Hge. replace (i - a)%nat with (S (i - S a)) by lia. reflexivity.
    + rewrite IH. destruct (i <? a)%nat eqn:Lt.
      * apply Nat.ltb_lt in Lt.
        assert (Hlt : (i <? S a)%nat = true) by (apply Nat.ltb_lt; lia).
        now rewrite Hlt.
      * apply Nat.ltb_ge in Lt.
        destruct (i =? a)%nat eqn:Eia.
        -- apply Nat.eqb_eq in Eia. subst i.
           assert (Hlt : (a <? S a)%nat = true) by (apply Nat.ltb_lt; lia).
           rewrite Hlt, Nat.sub_diag. simpl. now rewrite Px.
        -- apply Nat.eqb_neq in Eia.
           assert (Hge : (i <? S a)%nat = false) by (apply Nat.ltb_ge; lia).
           rewrite Hge. replace (i - a)%nat with (S (i - S a)) by lia. reflexivity.
Qed.

Lemma map_seq_nth {A B : Type} (h : nat -> B) (g : A -> B) (l : list A) (a : nat) :
  (forall i r, nth_error l i = Some r -> h (a + i)%nat = g r) ->
  map h (seq a (List.length l)) = map g l.
Proof.
  revert a; induction l as [|x l IH]; intros a Hh; simpl; [reflexivity|].
  f_equal.
  - rewrite <- (Hh 0%nat x eq_refl). f_equal. lia.
  - apply IH. intros i r Hi. rewrite <- (Hh (S i) r Hi). f_equal. lia.
Qed.

Lemma in_unique (x : string) (l : list string) : In x (pd.unique l) <-> In x l.
Proof.
  induction l as [|y l IH]; simpl; [tauto|].
  rewrite filter_In, IH. split.
  - intros [->|[Hin _]]; auto.
  - intros [->|Hin]; [auto|].
    destruct (String.eqb_spec x y) as [->|Hne]; [auto|].
    right. split; [assumption|].
    destruct (String.eqb_spec x y); [contradiction|reflexivity].
Qed.

Lemma in_dropna_str (x : string) (col : list (option string)) :
  In x (pd.dropna_str col) <-> In (Some x) col.
Proof.
  unfold pd.dropna_str. rewrite in_flat_map. split.
  - intros ([y|] & Hin & Hx); simpl in Hx; [|tauto].
    destruct Hx as [<-|[]]. exact Hin.
  - intros Hin. exists (Some x). simpl. auto.
Qed.

Lemma in_group_keys (c : string) (df : DataFrame) :
  In c (pd.group_keys df) <-> exists r, In r (rows df) /\ city r = Some c.
Proof.
  unfold pd.group_keys. split.
  - intros Hin. apply (Permutation_in _ (isort_perm _ _)) in Hin.
    apply in_unique, in_dropna_str, in_map_iff in Hin.
    destruct Hin as (r & E & Hin). eauto.
  - intros (r & Hin & E).
    apply (Permutation_in _ (Permutation_sym (isort_perm _ _))).
    apply in_unique, in_dropna_str, in_map_iff. eauto.
Qed.

Lemma mem_in (x : string) (l : list string) : Text.mem x l = true <-> In x l.
Proof.
  unfold Text.mem. rewrite existsb_exists. split.
  - intros (y & Hin & E). apply String.eqb_eq in E. now subst.
  - intros Hin. exists x. split; [assumption|apply String.eqb_refl].
Qed.

Lemma city_is_some (k c : string) (r : Row) :
  city r = Some c -> pd.city_is k r = (c =? k).
Proof. unfold pd.city_is. now intros ->. Qed.

Lemma city_is_none (k : string) (r : Row) : city r = None -> pd.city_is k r = false.
Proof. unfold pd.city_is. now intros ->. Qed.

(** The group pass of the code computes [city_median_fill] in every row. *)
Lemma groupby_transform_fill (col : string) (df : DataFrame) :
  pd.groupby_transform (fun x => Num.fillna (Num.median x) x) col df
  = map (city_median_fill col df) (rows df).
Proof.
  unfold pd.groupby_transform.
  apply (map_seq_nth _ _ (rows df) 0). intros i r Hi. simpl Nat.add.
  set (F := fun k => combine (pd.group_positions k df) _).
  assert (HF : forall k, pd.lookup i (F k)
                         = if pd.city_is k r
                           then Some (match get_float col r with
                                      | Some v => Some v
                                      | None => Num.median
                                                  (map (get_float col)
                                                       (filter (pd.city_is k) (rows df)))
                                      end)
                           else None).
  { intros k. unfold F, pd.group_positions.
    rewrite take_map, take_positions. unfold Num.fillna. rewrite map_map.
    unfold positions. rewrite lookup_combine_positions.
    simpl. rewrite Nat.sub_0_r, Hi. reflexivity. }
  assert (Hks : forall ks,
            pd.lookup i (flat_map F ks)
            = match city r with
              | Some c => if Text.mem c ks then Some (city_median_fill col df r) else None
              | None => None
              end).
  { induction ks as [|k ks IH]; simpl.
    - now destruct (city r).
    - rewrite lookup_app, HF, IH. unfold city_median_fill.
      destruct (city r) as [c|] eqn:Ec.
      + rewrite (city_is_some k c r Ec).
        destruct (String.eqb_spec c k) as [->|Hne]; simpl; [reflexivity|].
        reflexivity.
      + now rewrite (city_is_none k r Ec). }
  rewrite Hks. unfold city_median_fill.
  destruct (city r) as [c|] eqn:Ec; [|reflexivity].
  assert (Hin : Text.mem c (pd.group_keys df) = true).
  { apply mem_in, in_group_keys. exists r. split; [|exact Ec].
    eapply nth_error_In; eauto. }
  now rewrite Hin.
Qed.

(** ** The rows [clean_data] leaves, cell by cell *)

Lemma set_get_float col r : set_float col (get_float col r) r = r.
Proof.
  unfold set_float, get_float.
  destruct (col =? "temperature_celsius"); [now destruct r|].
  destruct (col =? "humidity_percent"); [now destruct r|].
  destruct (col =? "wind_speed_kph"); [now destruct r|].
  destruct (col =? "temperature_fahrenheit"); [now destruct r|reflexivity].
Qed.

Lemma filter_map_comm {A B : Type} (p : B -> bool) (h : A -> B) (l : list A) :
  filter p (map h l) = map h (filter (fun x => p (h x)) l).
Proof.
  induction l as [|x l IH]; simpl; [reflexivity|].
  destruct (p (h x)); simpl; now rewrite IH.
Qed.

(** [city_median_fill] looks only at the city and at the column itself. *)
Lemma city_median_fill_map col (t t' : DataFrame) (h : Row -> Row) :
  rows t' = map h (rows t) ->
  (forall r, city (h r) = city r) ->
  (forall r, get_float col (h r) = get_float col r) ->
  forall r, city_median_fill col t' (h r) = city_median_fill col t r.
Proof.
  intros Hrows Hcity Hget r. unfold city_median_fill.
  rewrite Hcity, Hget, Hrows.
  destruct (city r) as [c|]; [|reflexivity].
  destruct (get_float col r); [reflexivity|].
  rewrite filter_map_comm, map_map. f_equal.
  rewrite (map_ext _ _ Hget). f_equal.
  apply filter_ext. intros x. unfold pd.city_is. now rewrite Hcity.
Qed.

Section CleanedRows.
Context `{Pandas}.

Lemma rows_city_pass t col :
  rows (city_pass t col)
  = map (fun r => set_float col (city_median_fill col t r) r) (rows t).
Proof.
  unfold city_pass. rewrite groupby_transform_fill. apply rows_assign_map.
Qed.

Lemma rows_global_pass t col :
  rows (global_pass t col)
  = map (fun r => set_float col
                    (Num.fill (Num.median (map (get_float col) (rows t)))
                              (get_float col r)) r)
        (rows t).
Proof.
  unfold global_pass.
  destruct (existsb Num.isna (map (get_float col) (rows t))) eqn:E.
  - unfold Num.fillna. rewrite map_map. apply rows_assign_map.
  - symmetry. rewrite <- (map_id (rows t)) at 2. apply map_ext_in.
    intros r Hin.
    assert (Hna : Num.isna (get_float col r) = false).
    { destruct (Num.isna (get_float col r)) eqn:Hn; [|reflexivity].
      assert (X : existsb Num.isna (map (get_float col) (rows t)) = true).
      { apply existsb_exists. exists (get_float col r). split; [|exact Hn].
        now apply in_map. }
      congruence. }
    destruct (get_float col r) as [v|] eqn:Eg; [|discriminate].
    simpl. rewrite <- Eg. apply set_get_float.
Qed.

(** The value of a cell of a numeric column when [clean_data] is done:
    the value of the group pass or, if that is missing, the median of the
    whole column as the group pass left it. *)
Definition final_value (col : string) (t : DataFrame) (r : Row) : option Q :=
  Num.fill (Num.median (map (city_median_fill col t) (rows t)))
           (city_median_fill col t r).

Definition impute (t : DataFrame) (r : Row) : Row :=
  mkRow (date r) (city r)
        (final_value "temperature_celsius" t r)
        (final_value "humidity_percent" t r)
        (final_value "wind_speed_kph" t r)
        (weather_condition r) (year r) (month r) (day r) (temperature_fahrenheit r).

Lemma rows_cleaned (df : DataFrame) :
  rows (cleaned df)
  = map (impute (before_imputation df)) (rows (before_imputation df)).
Proof.
  unfold cleaned, after_city_pass. simpl fold_left.
  set (t := before_imputation df).
  set (d1 := city_pass t "temperature_celsius").
  set (d2 := city_pass d1 "humidity_percent").
  set (d3 := city_pass d2 "wind_speed_kph").
  set (d4 := global_pass d3 "temperature_celsius").
  set (d5 := global_pass d4 "humidity_percent").
  set (h1 := fun r => set_float "temperature_celsius"
                        (city_median_fill "temperature_celsius" t r) r).
  set (h2 := fun r => set_float "humidity_percent"
                        (city_median_fill "humidity_percent" t r) (h1 r)).
  set (h3 := fun r => set_float "wind_speed_kph"
                        (city_median_fill "wind_speed_kph" t r) (h2 r)).
  assert (R1 : rows d1 = map h1 (rows t)) by apply rows_city_pass.
  assert (R2 : rows d2 = map h2 (rows t)).
  { unfold d2. rewrite rows_city_pass, R1, map_map. apply map_ext. intros r.
    unfold h2. f_equal.
    apply (city_median_fill_map "humidity_percent" t d1 h1 R1);
      intros x; unfold h1; now destruct x. }
  assert (R3 : rows d3 = map h3 (rows t)).
  { unfold d3. rewrite rows_city_pass, R2, map_map. apply map_ext. intros r.
    unfold h3. f_equal.
    apply (city_median_fill_map "wind_speed_kph" t d2 h2 R2);
      intros x; unfold h2, h1; now destruct x. }
  set (m1 := Num.median (map (city_median_fill "temperature_celsius" t) (rows t))).
  set (m2 := Num.median (map (city_median_fill "humidity_percent" t) (rows t))).
  set (m3 := Num.median (map (city_median_fill "wind_speed_kph" t) (rows t))).
  set (h4 := fun r => set_float "temperature_celsius"
                        (Num.fill m1 (city_median_fill "temperature_celsius" t r)) (h3 r)).
  set (h5 := fun r => set_float "humidity_percent"
                        (Num.fill m2 (city_median_fill "humidity_percent" t r)) (h4 r)).
  assert (R4 : rows d4 = map h4 (rows t)).
  { unfold d4. rewrite rows_global_pass, R3, !map_map.
    assert (Hg : forall x, get_float "temperature_celsius" (h3 x)
                           = city_median_fill "temperature_celsius" t x)
      by (intros x; unfold h3, h2, h1; now destruct x).
    rewrite (map_ext _ _ Hg). fold m1. apply map_ext. intros r.
    unfold h4. now rewrite Hg. }
  assert (R5 : rows d5 = map h5 (rows t)).
  { unfold d5. rewrite rows_global_pass, R4, !map_map.
    assert (Hg : forall x, get_float "humidity_percent" (h4 x)
                           = city_median_fill "humidity_percent" t x)
      by (intros x; unfold h4, h3, h2, h1; now destruct x).
    rewrite (map_ext _ _ Hg). fold m2. apply map_ext. intros r.
    unfold h5. now rewrite Hg. }
  rewrite rows_global_pass, R5, !map_map.
  assert (Hg : forall x, get_float "wind_speed_kph" (h5 x)
                         = city_median_fill "wind_speed_kph" t x)
    by (intros x; unfold h5, h4, h3, h2, h1; now destruct x).
  rewrite (map_ext _ _ Hg). fold m3. apply map_ext. intros r.
  rewrite Hg. unfold impute, final_value, h5, h4, h3, h2, h1.
  fold m1 m2 m3. now destruct r.
Qed.

End CleanedRows.

(** ** Text facts *)







(** ** The median exists as soon as there is a value *)




(** ** The table when imputation starts *)

Section BeforeImputation.
Context `{Pandas}.

Lemma in_before_imputation (df : DataFrame) (r : Row) :
  In r (rows (before_imputation df)) <->
  exists r0, In r0 (rows df)
             /\ pd.date_notna (pd.to_datetime_cell (date r0)) = true
             /\ known_condition (normalize_condition (weather_condition r0)) = true
             /\ r = set_weather_condition (normalize_condition (weather_condition r0))
                      (set_date (pd.to_datetime_cell (date r0)) r0).
Proof.
  unfold before_imputation, known_rows, with_conditions, pd.dropna_date, with_dates.
  simpl rows. rewrite filter_In, in_map_iff. split.
  - intros ((r1 & <- & Hin1) & Hk).
    apply filter_In in Hin1. destruct Hin1 as (Hin1 & Hd).
    apply in_map_iff in Hin1. destruct Hin1 as (r0 & <- & Hin0).
    exists r0. destruct r0; simpl in *. auto.
  - intros (r0 & Hin0 & Hd & Hk & ->). split.
    + exists (set_date (pd.to_datetime_cell (date r0)) r0). split; [reflexivity|].
      apply filter_In. split; [|now destruct r0].
      apply in_map_iff. eauto.
    + now destruct r0.
Qed.




End BeforeImputation.

(** ** The invariants of [clean_data] *)

Lemma get_float_impute `{Pandas} (col : string) (t : DataFrame) (r : Row) :
  In col numeric_cols -> get_float col (impute t r) = final_value col t r.
Proof.
  simpl. intros [<-|[<-|[<-|[]]]]; reflexivity.
Qed.






(** ** Imputation *)

Lemma Forall2_map_r {A B : Type} (R : A -> B -> Prop) (f : A -> B) (l : list A) :
  (forall x, In x l -> R x (f x)) -> Forall2 R l (map f l).
Proof.
  induction l as [|x l IH]; simpl; intros Hl; constructor; auto.
Qed.

(** C2: [clean_data] leaves the rows that passed the date and condition
    filters, in their order, with their numeric cells imputed.  With [t]
    the table as it stands when imputation starts: a missing cell of a row
    with a city gets the median of the values of the column over the rows
    of [t] of that city, when there is one; a cell still missing after the
    group pass gets the median of the column as the group pass left it, all
    rows taken together. *)
Theorem clean_data_imputes `{Pandas} (s : State) (df : DataFrame) :
  frame s = Some df -> has_required df ->
  exists s' df',
    clean_data s = (Return tt, s') /\ frame s' = Some df'
    /\ let t := before_imputation df in
       Forall2
         (fun r r' =>
            date r' = date r /\ city r' = city r
            /\ weather_condition r' = weather_condition r
            /\ forall col, In col numeric_cols ->
                 (forall c m,
                     city r = Some c -> get_float col r = None ->
                     Num.median (map (get_float col) (filter (pd.city_is c) (rows t)))
                     = Some m ->
                     get_float col r' = Some m)
                 /\ (city_median_fill col t r = None ->
                     get_float col r'
                     = Num.median (map (city_median_fill col t) (rows t)))
                 /\ get_float col r' = final_value col t r)
         (rows t) (rows df').
Proof.
  intros Hf Hreq.
  destruct (clean_data_on_frame df Hreq s Hf) as (s' & E & F).
  exists s', (cleaned df). split; [exact E|]. split; [exact F|].
  intros t. rewrite rows_cleaned. fold t.
  apply Forall2_map_r. intros r Hin.
  split; [reflexivity|]. split; [reflexivity|]. split; [reflexivity|].
  intros col Hcol. rewrite (get_float_impute col t r Hcol).
  split; [|split; [|reflexivity]].
  - intros c m Hc Hg Hm. unfold final_value, city_median_fill.
    rewrite Hc, Hg, Hm. reflexivity.
  - intros Hn. unfold final_value. rewrite Hn. reflexivity.
Qed.

Lemma clean_data_imputes_witness :
  exists s' df',
    clean_data (after load_data test_state) = (Return tt, s') /\ frame s' = Some df'.
Proof.
  destruct (clean_data_imputes (after load_data test_state)
                               (frame_of (after load_data test_state)))
    as (s' & df' & E & F & _).
  - vm_compute. reflexivity.
  - intros col Hin. apply mem_in. vm_compute. vm_compute in Hin. exact Hin.
  - exists s', df'. split; assumption.
Defined.

(** The scenario of the specification: the missing temperature of the
    second row becomes 25, the median of the one value of its city. *)
Example clean_data_scenario :
  let s := init "scenario.csv" "outputs"
             (one_file "scenario.csv"
                (Csv required_columns
                   [ mkCsvRecord "2023-01-01" "CityA" (Some 25) (Some 60) (Some 10) "sunny";
                     mkCsvRecord "2023-01-02" "CityA" None (Some 65) (Some 12) "cloudy";
                     mkCsvRecord "invalid_date" "CityA" (Some 15) (Some 80) (Some 20)
                                 "unknown" ]))
             (fun _ => true) in
  map temperature_celsius (rows (frame_of (after clean_data (after load_data s))))
  = [Some 25; Some 25].
Proof. vm_compute. reflexivity. Qed.

(** ** Conditions that are NA tokens in the file *)

Lemma read_text_na_values (tok : string) : In tok na_values -> read_text tok = None.
Proof.
  simpl. intros [<-|[<-|[<-|[<-|[<-|[<-|[<-|[<-|[]]]]]]]]]; reflexivity.
Qed.

(** C10: in a complete file, a record whose [weather_condition] field is
    one of the [na_values] tokens ("unknown", "NA", the empty field, ...)
    and whose date is valid is kept by [clean_data]: the cleaned table has a
    row with that date and city whose [weather_condition] is the text
    "nan", which the filter on "unknown" and "" lets through. *)
Theorem nan_condition_survives `{Pandas} (s : State) header records :
  disk s (self_input_file s) = Csv header records ->
  (forall col, In col required_columns -> Text.mem col header = true) ->
  exists s1 s2 df',
    load_data s = (Return tt, s1) /\ clean_data s1 = (Return tt, s2)
    /\ frame s2 = Some df'
    /\ forall d rec t,
         In (d, rec) (combine (read_dates (map f_date records)) records) ->
         In (f_weather_condition rec) na_values ->
         pd.to_datetime_cell d = Timestamp t ->
         exists r', In r' (rows df')
                    /\ date r' = Timestamp t
                    /\ city r' = read_text (f_city rec)
                    /\ weather_condition r' = Some "nan".
Proof.
  intros Hd Hall.
  assert (Hdate : Text.mem "date" header = true) by (apply Hall; simpl; auto).
  assert (Hcity : Text.mem "city" header = true) by (apply Hall; simpl; auto).
  assert (Hcond : Text.mem "weather_condition" header = true)
    by (apply Hall; simpl; auto 10).
  assert (Hnil : missing_columns header = []) by now apply missing_columns_nil.
  destruct (load_data_complete s header records Hd Hdate Hnil) as (s1 & E1 & F1).
  assert (Hreq : has_required (read_frame header records))
    by (intros col Hin; unfold pd.has_column; simpl; now apply Hall).
  destruct (clean_data_on_frame _ Hreq s1 F1) as (s2 & E2 & F2).
  exists s1, s2, (cleaned (read_frame header records)).
  split; [exact E1|]. split; [exact E2|]. split; [exact F2|].
  intros d rec t Hin Htok Ht.
  set (r0 := read_record header d rec).
  assert (Hin0 : In r0 (rows (read_frame header records))).
  { unfold read_frame. simpl rows. apply in_map_iff. exists (d, rec). auto. }
  assert (Hw0 : weather_condition r0 = None).
  { unfold r0, read_record. simpl. rewrite Hcond. now apply read_text_na_values. }
  assert (Hc0 : city r0 = read_text (f_city rec)).
  { unfold r0, read_record. simpl. now rewrite Hcity. }
  assert (Hd0 : date r0 = d) by reflexivity.
  set (r1 := set_weather_condition (normalize_condition None) (set_date (Timestamp t) r0)).
  assert (Hin1 : In r1 (rows (before_imputation (read_frame header records)))).
  { apply in_before_imputation. exists r0. split; [exact Hin0|].
    rewrite Hd0, Ht, Hw0. repeat split. }
  exists (impute (before_imputation (read_frame header records)) r1).
  split; [rewrite rows_cleaned; now apply in_map|].
  unfold impute. cbn [date city weather_condition]. unfold r1.
  split; [now destruct r0|]. split; [now destruct r0|]. now destruct r0.
Qed.

(** The test file with the condition of the second record replaced by
    tokens of [na_values]. *)
Definition na_condition_records : list CsvRecord :=
  [ mkCsvRecord "2023-01-01" "TestCity" (Some 25) (Some 60) (Some 10) "unknown";
    mkCsvRecord "2023-01-02" "TestCity" None (Some 65) (Some 12) "NA";
    mkCsvRecord "2023-01-03" "TestCity" (Some 22) None (Some 8) "";
    mkCsvRecord "2023-01-04" "TestCity" (Some 20) (Some 70) None "rainy" ].

Definition na_condition_state : State :=
  init "na.csv" "outputs"
       (one_file "na.csv" (Csv required_columns na_condition_records))
       (fun _ => true).

Lemma nan_condition_survives_witness :
  exists s1 s2 df',
    load_data na_condition_state = (Return tt, s1) /\ clean_data s1 = (Return tt, s2)
    /\ frame s2 = Some df'
    /\ exists r', In r' (rows df')
                  /\ date r' = Timestamp (Calendar.timestamp 2023 1 1)
                  /\ city r' = Some "TestCity"
                  /\ weather_condition r' = Some "nan".
Proof.
  destruct (nan_condition_survives na_condition_state required_columns na_condition_records)
    as (s1 & s2 & df' & E1 & E2 & F2 & Hrows).
  - reflexivity.
  - intros col Hin. apply mem_in. exact Hin.
  - exists s1, s2, df'. split; [exact E1|]. split; [exact E2|]. split; [exact F2|].
    apply (Hrows (Timestamp (Calendar.timestamp 2023 1 1))
                 (mkCsvRecord "2023-01-01" "TestCity" (Some 25) (Some 60) (Some 10)
                              "unknown")).
    + vm_compute. auto.
    + vm_compute. auto 10.
    + reflexivity.
Defined.

Example nan_condition_example :
  map weather_condition
      (rows (frame_of (after clean_data (after load_data na_condition_state))))
  = [Some "nan"; Some "nan"; Some "nan"; Some "rainy"].
Proof. vm_compute. reflexivity. Qed.

(** ** Rounding is monotone *)

Lemma rint_bounds (q : Q) : (Qfloor q <= Num.rint q <= Qfloor q + 1)%Z.
Proof.
  unfold Num.rint.
  destruct (Qle_bool (q - inject_Z (Qfloor q)) (1 # 2));
    [destruct (Qle_bool (1 # 2) (q - inject_Z (Qfloor q)));
     [destruct (Z.even (Qfloor q))|]|]; lia.
Qed.

Lemma rint_mono (x y : Q) : x <= y -> (Num.rint x <= Num.rint y)%Z.
Proof.
  intros Hxy.
  pose proof (Qfloor_resp_le x y Hxy) as Hf.
  pose proof (rint_bounds x) as Bx. pose proof (rint_bounds y) as By.
  destruct (Z.eq_dec (Qfloor x) (Qfloor y)) as [Ef|Nf]; [|lia].
  unfold Num.rint in *. rewrite <- Ef in *.
  set (f := Qfloor x) in *.
  destruct (Qle_bool (x - inject_Z f) (1 # 2)) eqn:X1.
  - destruct (Qle_bool (1 # 2) (x - inject_Z f)) eqn:X2; [|lia].
    destruct (Z.even f) eqn:Ev; [lia|].
    destruct (Qle_bool (y - inject_Z f) (1 # 2)) eqn:Y1; [|lia].
    destruct (Qle_bool (1 # 2) (y - inject_Z f)) eqn:Y2; [lia|].
    apply Qle_bool_iff in X2.
    assert (Hy : ~ (1 # 2) <= y - inject_Z f)
      by (intros C; apply Qle_bool_iff in C; congruence).
    exfalso. apply Hy. lra.
  - assert (Hx : ~ x - inject_Z f <= 1 # 2)
      by (intros C; apply Qle_bool_iff in C; congruence).
    destruct (Qle_bool (y - inject_Z f) (1 # 2)) eqn:Y1; [|lia].
    apply Qle_bool_iff in Y1. exfalso. apply Hx. lra.
Qed.

Lemma round2_mono (x y : Q) : x <= y -> Num.round2 x <= Num.round2 y.
Proof.
  intros Hxy. unfold Num.round2.
  assert (Hr : (Num.rint (x * 100) <= Num.rint (y * 100))%Z)
    by (apply rint_mono; lra).
  assert (Hq : inject_Z (Num.rint (x * 100)) <= inject_Z (Num.rint (y * 100)))
    by (rewrite <- Zle_Qle; exact Hr).
  unfold Qdiv. apply Qmult_le_compat_r; [exact Hq|]. discriminate.
Qed.

(** ** [nlargest]: the ranking of the cities *)



Definition rounded (p : string * option Q) : string * option Q :=
  (fst p, Num.round2_opt (snd p)).










(** The series [nlargest] takes its values from, and its result. *)
Definition city_means (df : DataFrame) : list (string * option Q) :=
  pd.groupby_agg Num.mean "temperature_celsius" df.

Definition top_cities_of (df : DataFrame) : list (string * option Q) :=
  map rounded (pd.nlargest 5 (city_means df)).



(** ** [analyze_data] on a state that holds a table *)

Lemma bind_eq {A B : Type} (m : M A) (k : A -> M B) (s s1 : State) (a : A) :
  m s = (Return a, s1) -> bind m k s = k a s1.
Proof. intros E. unfold bind. now rewrite E. Qed.

Lemma check_df_frame msg s df : frame s = Some df -> check_df msg s = (Return tt, s).
Proof.
  intros Hs. destruct (frame_some s df Hs) as (l & Hl & _).
  unfold check_df. now rewrite Hl.
Qed.

Lemma require_columns_frame cols s df :
  frame s = Some df ->
  (forall col, In col cols -> pd.has_column col df = true) ->
  require_columns cols s = (Return tt, s).
Proof.
  intros Hs Hall. unfold require_columns.
  rewrite (bind_eq _ _ _ _ _ (get_df_frame s df Hs)).
  assert (E : filter (fun col => negb (pd.has_column col df)) cols = []).
  { induction cols as [|c cols IH]; simpl; [reflexivity|].
    rewrite (Hall c) by (simpl; auto). simpl. apply IH. intros; apply Hall; simpl; auto. }
  now rewrite E.
Qed.

Lemma getitem_frame {V : Type} (get : Row -> V) col s df :
  frame s = Some df -> pd.has_column col df = true ->
  getitem get col s = (Return (map get (rows df)), s).
Proof.
  intros Hs Hc. unfold getitem.
  rewrite (bind_eq _ _ _ _ _ (get_df_frame s df Hs)). now rewrite Hc.
Qed.

Lemma frame_alloc s df o :
  frame s = Some df -> frame (with_heap (heap s ++ [o]) s) = Some df.
Proof.
  intros Hs. destruct (frame_some s df Hs) as (l & Hl & Hn).
  unfold frame. simpl. rewrite Hl, nth_error_app1, Hn; [reflexivity|].
  apply nth_error_Some. now rewrite Hn.
Qed.

Definition analysis_requirements : list string :=
  "city" :: "weather_condition" :: analysis_cols.

Lemma analyze_data_returns `{Pandas} (s : State) (df : DataFrame) :
  frame s = Some df ->
  (forall col, In col analysis_requirements -> pd.has_column col df = true) ->
  exists s' b c w t,
    analyze_data s
    = (Return [("basic_stats", b); ("city_stats", c); ("weather_freq", w);
               ("top_cities", t)], s')
    /\ nth_error (heap s') t = Some (OTopCities (top_cities_of df)).
Proof.
  intros Hs Hall. unfold analyze_data.
  rewrite (bind_eq _ _ _ _ _ (check_df_frame _ s df Hs)).
  rewrite (bind_eq _ _ _ _ _ (require_columns_frame analysis_cols s df Hs
             (fun col Hin => Hall col (or_intror (or_intror Hin))))).
  rewrite (bind_eq _ _ _ _ _ (get_df_frame s df Hs)).
  unfold bind at 1. unfold alloc at 1.
  set (s1 := with_heap (heap s ++ [_]) s).
  assert (H1 : frame s1 = Some df) by now apply frame_alloc.
  assert (Hcity : forall col, In col ["city"] -> pd.has_column col df = true)
    by (intros col [<-|[]]; apply Hall; simpl; auto).
  rewrite (bind_eq _ _ _ _ _ (require_columns_frame ["city"] s1 df H1 Hcity)).
  rewrite (bind_eq _ _ _ _ _ (get_df_frame s1 df H1)).
  unfold bind at 1. unfold alloc at 1.
  set (s2 := with_heap (heap s1 ++ [_]) s1).
  assert (H2 : frame s2 = Some df) by now apply frame_alloc.
  assert (Hcond : pd.has_column "weather_condition" df = true)
    by (apply Hall; simpl; auto).
  rewrite (bind_eq _ _ _ _ _ (getitem_frame weather_condition _ s2 df H2 Hcond)).
  unfold bind at 1. unfold alloc at 1.
  set (s3 := with_heap (heap s2 ++ [_]) s2).
  assert (H3 : frame s3 = Some df) by now apply frame_alloc.
  assert (Hct : forall col, In col ["city"; "temperature_celsius"] ->
                            pd.has_column col df = true)
    by (intros col [<-|[<-|[]]]; apply Hall; simpl; auto).
  rewrite (bind_eq _ _ _ _ _ (require_columns_frame _ s3 df H3 Hct)).
  rewrite (bind_eq _ _ _ _ _ (get_df_frame s3 df H3)).
  unfold bind at 1. unfold alloc at 1. unfold ret.
  eexists _, _, _, _, _. split; [reflexivity|].
  simpl heap. apply nth_error_snoc.
Qed.



(** The scenario of the specification: one city, six valid rows, and one
    entry, the mean of the city rounded to 2 decimals. *)
Example top_cities_scenario :
  top_cities_of (frame_of transformed_test_state) = [("TestCity", Some (2067 # 100))]
  /\ Num.mean (map temperature_celsius (rows (frame_of transformed_test_state)))
     = Some (124 # 6).
Proof. vm_compute. split; reflexivity. Qed.

(** C9: on a table with the columns of a transformed table, [analyze_data]
    returns and is read-only: [self.df] and every object of the heap, the
    table included, are as they were before the call, and the four views it
    returns are objects at four distinct new locations, none of them the
    table. *)
Theorem analyze_data_read_only `{Pandas} (s : State) (df : DataFrame) :
  frame s = Some df ->
  (forall col, In col analysis_requirements -> pd.has_column col df = true) ->
  exists s' views,
    analyze_data s = (Return views, s')
    /\ self_df s' = self_df s
    /\ frame s' = Some df
    /\ (forall l, (l < List.length (heap s))%nat ->
                  nth_error (heap s') l = nth_error (heap s) l)
    /\ map fst views = ["basic_stats"; "city_stats"; "weather_freq"; "top_cities"]
    /\ NoDup (map snd views)
    /\ (forall name l, In (name, l) views ->
          (List.length (heap s) <= l)%nat
          /\ self_df s <> Some l
          /\ exists o, nth_error (heap s') l = Some o /\ is_view o = true).
Proof.
  intros Hs Hall.
  destruct (analyze_data_returns s df Hs Hall) as (s' & b & c & w & t & E & _).
  destruct (analyze_data_effect s s' _ E) as (H1 & H2 & H3 & H4 & H5 & H6).
  exists s', [("basic_stats", b); ("city_stats", c); ("weather_freq", w); ("top_cities", t)].
  split; [exact E|]. split; [exact H1|]. split; [now rewrite H2|].
  split; [exact H3|]. split; [exact H4|]. split; [exact H5|exact H6].
Qed.

Lemma analyze_data_read_only_witness :
  exists s' views,
    analyze_data transformed_test_state = (Return views, s')
    /\ self_df s' = self_df transformed_test_state
    /\ frame s' = Some (frame_of transformed_test_state).
Proof.
  destruct (analyze_data_read_only transformed_test_state
                                   (frame_of transformed_test_state))
    as (s' & views & E & H1 & H2 & _).
  - vm_compute. reflexivity.
  - intros col Hin. apply mem_in. vm_compute. vm_compute in Hin.
    intuition auto.
  - exists s', views. repeat split; assumption.
Defined.

(** ** The pipeline on the sample inputs *)

Example run_pipeline_test_data :
  fst (run_pipeline test_state) = Return true
  /\ written (after run_pipeline test_state)
     = ["outputs/transformed_weather_data.csv"; "outputs/basic_stats.csv";
        "outputs/city_stats.csv"; "outputs/weather_freq.csv";
        "outputs/top_cities_report.md"; "outputs/avg_temperature_by_city.png"].
Proof. vm_compute. split; reflexivity. Qed.

Example run_pipeline_no_city :
  fst (run_pipeline no_city_state) = Return false
  /\ last (stdout (after run_pipeline no_city_state)) ""
     = (newline ++ "Error in pipeline: Missing required columns: city")%string.
Proof. vm_compute. split; reflexivity. Qed.

Example run_pipeline_no_file :
  fst (run_pipeline (init "missing.csv" "outputs" (fun _ => NoSuchFile) (fun _ => true)))
  = Return false.
Proof. vm_compute. reflexivity. Qed.

(** * Further properties of the stages *)

(** ** The guard on [self.df] in the other stages *)

Lemma nve_require_columns cols : no_value_error (require_columns cols).
Proof.
  apply nve_bind; [apply nve_get_df|]. intros df.
  destruct (filter _ cols) as [|c cs]; [apply nve_ret|].
  intros s e s' E msg. inversion E; discriminate.
Qed.

Lemma nve_write_file path : no_value_error (write_file path).
Proof.
  intros s e s' E msg. unfold write_file in E.
  destruct (writable s path); inversion E; discriminate.
Qed.

Lemma nve_read_output_dir : no_value_error (fun s => (Return (self_output_dir s), s)).
Proof. unfold no_value_error. intros s0 e s1 E. discriminate. Qed.

#[local] Hint Resolve nve_require_columns nve_write_file nve_read_output_dir : nve.

Lemma guarded_by_check_df {A : Type} (msg : string) (rest : M A) (s : State) :
  no_value_error rest ->
  ((exists s', (check_df msg ;; rest) s = (Raise (ValueError msg), s'))
   <-> self_df s = None).
Proof.
  intros Hrest. unfold bind, check_df. split.
  - intros (s' & E). destruct (self_df s) as [l|]; [exfalso|reflexivity].
    exact (Hrest s _ s' E msg eq_refl).
  - intros ->. eauto.
Qed.


(** [analyze_data] fails with the not-loaded error exactly when [self.df]
    is unset. *)
Theorem analyze_data_fails_iff_not_loaded `{Pandas} (s : State) :
  (exists s', analyze_data s = (Raise (ValueError not_loaded_msg), s'))
  <-> self_df s = None.
Proof. unfold analyze_data. apply guarded_by_check_df. nve. Qed.

Lemma nve_generate_report r : no_value_error (generate_report r).
Proof. unfold generate_report. nve. Qed.

Lemma nve_plot_temperature_by_city : no_value_error plot_temperature_by_city.
Proof. unfold plot_temperature_by_city. nve. Qed.

#[local] Hint Resolve nve_generate_report nve_plot_temperature_by_city : nve.

(** [save_results] fails with its "No data to save" error exactly when
    [self.df] is unset, whatever the analysis results it is given. *)
Theorem save_results_fails_iff_no_data (results : list (string * nat)) (s : State) :
  (exists s', save_results results s
              = (Raise (ValueError "No data to save. Process data first."), s'))
  <-> self_df s = None.
Proof. unfold save_results. apply guarded_by_check_df. nve. Qed.

(** ** Stages called on a table that lacks a column *)

(** [m] run on any state holding the frame [df] raises [e]. *)
Definition raises_on_frame {A : Type} (m : M A) (df : DataFrame) (e : exn) : Prop :=
  forall s, frame s = Some df -> exists s', m s = (Raise e, s').

Lemma raises_bind_later {A B : Type} (m : M A) (k : A -> M B) df a df1 e :
  on_frame m df a df1 -> raises_on_frame (k a) df1 e -> raises_on_frame (bind m k) df e.
Proof.
  intros Hm Hk s Hs. destruct (Hm s Hs) as (s1 & E1 & F1).
  destruct (Hk s1 F1) as (s2 & E2). exists s2. unfold bind. now rewrite E1.
Qed.

Lemma raises_bind_now {A B : Type} (m : M A) (k : A -> M B) df e :
  raises_on_frame m df e -> raises_on_frame (bind m k) df e.
Proof.
  intros Hm s Hs. destruct (Hm s Hs) as (s1 & E1).
  exists s1. unfold bind. now rewrite E1.
Qed.

Lemma raises_raise {A : Type} df e : raises_on_frame (@raise A e) df e.
Proof. intros s _. exists s. reflexivity. Qed.

(** A table without a [city] column: the group pass of [clean_data] raises
    [KeyError('city')] once the dates and conditions are dealt with. *)
Lemma clean_data_without_city `{Pandas} (df : DataFrame) :
  pd.has_column "date" df = true ->
  pd.has_column "weather_condition" df = true ->
  pd.has_column "temperature_celsius" df = true ->
  pd.has_column "city" df = false ->
  raises_on_frame clean_data df (KeyError "city").
Proof.
  intros Hdate Hcond Htemp Hcity. unfold clean_data.
  eapply raises_bind_later; [apply on_frame_check_df|].
  eapply raises_bind_later; [now apply on_frame_getitem|].
  eapply raises_bind_later; [apply on_frame_setitem|].
  unfold pd.to_datetime. rewrite map_map, assign_present by assumption.
  fold (with_dates df).
  eapply raises_bind_later; [apply on_frame_len_df|].
  eapply raises_bind_later; [apply on_frame_get_df|].
  eapply raises_bind_later; [apply on_frame_rebind_df|].
  eapply raises_bind_later; [apply on_frame_len_df|].
  eapply raises_bind_later; [apply on_frame_when_same, on_frame_print|].
  eapply raises_bind_later; [apply on_frame_get_df|].
  change (pd.has_column "weather_condition" (pd.dropna_date (with_dates df)))
    with (pd.has_column "weather_condition" df).
  rewrite Hcond. simpl when.
  eapply raises_bind_later.
  { eapply on_frame_bind; [now apply on_frame_getitem|]. apply on_frame_setitem. }
  rewrite map_map, assign_present by assumption.
  fold (with_conditions (pd.dropna_date (with_dates df))).
  eapply raises_bind_later; [apply on_frame_get_df|].
  change (pd.has_column "weather_condition" (with_conditions (pd.dropna_date (with_dates df))))
    with (pd.has_column "weather_condition" df).
  rewrite Hcond. simpl when.
  eapply raises_bind_later.
  { eapply on_frame_bind; [apply on_frame_len_df|].
    eapply on_frame_bind; [now apply on_frame_getitem|].
    eapply on_frame_bind; [apply on_frame_get_df|].
    eapply on_frame_bind; [apply on_frame_rebind_df|].
    eapply on_frame_bind; [apply on_frame_len_df|].
    apply on_frame_when_same, on_frame_print. }
  rewrite map_map.
  rewrite (mask_rows_filter (fun r => known_condition (weather_condition r))).
  fold (known_rows (with_conditions (pd.dropna_date (with_dates df)))).
  fold (before_imputation df).
  apply raises_bind_now. simpl for_each.
  apply raises_bind_now.
  eapply raises_bind_later; [apply on_frame_get_df|].
  change (pd.has_column "temperature_celsius" (before_imputation df))
    with (pd.has_column "temperature_celsius" df).
  rewrite Htemp. simpl when.
  apply raises_bind_now. unfold fill_with_city_median.
  eapply raises_bind_later; [apply on_frame_get_df|].
  change (pd.has_column "city" (before_imputation df)) with (pd.has_column "city" df).
  rewrite Hcity. apply raises_raise.
Qed.

(** A file that has every required column but [city]: [load_data] fails on
    it with the schema error, and a [clean_data] called afterwards does not
    report that nothing is loaded; it works on the table the failed load
    left and fails with [KeyError('city')]. *)
Theorem clean_data_after_failed_load `{Pandas} (s : State) header records :
  disk s (self_input_file s) = Csv header records ->
  Text.mem "city" header = false ->
  (forall col, In col required_columns -> col <> "city" -> Text.mem col header = true) ->
  exists s1 s2,
    load_data s = (Raise (ValueError "Missing required columns: city"), s1)
    /\ clean_data s1 = (Raise (KeyError "city"), s2).
Proof.
  intros Hd Hcity Hall.
  assert (Hdate : Text.mem "date" header = true)
    by (apply Hall; [simpl; auto|discriminate]).
  assert (Htemp : Text.mem "temperature_celsius" header = true)
    by (apply Hall; [simpl; auto|discriminate]).
  assert (Hhum : Text.mem "humidity_percent" header = true)
    by (apply Hall; [simpl; auto|discriminate]).
  assert (Hwind : Text.mem "wind_speed_kph" header = true)
    by (apply Hall; [simpl; auto 10|discriminate]).
  assert (Hcond : Text.mem "weather_condition" header = true)
    by (apply Hall; [simpl; auto 10|discriminate]).
  assert (Hmiss : missing_columns header = ["city"]).
  { unfold missing_columns, required_columns. simpl.
    now rewrite Hdate, Hcity, Htemp, Hhum, Hwind, Hcond. }
  destruct (load_data_missing s header records "city" [] Hd Hdate Hmiss) as (s1 & E1 & F1).
  destruct (clean_data_without_city (read_frame header records) Hdate Hcond Htemp Hcity s1 F1)
    as (s2 & E2).
  exists s1, s2. split; [exact E1|exact E2].
Qed.

Lemma clean_data_after_failed_load_witness :
  exists s1 s2,
    load_data no_city_state = (Raise (ValueError "Missing required columns: city"), s1)
    /\ clean_data s1 = (Raise (KeyError "city"), s2).
Proof.
  apply (clean_data_after_failed_load no_city_state
           ["date"; "temperature_celsius"; "humidity_percent"; "wind_speed_kph";
            "weather_condition"] test_records).
  - reflexivity.
  - reflexivity.
  - intros col Hin Hne. simpl in Hin.
    destruct Hin as [<-|[<-|[<-|[<-|[<-|[<-|[]]]]]]]; try reflexivity.
    now contradiction Hne.
Defined.

(** [analyze_data] on a loaded table that [transform_data] has not been run
    on (no [temperature_fahrenheit] column): it raises a [KeyError] and
    leaves the state as it was, without creating any view. *)
Theorem analyze_data_before_transform `{Pandas} (s : State) (df : DataFrame) :
  frame s = Some df ->
  has_required df ->
  pd.has_column "temperature_fahrenheit" df = false ->
  analyze_data s = (Raise (KeyError "temperature_fahrenheit"), s).
Proof.
  intros Hs Hreq Hf. unfold analyze_data.
  rewrite (bind_eq _ _ _ _ _ (check_df_frame _ s df Hs)).
  unfold bind at 1. unfold require_columns.
  rewrite (bind_eq _ _ _ _ _ (get_df_frame s df Hs)).
  unfold analysis_cols. cbn [filter].
  rewrite (Hreq "temperature_celsius"), (Hreq "humidity_percent"),
    (Hreq "wind_speed_kph"), Hf by (simpl; auto 10).
  reflexivity.
Qed.

Lemma analyze_data_before_transform_witness :
  analyze_data cleaned_test_state
  = (Raise (KeyError "temperature_fahrenheit"), cleaned_test_state).
Proof.
  apply (analyze_data_before_transform cleaned_test_state (frame_of cleaned_test_state)).
  - vm_compute. reflexivity.
  - intros col Hin. apply mem_in. vm_compute. vm_compute in Hin. exact Hin.
  - vm_compute. reflexivity.
Defined.

(** ** The stages before [save_results] do not touch the file system *)

(** The fields of the instance that are set once and the file system are
    the same in [s'] as in [s]. *)
Definition same_world (s s' : State) : Prop :=
  self_input_file s' = self_input_file s
  /\ self_output_dir s' = self_output_dir s
  /\ disk s' = disk s
  /\ writable s' = writable s
  /\ written s' = written s.

Lemma same_world_refl s : same_world s s.
Proof. repeat split. Qed.

Lemma same_world_trans s1 s2 s3 : same_world s1 s2 -> same_world s2 s3 -> same_world s1 s3.
Proof.
  intros (A1 & A2 & A3 & A4 & A5) (B1 & B2 & B3 & B4 & B5).
  repeat split; congruence.
Qed.

(** [m] writes no file, whatever its outcome. *)
Definition keeps_world {A : Type} (m : M A) : Prop :=
  forall s o s', m s = (o, s') -> same_world s s'.

Lemma kw_ret {A : Type} (a : A) : keeps_world (ret a).
Proof. intros s o s' E. inversion E; subst. apply same_world_refl. Qed.

Lemma kw_raise {A : Type} (e : exn) : keeps_world (@raise A e).
Proof. intros s o s' E. inversion E; subst. apply same_world_refl. Qed.

Lemma kw_bind {A B : Type} (m : M A) (k : A -> M B) :
  keeps_world m -> (forall a, keeps_world (k a)) -> keeps_world (bind m k).
Proof.
  intros Hm Hk s o s' E. unfold bind in E.
  destruct (m s) as [[a|e] s1] eqn:E1; apply Hm in E1.
  - eapply same_world_trans; [exact E1|]. eapply Hk; eauto.
  - now inversion E; subst.
Qed.

Lemma kw_try_except {A : Type} (body : M A) (handler : exn -> M A) :
  keeps_world body -> (forall e, keeps_world (handler e)) ->
  keeps_world (try_except body handler).
Proof.
  intros Hb Hh s o s' E. unfold try_except in E.
  destruct (body s) as [[a|e] s1] eqn:E1; apply Hb in E1.
  - now inversion E; subst.
  - eapply same_world_trans; [exact E1|]. eapply Hh; eauto.
Qed.

Lemma kw_reads_only {A : Type} (m : M A) : reads_only m -> keeps_world m.
Proof. intros Hm s o s' E. apply Hm in E. subst. apply same_world_refl. Qed.

Lemma kw_print line : keeps_world (print line).
Proof. intros s o s' E. inversion E; subst. repeat split. Qed.

Lemma kw_alloc obj : keeps_world (alloc obj).
Proof. intros s o s' E. inversion E; subst. repeat split. Qed.

Lemma kw_get_df : keeps_world get_df.
Proof. apply kw_reads_only, reads_only_get_df. Qed.

Lemma kw_check_df msg : keeps_world (check_df msg).
Proof. apply kw_reads_only, reads_only_check_df. Qed.

Lemma kw_getitem {V : Type} (get : Row -> V) col : keeps_world (getitem get col).
Proof. apply kw_reads_only, reads_only_getitem. Qed.

Lemma kw_require_columns cols : keeps_world (require_columns cols).
Proof. apply kw_reads_only, reads_only_require_columns. Qed.

Lemma kw_update_df f : keeps_world (update_df f).
Proof.
  apply kw_bind; [apply kw_get_df|]. intros df s o s' E.
  destruct (self_df s); inversion E; subst; repeat split.
Qed.

Lemma kw_rebind_df df : keeps_world (rebind_df df).
Proof.
  apply kw_bind; [apply kw_alloc|]. intros l s o s' E.
  inversion E; subst. repeat split.
Qed.

Lemma kw_len_df : keeps_world len_df.
Proof. apply kw_bind; [apply kw_get_df|]. intros; apply kw_ret. Qed.

Lemma kw_when b m : keeps_world m -> keeps_world (when b m).
Proof. destruct b; simpl; auto using kw_ret. Qed.

Lemma kw_for_each {A : Type} (l : list A) body :
  (forall x, keeps_world (body x)) -> keeps_world (for_each l body).
Proof.
  intros Hb. induction l as [|x l IH]; simpl; [apply kw_ret|].
  apply kw_bind; auto.
Qed.

Lemma kw_fill_with_city_median col : keeps_world (fill_with_city_median col).
Proof.
  apply kw_bind; [apply kw_get_df|]. intros df.
  destruct (pd.has_column "city" df); [apply kw_ret|apply kw_raise].
Qed.

Lemma kw_read_csv `{Pandas} path : keeps_world (read_csv path).
Proof.
  intros s o s' E. unfold read_csv in E.
  destruct (disk s path) as [|header records];
    [|destruct (Text.mem "date" header)]; inversion E; subst; apply same_world_refl.
Qed.

Lemma kw_read_input_file : keeps_world (fun s => (Return (self_input_file s), s)).
Proof. unfold keeps_world. intros s0 o s1 E. inversion E; subst. apply same_world_refl. Qed.

Create HintDb kw.

#[local] Hint Resolve kw_ret kw_raise kw_print kw_alloc kw_get_df kw_check_df kw_getitem
  kw_require_columns kw_update_df kw_rebind_df kw_len_df kw_fill_with_city_median
  kw_read_csv kw_read_input_file : kw.

Ltac kw :=
  repeat first
    [ solve [unfold setitem; auto with kw]
    | apply kw_when
    | apply kw_for_each; intros ?
    | apply kw_try_except; [|intros ?]
    | apply kw_bind; [|intros ?] ].

Lemma kw_load_data `{Pandas} : keeps_world load_data.
Proof.
  unfold load_data. apply kw_try_except; [|intros e; kw].
  apply kw_bind; [apply kw_read_input_file|]. intros input_file.
  apply kw_bind; [apply kw_read_csv|]. intros df.
  apply kw_bind; [apply kw_rebind_df|]. intros _.
  destruct (filter _ required_columns); [apply kw_ret|apply kw_raise].
Qed.

Lemma kw_clean_data `{Pandas} : keeps_world clean_data.
Proof. unfold clean_data. kw. Qed.

Lemma kw_transform_data `{Pandas} : keeps_world transform_data.
Proof. unfold transform_data. kw. Qed.

Lemma kw_analyze_data `{Pandas} : keeps_world analyze_data.
Proof. unfold analyze_data. kw. Qed.

(** Whatever their outcome, [load_data], [clean_data], [transform_data] and
    [analyze_data] write no file and leave the paths of the instance and
    the file system as they are: only [save_results] produces artifacts. *)
Theorem stages_before_save_write_nothing `{Pandas} (s : State) :
  (forall o s', load_data s = (o, s') -> same_world s s')
  /\ (forall o s', clean_data s = (o, s') -> same_world s s')
  /\ (forall o s', transform_data s = (o, s') -> same_world s s')
  /\ (forall o s', analyze_data s = (o, s') -> same_world s s').
Proof.
  split; [|split; [|split]]; intros o s' E.
  - exact (kw_load_data s o s' E).
  - exact (kw_clean_data s o s' E).
  - exact (kw_transform_data s o s' E).
  - exact (kw_analyze_data s o s' E).
Qed.

(** ** [save_results]: the artifacts *)

(** The state after the files [paths] are written and [lines] printed. *)
Definition emit (paths lines : list string) (s : State) : State :=
  with_stdout (stdout s ++ lines) (with_written (written s ++ paths) s).

Lemma emit_nil s : emit [] [] s = s.
Proof. destruct s. unfold emit, with_stdout, with_written. simpl. now rewrite !app_nil_r. Qed.

Lemma emit_emit p1 l1 p2 l2 s : emit p2 l2 (emit p1 l1 s) = emit (p1 ++ p2) (l1 ++ l2) s.
Proof. unfold emit, with_stdout, with_written. simpl. now rewrite !app_assoc. Qed.

Lemma frame_emit p l s : frame (emit p l s) = frame s.
Proof. reflexivity. Qed.

Lemma write_file_ok path s :
  writable s path = true -> write_file path s = (Return tt, emit [path] [] s).
Proof.
  intros Hw. unfold write_file. rewrite Hw. f_equal.
  destruct s. unfold emit, with_stdout, with_written. simpl. now rewrite app_nil_r.
Qed.

Lemma print_emit line s : print line s = (Return tt, emit [] [line] s).
Proof.
  unfold print. f_equal.
  destruct s. unfold emit, with_stdout, with_written. simpl. now rewrite app_nil_r.
Qed.

Lemma write_and_print path line s :
  writable s path = true ->
  (write_file path ;; print line) s = (Return tt, emit [path] [line] s).
Proof.
  intros Hw. rewrite (bind_eq _ _ _ _ _ (write_file_ok path s Hw)).
  rewrite print_emit, emit_emit. reflexivity.
Qed.

(** The views that get a file of their own: all but [top_cities]. *)
Definition view_files (results : list (string * nat)) : list string :=
  map fst (filter (fun item => negb (fst item =? "top_cities")) results).

(** The files [save_results] writes, in the order it writes them. *)
Definition artifact_paths (out : string) (results : list (string * nat)) : list string :=
  [path_join out "transformed_weather_data.csv"]
    ++ map (fun name => path_join out (name ++ ".csv")) (view_files results)
    ++ [path_join out "top_cities_report.md"; path_join out "avg_temperature_by_city.png"].

(** The lines it prints. *)
Definition artifact_lines (out : string) (results : list (string * nat)) : list string :=
  [("Processed data saved to " ++ path_join out "transformed_weather_data.csv")%string]
    ++ map (fun name => (name ++ " saved to " ++ path_join out (name ++ ".csv"))%string)
           (view_files results)
    ++ [("Report saved to " ++ path_join out "top_cities_report.md")%string;
        ("Plot saved to " ++ path_join out "avg_temperature_by_city.png")%string].

Lemma save_views_ok (out : string) (results : list (string * nat)) (s : State) :
  (forall name, In name (view_files results) ->
                writable s (path_join out (name ++ ".csv")) = true) ->
  for_each results (fun item =>
    let name := fst item in
    when (negb (name =? "top_cities"))
         (let output_file := path_join out (name ++ ".csv") in
          write_file output_file ;;
          print (name ++ " saved to " ++ output_file))) s
  = (Return tt,
     emit (map (fun name => path_join out (name ++ ".csv")) (view_files results))
          (map (fun name => (name ++ " saved to " ++ path_join out (name ++ ".csv"))%string)
               (view_files results)) s).
Proof.
  revert s. induction results as [|[name l] results IH]; intros s Hw.
  - simpl. unfold ret. now rewrite emit_nil.
  - cbn [for_each fst]. unfold view_files in *. cbn [filter fst] in *.
    destruct (name =? "top_cities") eqn:En; cbn [negb when map] in *.
    + unfold bind at 1. unfold ret at 1. apply IH. exact Hw.
    + rewrite (bind_eq _ _ _ _ _ (write_and_print _ _ s (Hw name (or_introl eq_refl)))).
      rewrite IH by (intros n Hn; apply Hw; simpl; auto).
      now rewrite emit_emit.
Qed.

Lemma generate_report_ok (results : list (string * nat)) (s : State) :
  writable s (path_join (self_output_dir s) "top_cities_report.md") = true ->
  generate_report results s
  = (Return (path_join (self_output_dir s) "top_cities_report.md"),
     emit [path_join (self_output_dir s) "top_cities_report.md"]
          [("Report saved to " ++ path_join (self_output_dir s) "top_cities_report.md")%string]
          s).
Proof.
  intros Hw. unfold generate_report. unfold bind at 1.
  rewrite (bind_eq _ _ _ _ _ (write_file_ok _ s Hw)).
  rewrite (bind_eq _ _ _ _ _ (print_emit _ _)). rewrite emit_emit. reflexivity.
Qed.

Lemma plot_temperature_by_city_ok (s : State) (df : DataFrame) :
  frame s = Some df ->
  pd.has_column "city" df = true ->
  pd.has_column "temperature_celsius" df = true ->
  writable s (path_join (self_output_dir s) "avg_temperature_by_city.png") = true ->
  plot_temperature_by_city s
  = (Return (path_join (self_output_dir s) "avg_temperature_by_city.png"),
     emit [path_join (self_output_dir s) "avg_temperature_by_city.png"]
          [("Plot saved to "
            ++ path_join (self_output_dir s) "avg_temperature_by_city.png")%string] s).
Proof.
  intros Hs Hcity Htemp Hw. unfold plot_temperature_by_city.
  assert (Hct : forall col, In col ["city"; "temperature_celsius"] ->
                            pd.has_column col df = true)
    by (intros col [<-|[<-|[]]]; assumption).
  rewrite (bind_eq _ _ _ _ _ (require_columns_frame _ s df Hs Hct)).
  unfold bind at 1.
  rewrite (bind_eq _ _ _ _ _ (write_file_ok _ s Hw)).
  rewrite (bind_eq _ _ _ _ _ (print_emit _ _)). rewrite emit_emit. reflexivity.
Qed.

(** The state [save_results] leaves when every file can be written. *)
Lemma save_results_emit (results : list (string * nat)) (s : State) (df : DataFrame) :
  frame s = Some df ->
  pd.has_column "city" df = true ->
  pd.has_column "temperature_celsius" df = true ->
  (forall path, In path (artifact_paths (self_output_dir s) results) ->
                writable s path = true) ->
  save_results results s
  = (Return tt, emit (artifact_paths (self_output_dir s) results)
                     (artifact_lines (self_output_dir s) results) s).
Proof.
  intros Hs Hcity Htemp Hw. unfold save_results.
  set (out := self_output_dir s) in *.
  rewrite (bind_eq _ _ _ _ _ (check_df_frame _ s df Hs)).
  unfold bind at 1. fold out.
  assert (Hw0 : writable s (path_join out "transformed_weather_data.csv") = true)
    by (apply Hw; simpl; auto).
  rewrite (bind_eq _ _ _ _ _ (write_file_ok _ s Hw0)).
  rewrite (bind_eq _ _ _ _ _ (print_emit _ _)). rewrite emit_emit.
  set (s1 := emit _ _ s).
  assert (Hviews : forall name, In name (view_files results) ->
                     writable s1 (path_join out (name ++ ".csv")) = true).
  { intros name Hn. apply Hw. unfold artifact_paths.
    apply in_or_app. right. apply in_or_app. left.
    apply in_map_iff. eauto. }
  rewrite (bind_eq _ _ _ _ _ (save_views_ok out results s1 Hviews)).
  unfold s1. rewrite emit_emit. set (s2 := emit _ _ s).
  assert (Hw2 : writable s2 (path_join (self_output_dir s2) "top_cities_report.md") = true)
    by (apply Hw; unfold artifact_paths;
        apply in_or_app; right; apply in_or_app; right; simpl; auto).
  rewrite (bind_eq _ _ _ _ _ (generate_report_ok results s2 Hw2)).
  change (self_output_dir s2) with out.
  unfold s2. rewrite emit_emit. set (s3 := emit _ _ s).
  assert (Hw3 : writable s3 (path_join (self_output_dir s3) "avg_temperature_by_city.png")
                = true)
    by (apply Hw; unfold artifact_paths;
        apply in_or_app; right; apply in_or_app; right; simpl; auto).
  rewrite (bind_eq _ _ _ _ _ (plot_temperature_by_city_ok s3 df Hs Hcity Htemp Hw3)).
  change (self_output_dir s3) with out.
  unfold s3. rewrite emit_emit. unfold ret.
  unfold artifact_paths, artifact_lines. rewrite <- !app_assoc. reflexivity.
Qed.

(** On a state that holds a table with the [city] and
    [temperature_celsius] columns and where every artifact can be written,
    [save_results] returns after writing, in this order, the processed
    table, one file per view other than [top_cities], the report and the
    plot; it prints one line per file and touches neither the table nor
    the heap. *)
Theorem save_results_writes (results : list (string * nat)) (s : State) (df : DataFrame) :
  frame s = Some df ->
  pd.has_column "city" df = true ->
  pd.has_column "temperature_celsius" df = true ->
  (forall path, In path (artifact_paths (self_output_dir s) results) ->
                writable s path = true) ->
  exists s',
    save_results results s = (Return tt, s')
    /\ written s' = written s ++ artifact_paths (self_output_dir s) results
    /\ stdout s' = stdout s ++ artifact_lines (self_output_dir s) results
    /\ heap s' = heap s /\ self_df s' = self_df s.
Proof.
  intros Hs Hcity Htemp Hw.
  rewrite (save_results_emit results s df Hs Hcity Htemp Hw).
  eexists. split; [reflexivity|]. repeat split.
Qed.

(** The test data after the four stages before [save_results], and the
    views [analyze_data] returned. *)
Definition analyzed_test_state : State := after analyze_data transformed_test_state.

Definition test_views : list (string * nat) :=
  match fst (analyze_data transformed_test_state) with
  | Return views => views
  | Raise _ => []
  end.

Lemma save_results_writes_witness :
  exists s',
    save_results test_views analyzed_test_state = (Return tt, s')
    /\ written s' = written analyzed_test_state ++ artifact_paths "outputs" test_views.
Proof.
  destruct (save_results_writes test_views analyzed_test_state
                                (frame_of analyzed_test_state))
    as (s' & E & Hw & _).
  - vm_compute. reflexivity.
  - vm_compute. reflexivity.
  - vm_compute. reflexivity.
  - intros path _. reflexivity.
  - exists s'. split; [exact E|exact Hw].
Defined.

(** When the processed table cannot be written, [save_results] raises the
    I/O error at once: no file is written, nothing is printed, the state is
    as it was. *)
Theorem save_results_unwritable (results : list (string * nat)) (s : State) (df : DataFrame) :
  frame s = Some df ->
  writable s (path_join (self_output_dir s) "transformed_weather_data.csv") = false ->
  exists msg, save_results results s = (Raise (OSError msg), s).
Proof.
  intros Hs Hw. unfold save_results.
  rewrite (bind_eq _ _ _ _ _ (check_df_frame _ s df Hs)).
  unfold bind at 1. unfold bind at 1. unfold write_file at 1. rewrite Hw.
  eexists. reflexivity.
Qed.

Lemma save_results_unwritable_witness :
  exists msg,
    save_results test_views
      (mkState "test_weather_data.csv" "outputs" (self_df analyzed_test_state)
               (heap analyzed_test_state) [] (fun _ => NoSuchFile) (fun _ => false) [])
    = (Raise (OSError msg),
       mkState "test_weather_data.csv" "outputs" (self_df analyzed_test_state)
               (heap analyzed_test_state) [] (fun _ => NoSuchFile) (fun _ => false) []).
Proof.
  apply (save_results_unwritable test_views _ (frame_of analyzed_test_state)).
  - vm_compute. reflexivity.
  - reflexivity.
Defined.

(** There is no rollback in [save_results]: when the report is the first
    file that cannot be written, the I/O error is raised after the
    processed table and the view files have been written, and they stay
    written. *)
Theorem save_results_partial (results : list (string * nat)) (s : State) (df : DataFrame) :
  frame s = Some df ->
  writable s (path_join (self_output_dir s) "transformed_weather_data.csv") = true ->
  (forall name, In name (view_files results) ->
                writable s (path_join (self_output_dir s) (name ++ ".csv")) = true) ->
  writable s (path_join (self_output_dir s) "top_cities_report.md") = false ->
  exists msg s',
    save_results results s = (Raise (OSError msg), s')
    /\ written s'
       = written s
         ++ path_join (self_output_dir s) "transformed_weather_data.csv"
         :: map (fun name => path_join (self_output_dir s) (name ++ ".csv"))
                (view_files results).
Proof.
  intros Hs Hw0 Hviews Hrep. unfold save_results.
  set (out := self_output_dir s) in *.
  rewrite (bind_eq _ _ _ _ _ (check_df_frame _ s df Hs)).
  unfold bind at 1. fold out.
  rewrite (bind_eq _ _ _ _ _ (write_file_ok _ s Hw0)).
  rewrite (bind_eq _ _ _ _ _ (print_emit _ _)). rewrite emit_emit.
  set (s1 := emit _ _ s).
  rewrite (bind_eq _ _ _ _ _ (save_views_ok out results s1 Hviews)).
  unfold s1. rewrite emit_emit. set (s2 := emit _ _ s).
  unfold bind at 1. unfold generate_report. unfold bind at 1. unfold bind at 1.
  unfold write_file at 1.
  change (self_output_dir s2) with out. change (writable s2) with (writable s).
  rewrite Hrep. eexists _, _. split; [reflexivity|].
  unfold s2, emit. simpl. reflexivity.
Qed.

Lemma test_view_files :
  view_files test_views = ["basic_stats"; "city_stats"; "weather_freq"].
Proof. vm_compute. reflexivity. Qed.

Lemma save_results_partial_witness :
  exists msg s',
    save_results test_views
      (mkState "test_weather_data.csv" "outputs" (self_df analyzed_test_state)
               (heap analyzed_test_state) [] (fun _ => NoSuchFile)
               (fun p => negb (p =? "outputs/top_cities_report.md")) [])
    = (Raise (OSError msg), s')
    /\ written s'
       = ["outputs/transformed_weather_data.csv"; "outputs/basic_stats.csv";
          "outputs/city_stats.csv"; "outputs/weather_freq.csv"].
Proof.
  destruct (save_results_partial test_views
              (mkState "test_weather_data.csv" "outputs" (self_df analyzed_test_state)
                       (heap analyzed_test_state) [] (fun _ => NoSuchFile)
                       (fun p => negb (p =? "outputs/top_cities_report.md")) [])
              (frame_of analyzed_test_state))
    as (msg & s' & E & Hw).
  - vm_compute. reflexivity.
  - reflexivity.
  - intros name Hin. rewrite test_view_files in Hin.
    destruct Hin as [<-|[<-|[<-|[]]]]; reflexivity.
  - reflexivity.
  - exists msg, s'. split; [exact E|]. rewrite Hw, test_view_files. reflexivity.
Defined.

(** ** The whole run *)

Lemma columns_city_passes `{Pandas} (cols : list string) (d : DataFrame) :
  (forall c, In c cols -> pd.has_column c d = true) ->
  columns (fold_left city_pass cols d) = columns d.
Proof.
  revert d. induction cols as [|c cols IH]; intros d Hall; [reflexivity|].
  cbn [fold_left].
  assert (Hc : columns (city_pass d c) = columns d)
    by (apply columns_city_pass, Hall; simpl; auto).
  rewrite IH, Hc; [reflexivity|].
  intros c' Hin. unfold pd.has_column. rewrite Hc. apply Hall. simpl; auto.
Qed.

Lemma columns_global_passes `{Pandas} (cols : list string) (d : DataFrame) :
  (forall c, In c cols -> pd.has_column c d = true) ->
  columns (fold_left global_pass cols d) = columns d.
Proof.
  revert d. induction cols as [|c cols IH]; intros d Hall; [reflexivity|].
  cbn [fold_left].
  assert (Hc : columns (global_pass d c) = columns d)
    by (apply columns_global_pass, Hall; simpl; auto).
  rewrite IH, Hc; [reflexivity|].
  intros c' Hin. unfold pd.has_column. rewrite Hc. apply Hall. simpl; auto.
Qed.

Lemma numeric_cols_required col : In col numeric_cols -> In col required_columns.
Proof. simpl. intuition. Qed.

(** [clean_data] adds and removes no column. *)
Lemma columns_cleaned `{Pandas} (df : DataFrame) :
  has_required df -> columns (cleaned df) = columns df.
Proof.
  intros Hreq. unfold cleaned, after_city_pass.
  assert (H1 : columns (fold_left city_pass numeric_cols (before_imputation df))
               = columns df).
  { rewrite columns_city_passes; [reflexivity|].
    intros c Hc. apply (Hreq c), numeric_cols_required, Hc. }
  rewrite columns_global_passes; [exact H1|].
  intros c Hc. unfold pd.has_column. rewrite H1.
  apply (Hreq c), numeric_cols_required, Hc.
Qed.

Lemma has_column_transformed `{Pandas} (df : DataFrame) (col : string) :
  pd.has_column col df = true \/ col = "temperature_fahrenheit" ->
  pd.has_column col (transformed df) = true.
Proof.
  unfold pd.has_column, transformed, derived_columns. simpl columns.
  intros [Hc| ->]; [|apply mem_add_column_self].
  now repeat apply mem_add_column.
Qed.





Lemma load_data_raise_log `{Pandas} (s : State) (e : exn) (s1 : State) :
  load_data s = (Raise e, s1) ->
  stdout s1 = stdout s ++ [("Error loading data: " ++ str_exn e)%string].
Proof.
  unfold load_data, try_except, bind, read_csv.
  destruct (disk s (self_input_file s)) as [|header records].
  - intros E. inversion E; subst. reflexivity.
  - destruct (Text.mem "date" header).
    + unfold rebind_df, bind, alloc. cbv beta iota.
      change (filter _ required_columns) with (missing_columns header).
      destruct (missing_columns header) as [|c cs].
      * discriminate.
      * intros E. inversion E; subst. reflexivity.
    + intros E. inversion E; subst. reflexivity.
Qed.

(** When [load_data] fails (unreadable file, missing column),
    [run_pipeline] returns [False] without having written any file, and
    the failure is reported twice: once by [load_data] and once by
    [run_pipeline] itself. *)
Theorem run_pipeline_load_failure `{Pandas} (s : State) (e : exn) (s1 : State) :
  load_data (with_stdout (stdout s ++ ["Starting weather data processing pipeline..."]) s)
  = (Raise e, s1) ->
  exists s',
    run_pipeline s = (Return false, s')
    /\ written s' = written s
    /\ stdout s' = stdout s ++ ["Starting weather data processing pipeline...";
                                ("Error loading data: " ++ str_exn e)%string;
                                (newline ++ "Error in pipeline: " ++ str_exn e)%string].
Proof.
  intros E.
  set (s0 := with_stdout (stdout s ++ ["Starting weather data processing pipeline..."]) s) in *.
  pose proof (load_data_raise_log s0 e s1 E) as Hlog.
  pose proof (kw_load_data s0 _ s1 E) as (_ & _ & _ & _ & Hwr).
  unfold run_pipeline, try_except.
  unfold bind at 1. unfold print at 1. fold s0.
  unfold bind at 1. unfold stages. unfold bind at 1. rewrite E.
  eexists. split; [reflexivity|]. split.
  - simpl. exact Hwr.
  - simpl. rewrite Hlog. unfold s0. simpl. now rewrite <- !app_assoc.
Qed.

Lemma run_pipeline_load_failure_witness :
  exists s',
    run_pipeline no_city_state = (Return false, s')
    /\ written s' = written no_city_state
    /\ stdout s'
       = stdout no_city_state
         ++ ["Starting weather data processing pipeline...";
             ("Error loading data: "
              ++ str_exn (ValueError "Missing required columns: city"))%string;
             (newline ++ "Error in pipeline: "
              ++ str_exn (ValueError "Missing required columns: city"))%string].
Proof.
  apply (run_pipeline_load_failure no_city_state
           (ValueError "Missing required columns: city")
           (after load_data
              (with_stdout (stdout no_city_state
                            ++ ["Starting weather data processing pipeline..."])
                           no_city_state))).
  vm_compute. reflexivity.
Defined.

(** ** Which rows [load_data] and [clean_data] keep *)

(** How a field of the [date] column is read: an NA token gives NaT; any
    other text is either kept as text or parsed day first. *)
Definition date_read `{Pandas} (field : string) (d : DateCell) : Prop :=
  (is_na_token field = true -> d = NaT)
  /\ (is_na_token field = false ->
      d = DateText field
      \/ exists t, parse_datetime_dayfirst field = Some t /\ d = Timestamp t).

Lemma read_dates_spec `{Pandas} (fields : list string) :
  Forall2 date_read fields (read_dates fields).
Proof.
  unfold read_dates.
  destruct (forallb _ (map read_text fields)) eqn:Eall.
  - induction fields as [|f fields IH]; simpl; [constructor|].
    simpl in Eall. apply andb_prop in Eall. destruct Eall as [Ef Eall].
    constructor; [|now apply IH].
    unfold date_read, read_text in *.
    destruct (is_na_token f); split; try discriminate; auto.
    intros _. destruct (parse_datetime_dayfirst f) as [t|]; [|discriminate].
    right. eauto.
  - clear Eall. induction fields as [|f fields IH]; simpl; constructor; [|exact IH].
    unfold date_read, read_text.
    destruct (is_na_token f); split; try discriminate; auto.
Qed.

(** How a record of a complete file is loaded. *)
Definition loaded_from `{Pandas} (rec : CsvRecord) (r : Row) : Prop :=
  date_read (f_date rec) (date r)
  /\ city r = read_text (f_city rec)
  /\ temperature_celsius r = f_temperature_celsius rec
  /\ humidity_percent r = f_humidity_percent rec
  /\ wind_speed_kph r = f_wind_speed_kph rec
  /\ weather_condition r = read_text (f_weather_condition rec).

Lemma read_rows_spec `{Pandas} (header : list string) (records : list CsvRecord)
      (ds : list DateCell) :
  (forall col, In col required_columns -> Text.mem col header = true) ->
  Forall2 date_read (map f_date records) ds ->
  Forall2 loaded_from records
          (map (fun p => read_record header (fst p) (snd p)) (combine ds records)).
Proof.
  intros Hall. revert ds.
  induction records as [|rec records IH]; intros ds Hds; simpl in Hds.
  - inversion Hds; subst. constructor.
  - inversion Hds as [|? d ? ds' Hd Hds']; subst. simpl. constructor; [|now apply IH].
    unfold loaded_from, read_record. simpl.
    rewrite !Hall by (simpl; auto 10). repeat split; try reflexivity; apply Hd.
Qed.

(** [load_data] on a file with the required columns returns with one row
    per record, in file order, records with an unparseable date included;
    the NA tokens of the text columns are loaded as missing values, and the
    columns of the table are those of the header. *)
Theorem load_data_keeps_records `{Pandas} (s : State) header records :
  disk s (self_input_file s) = Csv header records ->
  (forall col, In col required_columns -> Text.mem col header = true) ->
  exists s' df,
    load_data s = (Return tt, s') /\ frame s' = Some df
    /\ columns df = header
    /\ Forall2 loaded_from records (rows df).
Proof.
  intros Hd Hall.
  assert (Hdate : Text.mem "date" header = true) by (apply Hall; simpl; auto).
  assert (Hnil : missing_columns header = []) by now apply missing_columns_nil.
  destruct (load_data_complete s header records Hd Hdate Hnil) as (s1 & E1 & F1).
  exists s1, (read_frame header records).
  split; [exact E1|]. split; [exact F1|]. split; [reflexivity|].
  apply read_rows_spec; [exact Hall|apply read_dates_spec].
Qed.

Lemma load_data_keeps_records_witness :
  exists s' df,
    load_data test_state = (Return tt, s') /\ frame s' = Some df
    /\ List.length (rows df) = 7%nat.
Proof.
  destruct (load_data_keeps_records test_state required_columns test_records)
    as (s' & df & E & F & _ & Hrows).
  - reflexivity.
  - intros col Hin. apply mem_in. exact Hin.
  - exists s', df. split; [exact E|]. split; [exact F|].
    apply Forall2_length in Hrows. rewrite <- Hrows. reflexivity.
Defined.

(** A row passes the two filters of [clean_data]. *)
Definition survives `{Pandas} (r : Row) : bool :=
  pd.date_notna (pd.to_datetime_cell (date r))
  && known_condition (normalize_condition (weather_condition r)).

(** The row with its date coerced and its condition normalised. *)
Definition prepared `{Pandas} (r : Row) : Row :=
  set_weather_condition (normalize_condition (weather_condition r))
                        (set_date (pd.to_datetime_cell (date r)) r).

Lemma rows_before_imputation `{Pandas} (df : DataFrame) :
  rows (before_imputation df) = map prepared (filter survives (rows df)).
Proof.
  unfold before_imputation, known_rows, with_conditions, pd.dropna_date, with_dates.
  simpl rows. induction (rows df) as [|r l IH]; [reflexivity|].
  cbn [map filter]. unfold survives at 1.
  replace (date (set_date (pd.to_datetime_cell (date r)) r))
    with (pd.to_datetime_cell (date r)) by now destruct r.
  destruct (pd.date_notna (pd.to_datetime_cell (date r))); cbn [andb map filter].
  - replace (weather_condition
               (set_weather_condition
                  (normalize_condition
                     (weather_condition (set_date (pd.to_datetime_cell (date r)) r)))
                  (set_date (pd.to_datetime_cell (date r)) r)))
      with (normalize_condition (weather_condition r)) by now destruct r.
    destruct (known_condition (normalize_condition (weather_condition r)));
      cbn [map]; rewrite IH; [|reflexivity].
    f_equal; try now destruct r.
  - exact IH.
Qed.

(** [clean_data] keeps exactly the rows whose date is valid and whose
    normalised condition is neither "unknown" nor empty, in their original
    order, with date coerced, condition normalised and city untouched; it
    adds and removes no column. *)
Theorem clean_data_keeps_rows `{Pandas} (s : State) (df : DataFrame) :
  frame s = Some df -> has_required df ->
  exists s' df',
    clean_data s = (Return tt, s') /\ frame s' = Some df'
    /\ columns df' = columns df
    /\ Forall2 (fun r r' =>
                  date r' = pd.to_datetime_cell (date r)
                  /\ city r' = city r
                  /\ weather_condition r' = normalize_condition (weather_condition r))
               (filter survives (rows df)) (rows df').
Proof.
  intros Hf Hreq.
  destruct (clean_data_on_frame df Hreq s Hf) as (s' & E & F).
  exists s', (cleaned df). split; [exact E|]. split; [exact F|].
  split; [now apply columns_cleaned|].
  rewrite rows_cleaned, rows_before_imputation, map_map.
  apply Forall2_map_r. intros r _. unfold impute, prepared. simpl.
  destruct r; repeat split.
Qed.

Lemma clean_data_keeps_rows_witness :
  exists s' df',
    clean_data (after load_data test_state) = (Return tt, s') /\ frame s' = Some df'
    /\ List.length (rows df') = 6%nat.
Proof.
  destruct (clean_data_keeps_rows (after load_data test_state)
                                  (frame_of (after load_data test_state)))
    as (s' & df' & E & F & _ & Hrows).
  - vm_compute. reflexivity.
  - intros col Hin. apply mem_in. vm_compute. vm_compute in Hin. exact Hin.
  - exists s', df'. split; [exact E|]. split; [exact F|].
    apply Forall2_length in Hrows. rewrite <- Hrows. vm_compute. reflexivity.
Defined.

(** ** [transform_data] run twice *)

Lemma to_datetime_cell_idem `{Pandas} (c : DateCell) :
  pd.to_datetime_cell (pd.to_datetime_cell c) = pd.to_datetime_cell c.
Proof.
  destruct c as [|t|txt]; simpl; try reflexivity.
  destruct (parse_datetime txt); reflexivity.
Qed.

Lemma derived_columns_idem (cols : list string) :
  derived_columns (derived_columns cols) = derived_columns cols.
Proof.
  unfold derived_columns.
  set (c1 := pd.add_column "year" cols).
  set (c2 := pd.add_column "month" c1).
  set (c3 := pd.add_column "day" c2).
  set (c4 := pd.add_column "temperature_fahrenheit" c3).
  assert (Hy : Text.mem "year" c4 = true)
    by (do 3 apply mem_add_column; apply mem_add_column_self).
  assert (Hm : Text.mem "month" c4 = true)
    by (do 2 apply mem_add_column; apply mem_add_column_self).
  assert (Hd : Text.mem "day" c4 = true)
    by (apply mem_add_column; apply mem_add_column_self).
  assert (Hf : Text.mem "temperature_fahrenheit" c4 = true)
    by apply mem_add_column_self.
  now rewrite (add_column_present "year" c4 Hy), (add_column_present "month" c4 Hm),
    (add_column_present "day" c4 Hd), (add_column_present "temperature_fahrenheit" c4 Hf).
Qed.

Lemma derive_fixed `{Pandas} (r0 : Row) :
  pd.to_datetime_cell (date r0) = date r0 ->
  derive (set_date (pd.to_datetime_cell (date (derive r0))) (derive r0)) = derive r0.
Proof.
  intros Hd. rewrite date_derive, Hd. destruct r0; reflexivity.
Qed.

(** A second [transform_data] changes nothing but, possibly, the order of
    rows of one date: it returns with the same columns (the derived columns
    are not added again), the same rows in a date-sorted order. *)
Theorem transform_data_twice `{Pandas} (s : State) (df : DataFrame) :
  frame s = Some df ->
  pd.has_column "date" df = true ->
  pd.has_column "temperature_celsius" df = true ->
  exists s1 df1 s2 df2,
    transform_data s = (Return tt, s1) /\ frame s1 = Some df1
    /\ transform_data s1 = (Return tt, s2) /\ frame s2 = Some df2
    /\ columns df2 = columns df1
    /\ Permutation (rows df2) (rows df1)
    /\ Sorted date_le (map date (rows df2)).
Proof.
  intros Hf Hdate Htemp.
  destruct (transform_data_on_frame df Hdate Htemp s Hf) as (s1 & E1 & F1).
  set (df1 := transformed df) in *.
  assert (Hdate1 : pd.has_column "date" df1 = true)
    by (apply has_column_transformed; auto).
  assert (Htemp1 : pd.has_column "temperature_celsius" df1 = true)
    by (apply has_column_transformed; auto).
  destruct (transform_data_on_frame df1 Hdate1 Htemp1 s1 F1) as (s2 & E2 & F2).
  exists s1, df1, s2, (transformed df1).
  split; [exact E1|]. split; [exact F1|]. split; [exact E2|]. split; [exact F2|].
  split; [|split].
  - unfold df1, transformed. simpl columns. apply derived_columns_idem.
  - change (rows (transformed df1))
      with (map derive (rows (pd.sort_values_date (with_dates df1)))).
    rewrite (Permutation_map derive (sort_values_date_perm (with_dates df1))).
    change (rows (with_dates df1))
      with (map (fun r => set_date (pd.to_datetime_cell (date r)) r) (rows df1)).
    rewrite map_map.
    assert (Hfix : forall r, In r (rows df1) ->
              derive (set_date (pd.to_datetime_cell (date r)) r) = r).
    { intros r Hin. unfold df1 in Hin.
      change (rows (transformed df))
        with (map derive (rows (pd.sort_values_date (with_dates df)))) in Hin.
      apply in_map_iff in Hin. destruct Hin as (r0 & <- & Hin0).
      apply derive_fixed.
      apply (Permutation_in _ (sort_values_date_perm (with_dates df))) in Hin0.
      change (rows (with_dates df))
        with (map (fun r => set_date (pd.to_datetime_cell (date r)) r) (rows df)) in Hin0.
      apply in_map_iff in Hin0. destruct Hin0 as (r00 & <- & _).
      replace (date (set_date (pd.to_datetime_cell (date r00)) r00))
        with (pd.to_datetime_cell (date r00)) by now destruct r00.
      apply to_datetime_cell_idem. }
    rewrite (map_ext_in _ (fun r => r) _ Hfix), map_id. reflexivity.
  - change (rows (transformed df1))
      with (map derive (rows (pd.sort_values_date (with_dates df1)))).
    rewrite map_map, (map_ext _ date date_derive). apply sort_values_date_sorted.
Qed.

Lemma transform_data_twice_witness :
  exists s1 df1 s2 df2,
    transform_data cleaned_test_state = (Return tt, s1) /\ frame s1 = Some df1
    /\ transform_data s1 = (Return tt, s2) /\ frame s2 = Some df2
    /\ columns df2 = columns df1.
Proof.
  destruct (transform_data_twice cleaned_test_state (frame_of cleaned_test_state))
    as (s1 & df1 & s2 & df2 & E1 & F1 & E2 & F2 & Hc & _).
  - vm_compute. reflexivity.
  - vm_compute. reflexivity.
  - vm_compute. reflexivity.
  - exists s1, df1, s2, df2. repeat split; assumption.
Defined.

(** ** What [clean_data] prints *)

(** [m] prints nothing, whatever its outcome. *)
Definition quiet {A : Type} (m : M A) : Prop :=
  forall s o s', m s = (o, s') -> stdout s' = stdout s.

Lemma quiet_ret {A : Type} (a : A) : quiet (ret a).
Proof. intros s o s' E. now inversion E. Qed.

Lemma quiet_raise {A : Type} (e : exn) : quiet (@raise A e).
Proof. intros s o s' E. now inversion E. Qed.

Lemma quiet_bind {A B : Type} (m : M A) (k : A -> M B) :
  quiet m -> (forall a, quiet (k a)) -> quiet (bind m k).
Proof.
  intros Hm Hk s o s' E. unfold bind in E.
  destruct (m s) as [[a|e] s1] eqn:E1; apply Hm in E1.
  - rewrite <- E1. eapply Hk; eauto.
  - now inversion E; subst.
Qed.

Lemma quiet_reads_only {A : Type} (m : M A) : reads_only m -> quiet m.
Proof. intros Hm s o s' E. apply Hm in E. now subst. Qed.

Lemma quiet_get_df : quiet get_df.
Proof. apply quiet_reads_only, reads_only_get_df. Qed.

Lemma quiet_check_df msg : quiet (check_df msg).
Proof. apply quiet_reads_only, reads_only_check_df. Qed.

Lemma quiet_getitem {V : Type} (get : Row -> V) col : quiet (getitem get col).
Proof. apply quiet_reads_only, reads_only_getitem. Qed.

Lemma quiet_alloc obj : quiet (alloc obj).
Proof. intros s o s' E. now inversion E. Qed.

Lemma quiet_update_df f : quiet (update_df f).
Proof.
  apply quiet_bind; [apply quiet_get_df|]. intros df s o s' E.
  destruct (self_df s); now inversion E.
Qed.

Lemma quiet_rebind_df df : quiet (rebind_df df).
Proof.
  apply quiet_bind; [apply quiet_alloc|]. intros l s o s' E. now inversion E.
Qed.

Lemma quiet_len_df : quiet len_df.
Proof. apply quiet_bind; [apply quiet_get_df|]. intros; apply quiet_ret. Qed.

Lemma quiet_when b m : quiet m -> quiet (when b m).
Proof. destruct b; simpl; auto using quiet_ret. Qed.

Lemma quiet_for_each {A : Type} (l : list A) body :
  (forall x, quiet (body x)) -> quiet (for_each l body).
Proof.
  intros Hb. induction l as [|x l IH]; simpl; [apply quiet_ret|].
  apply quiet_bind; auto.
Qed.

Lemma quiet_fill_with_city_median col : quiet (fill_with_city_median col).
Proof.
  apply quiet_bind; [apply quiet_get_df|]. intros df.
  destruct (pd.has_column "city" df); [apply quiet_ret|apply quiet_raise].
Qed.

Create HintDb quiet.

#[local] Hint Resolve quiet_ret quiet_raise quiet_get_df quiet_check_df quiet_getitem
  quiet_alloc quiet_update_df quiet_rebind_df quiet_len_df quiet_fill_with_city_median
  : quiet.

Ltac quiet :=
  repeat first
    [ solve [unfold setitem; auto with quiet]
    | apply quiet_when
    | apply quiet_for_each; intros ?
    | apply quiet_bind; [|intros ?] ].

(** [m] run on a state holding [df] returns [a], leaves [df'] and has
    printed [lines]. *)
Definition on_frame_log {A : Type} (m : M A) (df : DataFrame) (a : A) (df' : DataFrame)
           (lines : list string) : Prop :=
  forall s, frame s = Some df ->
            exists s', m s = (Return a, s') /\ frame s' = Some df'
                       /\ stdout s' = stdout s ++ lines.

Lemma log_quiet {A : Type} (m : M A) df a df' :
  on_frame m df a df' -> quiet m -> on_frame_log m df a df' [].
Proof.
  intros Hm Hq s Hs. destruct (Hm s Hs) as (s' & E & F).
  exists s'. split; [exact E|]. split; [exact F|].
  rewrite app_nil_r. exact (Hq s _ s' E).
Qed.

Lemma log_bind {A B : Type} (m : M A) (k : A -> M B) df a df1 l1 b df2 l2 :
  on_frame_log m df a df1 l1 -> on_frame_log (k a) df1 b df2 l2 ->
  on_frame_log (bind m k) df b df2 (l1 ++ l2).
Proof.
  intros Hm Hk s Hs. destruct (Hm s Hs) as (s1 & E1 & F1 & O1).
  destruct (Hk s1 F1) as (s2 & E2 & F2 & O2).
  exists s2. unfold bind. rewrite E1. split; [exact E2|]. split; [exact F2|].
  now rewrite O2, O1, app_assoc.
Qed.

(** The line of a count of dropped rows, printed only for a positive
    count. *)
Definition dropped_line (n : nat) (what : string) : list string :=
  if (0 <? n)%nat then [("Dropped " ++ Text.of_nat n ++ what)%string] else [].

Lemma log_dropped df n what :
  on_frame_log (when (0 <? n)%nat (print ("Dropped " ++ Text.of_nat n ++ what)))
               df tt df (dropped_line n what).
Proof.
  unfold dropped_line. intros s Hs. destruct (0 <? n)%nat; simpl.
  - eexists. split; [reflexivity|]. split; [exact Hs|reflexivity].
  - exists s. split; [reflexivity|]. split; [exact Hs|now rewrite app_nil_r].
Qed.

Lemma length_filter_negb {A : Type} (p : A -> bool) (l : list A) :
  (List.length l - List.length (filter p l))%nat
  = List.length (filter (fun x => negb (p x)) l).
Proof.
  induction l as [|x l IH]; [reflexivity|].
  pose proof (filter_length_le p l) as Hle.
  cbn [filter List.length]. destruct (p x); cbn [negb List.length]; lia.
Qed.

(** The rows [clean_data] drops for their date, and those it then drops for
    their condition. *)
Definition invalid_dates `{Pandas} (df : DataFrame) : nat :=
  List.length (filter (fun r => negb (pd.date_notna (pd.to_datetime_cell (date r))))
                      (rows df)).

Definition unknown_conditions `{Pandas} (df : DataFrame) : nat :=
  List.length
    (filter (fun r => negb (known_condition (normalize_condition (weather_condition r))))
            (filter (fun r => pd.date_notna (pd.to_datetime_cell (date r))) (rows df))).

(** Whatever the outcome of [m] on a state holding [df], it has printed
    [lines]. *)
Definition prints {A : Type} (m : M A) (df : DataFrame) (lines : list string) : Prop :=
  forall s o s', frame s = Some df -> m s = (o, s') -> stdout s' = stdout s ++ lines.

Lemma prints_bind {A B : Type} (m : M A) (k : A -> M B) df a df1 l1 l2 :
  on_frame_log m df a df1 l1 -> prints (k a) df1 l2 -> prints (bind m k) df (l1 ++ l2).
Proof.
  intros Hm Hk s o s' Hs E. destruct (Hm s Hs) as (s1 & E1 & F1 & O1).
  unfold bind in E. rewrite E1 in E.
  rewrite (Hk s1 o s' F1 E), O1. now rewrite app_assoc.
Qed.

Lemma prints_quiet {A : Type} (m : M A) df : quiet m -> prints m df [].
Proof. intros Hq s o s' _ E. rewrite app_nil_r. exact (Hq s o s' E). Qed.

Lemma prints_eq {A : Type} (m : M A) df l l' : prints m df l -> l = l' -> prints m df l'.
Proof. now intros Hm <-. Qed.

Lemma mask_filter {A : Type} (g : A -> bool) (l : list A) :
  map snd (filter (fun p : bool * A => fst p) (combine (map g l) l)) = filter g l.
Proof.
  induction l as [|x l IH]; simpl; [reflexivity|].
  destruct (g x); simpl; congruence.
Qed.

Lemma clean_data_prints `{Pandas} (df : DataFrame) :
  has_required df ->
  prints clean_data df
    (dropped_line (invalid_dates df) " rows with invalid/missing dates"
     ++ dropped_line (unknown_conditions df) " rows with unknown/empty weather conditions").
Proof.
  intros Hreq.
  assert (Hdate : pd.has_column "date" df = true) by (apply Hreq; simpl; auto).
  assert (Hcond : pd.has_column "weather_condition" df = true)
    by (apply Hreq; simpl; auto 10).
  unfold clean_data. eapply prints_eq.
  - eapply prints_bind; [apply log_quiet; [apply on_frame_check_df|quiet]|].
    eapply prints_bind; [apply log_quiet; [now apply on_frame_getitem|quiet]|].
    eapply prints_bind; [apply log_quiet; [apply on_frame_setitem|quiet]|].
    unfold pd.to_datetime. rewrite map_map, assign_present by assumption.
    fold (with_dates df).
    eapply prints_bind; [apply log_quiet; [apply on_frame_len_df|quiet]|].
    eapply prints_bind; [apply log_quiet; [apply on_frame_get_df|quiet]|].
    eapply prints_bind; [apply log_quiet; [apply on_frame_rebind_df|quiet]|].
    eapply prints_bind; [apply log_quiet; [apply on_frame_len_df|quiet]|].
    eapply prints_bind; [apply log_dropped|].
    eapply prints_bind; [apply log_quiet; [apply on_frame_get_df|quiet]|].
    change (pd.has_column "weather_condition" (pd.dropna_date (with_dates df)))
      with (pd.has_column "weather_condition" df).
    rewrite Hcond. simpl when.
    eapply prints_bind.
    { apply log_quiet; [|quiet].
      eapply on_frame_bind; [now apply on_frame_getitem|]. apply on_frame_setitem. }
    rewrite map_map, assign_present by assumption.
    fold (with_conditions (pd.dropna_date (with_dates df))).
    eapply prints_bind; [apply log_quiet; [apply on_frame_get_df|quiet]|].
    change (pd.has_column "weather_condition"
              (with_conditions (pd.dropna_date (with_dates df))))
      with (pd.has_column "weather_condition" df).
    rewrite Hcond. simpl when.
    eapply prints_bind.
    { eapply log_bind; [apply log_quiet; [apply on_frame_len_df|quiet]|].
      eapply log_bind; [apply log_quiet; [now apply on_frame_getitem|quiet]|].
      eapply log_bind; [apply log_quiet; [apply on_frame_get_df|quiet]|].
      eapply log_bind; [apply log_quiet; [apply on_frame_rebind_df|quiet]|].
      eapply log_bind; [apply log_quiet; [apply on_frame_len_df|quiet]|].
      apply log_dropped. }
    apply prints_quiet. quiet.
  - simpl app. rewrite !app_nil_r. f_equal.
    + f_equal. unfold invalid_dates.
      change (rows (pd.dropna_date (with_dates df)))
        with (filter (fun r => pd.date_notna (date r)) (rows (with_dates df))).
      rewrite length_filter_negb.
      change (rows (with_dates df))
        with (map (fun r => set_date (pd.to_datetime_cell (date r)) r) (rows df)).
      rewrite filter_map_comm, length_map. f_equal.
    + f_equal. unfold unknown_conditions.
      rewrite (map_map weather_condition known_condition).
      rewrite (mask_filter (fun r => known_condition (weather_condition r))).
      rewrite length_filter_negb.
      rewrite filter_map_comm, length_map, filter_map_comm.
      rewrite filter_map_comm, length_map. f_equal.
Qed.

Lemma length_three_way {A : Type} (p q : A -> bool) (l : list A) :
  (List.length (filter (fun x => negb (p x)) l)
   + List.length (filter (fun x => negb (q x)) (filter p l))
   + List.length (filter (fun x => p x && q x) l))%nat
  = List.length l.
Proof.
  induction l as [|x l IH]; simpl; [reflexivity|].
  destruct (p x); simpl; [destruct (q x); simpl|]; lia.
Qed.

(** [clean_data] reports what it drops: it prints the number of rows
    dropped for an invalid or missing date, then the number of rows dropped
    for an unknown or empty condition, each line only when the count is
    positive, and nothing else; the two counts and the rows it keeps add up
    to the rows it was given. *)
Theorem clean_data_diagnostics `{Pandas} (s : State) (df : DataFrame) :
  frame s = Some df -> has_required df ->
  exists s' df',
    clean_data s = (Return tt, s') /\ frame s' = Some df'
    /\ stdout s'
       = stdout s
         ++ dropped_line (invalid_dates df) " rows with invalid/missing dates"
         ++ dropped_line (unknown_conditions df)
                         " rows with unknown/empty weather conditions"
    /\ (invalid_dates df + unknown_conditions df + List.length (rows df')
        = List.length (rows df))%nat.
Proof.
  intros Hf Hreq.
  destruct (clean_data_on_frame df Hreq s Hf) as (s' & E & F).
  exists s', (cleaned df). split; [exact E|]. split; [exact F|]. split.
  - exact (clean_data_prints df Hreq s _ s' Hf E).
  - rewrite rows_cleaned, rows_before_imputation, !length_map.
    unfold invalid_dates, unknown_conditions, survives.
    apply (length_three_way
             (fun r => pd.date_notna (pd.to_datetime_cell (date r)))
             (fun r => known_condition (normalize_condition (weather_condition r)))).
Qed.

Lemma clean_data_diagnostics_witness :
  exists s' df',
    clean_data (after load_data test_state) = (Return tt, s') /\ frame s' = Some df'
    /\ stdout s' = ["Dropped 1 rows with invalid/missing dates"].
Proof.
  destruct (clean_data_diagnostics (after load_data test_state)
                                   (frame_of (after load_data test_state)))
    as (s' & df' & E & F & Hout & _).
  - vm_compute. reflexivity.
  - intros col Hin. apply mem_in. vm_compute. vm_compute in Hin. exact Hin.
  - exists s', df'. split; [exact E|]. split; [exact F|].
    rewrite Hout. vm_compute. reflexivity.
Defined.

(** ** [weather_freq]: the counts of the conditions *)

Lemma take_rev {A : Type} (idx : list nat) (l : list A) :
  take (rev idx) l = rev (take idx l).
Proof.
  induction idx as [|i idx IH]; simpl; [reflexivity|].
  rewrite take_app, IH. simpl. destruct (nth_error l i); simpl; [reflexivity|].
  now rewrite app_nil_r.
Qed.

Lemma StronglySorted_snoc {A : Type} (R : A -> A -> Prop) (l : list A) (x : A) :
  StronglySorted R l -> Forall (fun y => R y x) l -> StronglySorted R (l ++ [x]).
Proof.
  induction 1 as [|y l Hs IH Hall]; intros Hx; simpl.
  - repeat constructor.
  - inversion Hx; subst. constructor; [now apply IH|].
    apply Forall_app. split; [exact Hall|]. now constructor.
Qed.

Lemma Sorted_rev_le (l : list Z) :
  Sorted Z.le l -> Sorted (fun x y => (y <= x)%Z) (rev l).
Proof.
  intros Hs. apply StronglySorted_Sorted.
  apply Sorted_StronglySorted in Hs; [|intros x y z; apply Z.le_trans].
  induction Hs as [|x l Hs IH Hall]; simpl; [constructor|].
  apply StronglySorted_snoc; [exact IH|].
  apply Forall_rev. exact Hall.
Qed.

Lemma positions_all {A : Type} (p : A -> bool) (a : nat) (l : list A) :
  (forall x, In x l -> p x = true) -> positions_from p a l = seq a (List.length l).
Proof.
  revert a; induction l as [|x l IH]; intros a Hall; simpl; [reflexivity|].
  rewrite (Hall x) by (simpl; auto). f_equal. apply IH. intros; apply Hall; simpl; auto.
Qed.

Lemma positions_none {A : Type} (p : A -> bool) (a : nat) (l : list A) :
  (forall x, In x l -> p x = false) -> positions_from p a l = [].
Proof.
  revert a; induction l as [|x l IH]; intros a Hall; simpl; [reflexivity|].
  rewrite (Hall x) by (simpl; auto). apply IH. intros; apply Hall; simpl; auto.
Qed.

Lemma dropna_Z_somes (ks : list Z) : pd.dropna_Z (map Some ks) = ks.
Proof. induction ks as [|k ks IH]; simpl; [reflexivity|]. now rewrite IH. Qed.

(** [nargsort] with [ascending=False] on keys that are all present. *)
Lemma nargsort_desc_somes `{Pandas} (ks : list Z) :
  pd.nargsort_desc (map Some ks)
  = rev (take (argsort (rev ks)) (rev (seq 0 (List.length ks)))).
Proof.
  unfold pd.nargsort_desc, positions.
  rewrite positions_all, positions_none, dropna_Z_somes, length_map, app_nil_r;
    [reflexivity| |]; intros x Hin; apply in_map_iff in Hin;
    destruct Hin as (k & <- & _); reflexivity.
Qed.

Lemma nargsort_desc_somes_perm `{Pandas} (ks : list Z) :
  Permutation (pd.nargsort_desc (map Some ks)) (seq 0 (List.length ks)).
Proof.
  rewrite nargsort_desc_somes, <- Permutation_rev.
  rewrite (take_perm _ _ _ (argsort_perm (rev ks))).
  rewrite length_rev.
  replace (List.length ks) with (List.length (rev (seq 0 (List.length ks)))) at 1
    by now rewrite length_rev, length_seq.
  rewrite take_seq. symmetry. apply Permutation_rev.
Qed.

Lemma nargsort_desc_somes_sorted `{Pandas} (ks : list Z) :
  Sorted (fun x y => (y <= x)%Z) (take (pd.nargsort_desc (map Some ks)) ks).
Proof.
  rewrite nargsort_desc_somes, take_rev, take_take.
  - rewrite take_rev, take_seq. apply Sorted_rev_le, argsort_sorted.
  - intros x Hx. apply in_rev, in_seq in Hx. lia.
Qed.

(** The number of rows of condition [v]. *)
Definition rows_of_condition (v : string) (df : DataFrame) : nat :=
  List.length (filter (fun r => match weather_condition r with
                                | Some w => v =? w
                                | None => false
                                end) (rows df)).

Lemma count_dropna_str (v : string) (l : list Row) :
  List.length (filter (String.eqb v) (pd.dropna_str (map weather_condition l)))
  = List.length (filter (fun r => match weather_condition r with
                                  | Some w => v =? w
                                  | None => false
                                  end) l).
Proof.
  induction l as [|r l IH]; simpl; [reflexivity|].
  destruct (weather_condition r) as [w|]; simpl; [|exact IH].
  destruct (v =? w); simpl; now rewrite IH.
Qed.

Lemma length_dropna_str (l : list Row) :
  List.length (pd.dropna_str (map weather_condition l))
  = List.length (filter (fun r => negb (Num.isna (weather_condition r))) l).
Proof.
  induction l as [|r l IH]; simpl; [reflexivity|].
  destruct (weather_condition r); simpl; now rewrite IH.
Qed.

Lemma NoDup_unique (l : list string) : NoDup (pd.unique l).
Proof.
  induction l as [|x l IH]; simpl; constructor.
  - rewrite filter_In. intros [_ Hx]. now rewrite String.eqb_refl in Hx.
  - now apply NoDup_filter.
Qed.

Definition total (ns : list nat) : nat := fold_right Nat.add 0%nat ns.

Lemma total_indicator (x : string) (u : list string) :
  NoDup u -> In x u ->
  total (map (fun v => if v =? x then 1%nat else 0%nat) u) = 1%nat.
Proof.
  induction 1 as [|y u Hy Hu IH]; simpl; [tauto|].
  intros [->|Hin].
  - rewrite String.eqb_refl.
    assert (Hz : total (map (fun v => if v =? x then 1%nat else 0%nat) u) = 0%nat).
    { clear IH Hu. induction u as [|z u IHu]; simpl; [reflexivity|].
      destruct (String.eqb_spec z x) as [->|Hne].
      - exfalso. apply Hy. simpl; auto.
      - apply IHu. intros Hin. apply Hy. simpl; auto. }
    now rewrite Hz.
  - destruct (String.eqb_spec y x) as [->|Hne]; [contradiction|].
    simpl. now apply IH.
Qed.

Lemma total_cons (x : string) (l u : list string) :
  total (map (fun v => List.length (filter (String.eqb v) (x :: l))) u)
  = Nat.add (total (map (fun v => if v =? x then 1%nat else 0%nat) u))
            (total (map (fun v => List.length (filter (String.eqb v) l)) u)).
Proof.
  induction u as [|y u IHu]; [reflexivity|].
  unfold total in *. cbn [map fold_right]. rewrite IHu. cbn [filter].
  destruct (y =? x); cbn [List.length]; lia.
Qed.

Lemma total_counts (u l : list string) :
  NoDup u -> (forall x, In x l -> In x u) ->
  total (map (fun v => List.length (filter (String.eqb v) l)) u) = List.length l.
Proof.
  intros Hu. induction l as [|x l IH]; intros Hin.
  - clear. induction u as [|y u IHu]; simpl; [reflexivity|exact IHu].
  - rewrite total_cons, (total_indicator x u Hu) by (apply Hin; simpl; auto).
    rewrite IH by (intros; apply Hin; simpl; auto). reflexivity.
Qed.

Lemma total_perm (l l' : list nat) : Permutation l l' -> total l = total l'.
Proof.
  induction 1; simpl; try lia.
Qed.

(** The pairs [value_counts] sorts. *)
Definition condition_counts (df : DataFrame) : list (string * nat) :=
  let vals := pd.dropna_str (map weather_condition (rows df)) in
  map (fun v => (v, List.length (filter (String.eqb v) vals))) (pd.unique vals).

Lemma value_counts_perm `{Pandas} (df : DataFrame) :
  Permutation (pd.value_counts (map weather_condition (rows df))) (condition_counts df).
Proof.
  unfold pd.value_counts. fold (condition_counts df).
  rewrite <- (map_map (fun p : string * nat => Z.of_nat (snd p)) Some).
  rewrite (take_perm _ _ _ (nargsort_desc_somes_perm _)).
  now rewrite length_map, take_seq.
Qed.

Lemma value_counts_sorted `{Pandas} (df : DataFrame) :
  Sorted (fun x y => (snd y <= snd x)%nat)
         (pd.value_counts (map weather_condition (rows df))).
Proof.
  unfold pd.value_counts. fold (condition_counts df).
  rewrite <- (map_map (fun p : string * nat => Z.of_nat (snd p)) Some).
  set (ks := map (fun p : string * nat => Z.of_nat (snd p)) (condition_counts df)).
  assert (Hs := nargsort_desc_somes_sorted ks).
  unfold ks in Hs at 2. rewrite take_map in Hs. fold ks in Hs.
  set (l := take _ (condition_counts df)) in *. clearbody l.
  induction l as [|x l IH]; simpl in *; [constructor|].
  inversion Hs as [|? ? Hs' Hd]; subst.
  constructor; [now apply IH|].
  destruct l; simpl in *; constructor. inversion Hd; subst. lia.
Qed.

(** The views of [analyze_data] as functions of the table. *)
Definition basic_stats_of `{Pandas} (df : DataFrame) : list (string * pd.Describe) :=
  map (fun col => (col, pd.round2_describe (pd.describe (map (get_float col) (rows df)))))
      analysis_cols.

Definition city_stats_of (df : DataFrame) : list (string * list (string * pd.Agg)) :=
  map (fun k => (k, map (fun col =>
                           (col, pd.round2_agg
                                   (pd.agg4 (map (get_float col)
                                                 (filter (pd.city_is k) (rows df))))))
                        analysis_cols))
      (pd.group_keys df).

Lemma analyze_data_heap `{Pandas} (s : State) (df : DataFrame) :
  frame s = Some df ->
  (forall col, In col analysis_requirements -> pd.has_column col df = true) ->
  exists s' b c w t,
    analyze_data s
    = (Return [("basic_stats", b); ("city_stats", c); ("weather_freq", w);
               ("top_cities", t)], s')
    /\ heap s' = heap s ++ [OBasicStats (basic_stats_of df);
                            OCityStats (city_stats_of df);
                            OWeatherFreq (pd.value_counts (map weather_condition (rows df)));
                            OTopCities (top_cities_of df)]
    /\ b = List.length (heap s) /\ c = (List.length (heap s) + 1)%nat
    /\ w = (List.length (heap s) + 2)%nat /\ t = (List.length (heap s) + 3)%nat.
Proof.
  intros Hs Hall. unfold analyze_data.
  rewrite (bind_eq _ _ _ _ _ (check_df_frame _ s df Hs)).
  rewrite (bind_eq _ _ _ _ _ (require_columns_frame analysis_cols s df Hs
             (fun col Hin => Hall col (or_intror (or_intror Hin))))).
  rewrite (bind_eq _ _ _ _ _ (get_df_frame s df Hs)).
  unfold bind at 1. unfold alloc at 1.
  set (s1 := with_heap (heap s ++ [_]) s).
  assert (H1 : frame s1 = Some df) by now apply frame_alloc.
  assert (Hcity : forall col, In col ["city"] -> pd.has_column col df = true)
    by (intros col [<-|[]]; apply Hall; simpl; auto).
  rewrite (bind_eq _ _ _ _ _ (require_columns_frame ["city"] s1 df H1 Hcity)).
  rewrite (bind_eq _ _ _ _ _ (get_df_frame s1 df H1)).
  unfold bind at 1. unfold alloc at 1.
  set (s2 := with_heap (heap s1 ++ [_]) s1).
  assert (H2 : frame s2 = Some df) by now apply frame_alloc.
  assert (Hcond : pd.has_column "weather_condition" df = true)
    by (apply Hall; simpl; auto).
  rewrite (bind_eq _ _ _ _ _ (getitem_frame weather_condition _ s2 df H2 Hcond)).
  unfold bind at 1. unfold alloc at 1.
  set (s3 := with_heap (heap s2 ++ [_]) s2).
  assert (H3 : frame s3 = Some df) by now apply frame_alloc.
  assert (Hct : forall col, In col ["city"; "temperature_celsius"] ->
                            pd.has_column col df = true)
    by (intros col [<-|[<-|[]]]; apply Hall; simpl; auto).
  rewrite (bind_eq _ _ _ _ _ (require_columns_frame _ s3 df H3 Hct)).
  rewrite (bind_eq _ _ _ _ _ (get_df_frame s3 df H3)).
  unfold bind at 1. unfold alloc at 1. unfold ret.
  eexists _, _, _, _, _. split; [reflexivity|].
  unfold s3, s2, s1. simpl heap. rewrite four_allocs.
  split; [reflexivity|]. rewrite !length_app. simpl List.length.
  repeat split; lia.
Qed.

(** On a table with the columns of a transformed table, the [weather_freq]
    view of [analyze_data] lists every condition that occurs in the table
    exactly once, with the number of rows that have it, in descending order
    of that number; the counts add up to the number of rows with a
    condition. *)
Theorem analyze_data_weather_freq `{Pandas} (s : State) (df : DataFrame) :
  frame s = Some df ->
  (forall col, In col analysis_requirements -> pd.has_column col df = true) ->
  exists s' views l freq,
    analyze_data s = (Return views, s')
    /\ In ("weather_freq", l) views
    /\ nth_error (heap s') l = Some (OWeatherFreq freq)
    /\ Sorted (fun x y => (snd y <= snd x)%nat) freq
    /\ NoDup (map fst freq)
    /\ (forall v n, In (v, n) freq <->
                    (exists r, In r (rows df) /\ weather_condition r = Some v)
                    /\ n = rows_of_condition v df)
    /\ total (map snd freq)
       = List.length (filter (fun r => negb (Num.isna (weather_condition r))) (rows df)).
Proof.
  intros Hs Hall.
  destruct (analyze_data_heap s df Hs Hall)
    as (s' & b & c & w & t & E & Hheap & _ & _ & Hw & _).
  set (freq := pd.value_counts (map weather_condition (rows df))) in *.
  pose proof (value_counts_perm df) as Hperm. fold freq in Hperm.
  exists s'. eexists. exists w, freq.
  split; [exact E|]. split; [simpl; auto|]. split.
  { rewrite Hheap, Hw, nth_error_app2 by lia.
    replace (List.length (heap s) + 2 - List.length (heap s))%nat with 2%nat by lia.
    reflexivity. }
  split; [apply value_counts_sorted|]. split; [|split].
  - rewrite (Permutation_map fst Hperm). unfold condition_counts.
    rewrite map_map. simpl. rewrite map_id. apply NoDup_unique.
  - intros v n. split.
    + intros Hin. apply (Permutation_in _ Hperm) in Hin.
      unfold condition_counts in Hin. apply in_map_iff in Hin.
      destruct Hin as (v' & Ev & Hin'). inversion Ev; subst v' n. split.
      * apply in_unique, in_dropna_str, in_map_iff in Hin'.
        destruct Hin' as (r & Er & Hr). eauto.
      * apply count_dropna_str.
    + intros ((r & Hr & Er) & ->).
      apply (Permutation_in _ (Permutation_sym Hperm)).
      unfold condition_counts. apply in_map_iff. exists v. split.
      * f_equal. apply count_dropna_str.
      * apply in_unique, in_dropna_str, in_map_iff. eauto.
  - rewrite (total_perm _ _ (Permutation_map snd Hperm)). unfold condition_counts.
    rewrite map_map. simpl.
    rewrite total_counts; [|apply NoDup_unique|intros x; apply in_unique].
    apply length_dropna_str.
Qed.

Lemma analyze_data_weather_freq_witness :
  exists s' views l freq,
    analyze_data transformed_test_state = (Return views, s')
    /\ In ("weather_freq", l) views
    /\ nth_error (heap s') l = Some (OWeatherFreq freq)
    /\ total (map snd freq) = 6%nat.
Proof.
  destruct (analyze_data_weather_freq transformed_test_state
                                      (frame_of transformed_test_state))
    as (s' & views & l & freq & E & Hin & Hl & _ & _ & _ & Ht).
  - vm_compute. reflexivity.
  - intros col Hin. apply mem_in. vm_compute. vm_compute in Hin.
    intuition auto.
  - exists s', views, l, freq. split; [exact E|]. split; [exact Hin|].
    split; [exact Hl|]. rewrite Ht. vm_compute. reflexivity.
Defined.

(** ** [city_stats]: one entry per city, minimum below mean and median below maximum *)

Lemma fold_min_spec (xs : list Q) (acc : Q) :
  let r := fold_left (fun m y => if Qle_bool y m then y else m) xs acc in
  (r = acc \/ In r xs) /\ r <= acc /\ forall x, In x xs -> r <= x.
Proof.
  revert acc. induction xs as [|y xs IH]; intros acc; simpl.
  - split; [auto|]. split; [apply Qle_refl|tauto].
  - destruct (IH (if Qle_bool y acc then y else acc)) as (Hin & Hle & Hall).
    destruct (Qle_bool y acc) eqn:E.
    + apply Qle_bool_iff in E. split; [destruct Hin; auto|].
      split; [eapply Qle_trans; eauto|].
      intros x [<-|Hx]; auto.
    + assert (Hlt : acc < y).
      { apply Qnot_le_lt. intros C. apply Qle_bool_iff in C. congruence. }
      split; [destruct Hin; auto|]. split; [exact Hle|].
      intros x [<-|Hx]; auto. eapply Qle_trans; [exact Hle|]. now apply Qlt_le_weak.
Qed.

Lemma fold_max_spec (xs : list Q) (acc : Q) :
  let r := fold_left (fun m y => if Qle_bool m y then y else m) xs acc in
  (r = acc \/ In r xs) /\ acc <= r /\ forall x, In x xs -> x <= r.
Proof.
  revert acc. induction xs as [|y xs IH]; intros acc; simpl.
  - split; [auto|]. split; [apply Qle_refl|tauto].
  - destruct (IH (if Qle_bool acc y then y else acc)) as (Hin & Hle & Hall).
    destruct (Qle_bool acc y) eqn:E.
    + apply Qle_bool_iff in E. split; [destruct Hin; auto|].
      split; [eapply Qle_trans; eauto|].
      intros x [<-|Hx]; auto.
    + assert (Hlt : y < acc).
      { apply Qnot_le_lt. intros C. apply Qle_bool_iff in C. congruence. }
      split; [destruct Hin; auto|]. split; [exact Hle|].
      intros x [<-|Hx]; auto. eapply Qle_trans; [|exact Hle]. now apply Qlt_le_weak.
Qed.

Lemma min_of_spec (xs : list Q) (m : Q) :
  Num.min_of xs = Some m -> In m xs /\ forall x, In x xs -> m <= x.
Proof.
  destruct xs as [|x0 xs]; simpl; [discriminate|]. intros [= <-].
  destruct (fold_min_spec xs x0) as (Hin & Hle & Hall).
  split; [destruct Hin as [->|Hin]; auto|].
  intros x [<-|Hx]; auto.
Qed.

Lemma max_of_spec (xs : list Q) (m : Q) :
  Num.max_of xs = Some m -> In m xs /\ forall x, In x xs -> x <= m.
Proof.
  destruct xs as [|x0 xs]; simpl; [discriminate|]. intros [= <-].
  destruct (fold_max_spec xs x0) as (Hin & Hle & Hall).
  split; [destruct Hin as [->|Hin]; auto|].
  intros x [<-|Hx]; auto.
Qed.

Lemma sum_bounds (xs : list Q) (lo hi : Q) :
  (forall x, In x xs -> lo <= x /\ x <= hi) ->
  inject_Z (Z.of_nat (List.length xs)) * lo <= Num.sum xs
  /\ Num.sum xs <= inject_Z (Z.of_nat (List.length xs)) * hi.
Proof.
  induction xs as [|x xs IH]; intros Hall.
  - change (inject_Z 0 * lo <= 0 /\ 0 <= inject_Z 0 * hi).
    change (inject_Z 0) with 0. split; lra.
  - destruct (IH (fun y Hy => Hall y (or_intror Hy))) as [Hlo Hhi].
    destruct (Hall x (or_introl eq_refl)) as [Hx1 Hx2].
    change (Num.sum (x :: xs)) with (x + Num.sum xs).
    replace (List.length (x :: xs)) with (S (List.length xs)) by reflexivity.
    rewrite Nat2Z.inj_succ. unfold Z.succ. rewrite inject_Z_plus.
    change (inject_Z 1) with 1. split; lra.
Qed.

Lemma mean_of_bounds (xs : list Q) (lo hi a : Q) :
  (forall x, In x xs -> lo <= x /\ x <= hi) ->
  Num.mean_of xs = Some a -> lo <= a /\ a <= hi.
Proof.
  intros Hall Ha. destruct (sum_bounds xs lo hi Hall) as [Hlo Hhi].
  assert (Hn : 0 < inject_Z (Z.of_nat (List.length xs))).
  { destruct xs as [|x0 xs]; [discriminate|].
    replace 0 with (inject_Z 0) by reflexivity. rewrite <- Zlt_Qlt.
    simpl List.length. lia. }
  assert (Ea : a = Num.sum xs / inject_Z (Z.of_nat (List.length xs))).
  { destruct xs as [|x0 xs]; [discriminate|]. injection Ha as <-. reflexivity. }
  set (n := inject_Z (Z.of_nat (List.length xs))) in *. clearbody n. subst a.
  split.
  - apply Qle_shift_div_l; [exact Hn|]. lra.
  - apply Qle_shift_div_r; [exact Hn|]. lra.
Qed.

Lemma median_of_bounds (xs : list Q) (lo hi d : Q) :
  (forall x, In x xs -> lo <= x /\ x <= hi) ->
  Num.median_of xs = Some d -> lo <= d /\ d <= hi.
Proof.
  intros Hall. unfold Num.median_of.
  set (s := isort Qle_bool xs).
  assert (Hs : forall i x, nth_error s i = Some x -> lo <= x /\ x <= hi).
  { intros i x Hi. apply Hall.
    apply (Permutation_in _ (isort_perm Qle_bool xs)).
    eapply nth_error_In; eauto. }
  destruct (List.length s =? 0)%nat; [discriminate|].
  destruct (Nat.odd (List.length s)).
  - intros Hd. eapply Hs; eauto.
  - destruct (nth_error s (List.length s / 2 - 1)) as [a|] eqn:Ea; [|discriminate].
    destruct (nth_error s (List.length s / 2)) as [b|] eqn:Eb; [|discriminate].
    intros [= <-]. destruct (Hs _ _ Ea), (Hs _ _ Eb).
    split.
    + apply Qle_shift_div_l; lra.
    + apply Qle_shift_div_r; lra.
Qed.

(** The four statistics of one city and column: whenever they have a value,
    the mean and the median lie between the minimum and the maximum. *)
Definition agg_in_order (a : pd.Agg) : Prop :=
  forall mn mx, pd.a_min a = Some mn -> pd.a_max a = Some mx ->
    mn <= mx
    /\ (forall mean, pd.a_mean a = Some mean -> mn <= mean /\ mean <= mx)
    /\ (forall med, pd.a_median a = Some med -> mn <= med /\ med <= mx).

Lemma agg4_in_order (col : list (option Q)) : agg_in_order (pd.round2_agg (pd.agg4 col)).
Proof.
  unfold agg_in_order, pd.round2_agg, pd.agg4, Num.round2_opt. simpl.
  unfold Num.min, Num.max, Num.mean, Num.median.
  set (xs := Num.dropna col).
  intros mn mx Hmn Hmx.
  destruct (Num.min_of xs) as [lo|] eqn:Elo; [|discriminate].
  destruct (Num.max_of xs) as [hi|] eqn:Ehi; [|discriminate].
  simpl in Hmn, Hmx. injection Hmn as <-. injection Hmx as <-.
  destruct (min_of_spec xs lo Elo) as [Hlo_in Hlo].
  destruct (max_of_spec xs hi Ehi) as [Hhi_in Hhi].
  assert (Hall : forall x, In x xs -> lo <= x /\ x <= hi) by (intros; split; auto).
  split; [apply round2_mono, Hlo, Hhi_in|]. split.
  - intros mean Hm. destruct (Num.mean_of xs) as [a|] eqn:Ea; [|discriminate].
    simpl in Hm. injection Hm as <-.
    destruct (mean_of_bounds xs lo hi a Hall Ea). split; now apply round2_mono.
  - intros med Hm. destruct (Num.median_of xs) as [d|] eqn:Ed; [|discriminate].
    simpl in Hm. injection Hm as <-.
    destruct (median_of_bounds xs lo hi d Hall Ed). split; now apply round2_mono.
Qed.

Lemma group_keys_sorted (df : DataFrame) :
  Sorted (fun a b => (a <=? b) = true) (pd.group_keys df).
Proof.
  unfold pd.group_keys. apply isort_sorted; [auto|].
  intros x y E. destruct (String.leb_total x y) as [C|C]; [congruence|exact C].
Qed.

Lemma group_keys_nodup (df : DataFrame) : NoDup (pd.group_keys df).
Proof.
  unfold pd.group_keys.
  apply (Permutation_NoDup (Permutation_sym (isort_perm _ _))), NoDup_unique.
Qed.

(** On a table with the columns of a transformed table, the [city_stats]
    view of [analyze_data] has one entry per city of the table, in
    ascending order of the city label; each entry has the four analysis
    columns, and in each of them the rounded mean and median lie between
    the rounded minimum and maximum. *)
Theorem analyze_data_city_stats `{Pandas} (s : State) (df : DataFrame) :
  frame s = Some df ->
  (forall col, In col analysis_requirements -> pd.has_column col df = true) ->
  exists s' views l stats,
    analyze_data s = (Return views, s')
    /\ In ("city_stats", l) views
    /\ nth_error (heap s') l = Some (OCityStats stats)
    /\ Sorted (fun a b => (a <=? b) = true) (map fst stats)
    /\ NoDup (map fst stats)
    /\ (forall c, In c (map fst stats) <-> exists r, In r (rows df) /\ city r = Some c)
    /\ (forall c entry, In (c, entry) stats ->
          map fst entry = analysis_cols
          /\ forall col a, In (col, a) entry -> agg_in_order a).
Proof.
  intros Hs Hall.
  destruct (analyze_data_heap s df Hs Hall)
    as (s' & b & c & w & t & E & Hheap & _ & Hc & _ & _).
  exists s'. eexists. exists c, (city_stats_of df).
  split; [exact E|]. split; [simpl; auto|]. split.
  { rewrite Hheap, Hc, nth_error_app2 by lia.
    replace (List.length (heap s) + 1 - List.length (heap s))%nat with 1%nat by lia.
    reflexivity. }
  assert (Hkeys : map fst (city_stats_of df) = pd.group_keys df).
  { unfold city_stats_of. rewrite map_map. simpl. apply map_id. }
  rewrite Hkeys.
  split; [apply group_keys_sorted|]. split; [apply group_keys_nodup|].
  split; [intros k; apply in_group_keys|].
  intros k entry Hin. unfold city_stats_of in Hin. apply in_map_iff in Hin.
  destruct Hin as (k' & Ek & _). inversion Ek; subst k' entry. split.
  - reflexivity.
  - intros col a Hin.
    destruct Hin as [Ea|[Ea|[Ea|[Ea|[]]]]]; inversion Ea; subst; apply agg4_in_order.
Qed.

Lemma analyze_data_city_stats_witness :
  exists s' views l stats,
    analyze_data transformed_test_state = (Return views, s')
    /\ In ("city_stats", l) views
    /\ nth_error (heap s') l = Some (OCityStats stats)
    /\ NoDup (map fst stats).
Proof.
  destruct (analyze_data_city_stats transformed_test_state
                                    (frame_of transformed_test_state))
    as (s' & views & l & stats & E & Hin & Hl & _ & Hnd & _).
  - vm_compute. reflexivity.
  - intros col Hin. apply mem_in. vm_compute. vm_compute in Hin.
    intuition auto.
  - exists s', views, l, stats. split; [exact E|]. split; [exact Hin|].
    split; [exact Hl|exact Hnd].
Defined.

(** ** [basic_stats]: the summary of each analysis column *)

Lemma quantile_of_bounds (p : Q) (xs : list Q) (lo hi q : Q) :
  (forall x, In x xs -> lo <= x /\ x <= hi) ->
  Num.quantile_of p xs = Some q -> lo <= q /\ q <= hi.
Proof.
  intros Hall. unfold Num.quantile_of. cbv zeta.
  assert (Hs : forall x, In x (isort Qle_bool xs) -> lo <= x /\ x <= hi).
  { intros x Hx. apply Hall.
    apply (Permutation_in _ (isort_perm Qle_bool xs)). exact Hx. }
  destruct (isort Qle_bool xs) as [|x0 s]; [discriminate|].
  set (l := x0 :: s) in *.
  set (h := p * inject_Z (Z.of_nat (List.length l - 1))).
  set (a := nth (Z.to_nat (Qfloor h)) l x0).
  set (b := nth (S (Z.to_nat (Qfloor h))) l a).
  set (t := h - inject_Z (Qfloor h)).
  intros Hq.
  assert (Eq : q = a + t * (b - a)) by (injection Hq as <-; reflexivity).
  clear Hq.
  assert (Ha : lo <= a /\ a <= hi).
  { unfold a. destruct (nth_in_or_default (Z.to_nat (Qfloor h)) l x0) as [Hin | ->];
      apply Hs; [exact Hin|left; reflexivity]. }
  assert (Hb : lo <= b /\ b <= hi).
  { unfold b. destruct (nth_in_or_default (S (Z.to_nat (Qfloor h))) l a) as [Hin | ->];
      [apply Hs; exact Hin|exact Ha]. }
  pose proof (Qfloor_le h) as H1. pose proof (Qlt_floor h) as H2.
  rewrite inject_Z_plus in H2. change (inject_Z 1) with 1 in H2.
  assert (Ht : 0 <= t /\ t < 1) by (unfold t; split; lra).
  destruct Ha, Hb, Ht. clearbody t a b. subst q.
  assert (P1 : 0 <= (1 - t) * (a - lo)) by (apply Qmult_le_0_compat; lra).
  assert (P2 : 0 <= t * (b - lo)) by (apply Qmult_le_0_compat; lra).
  assert (P3 : 0 <= (1 - t) * (hi - a)) by (apply Qmult_le_0_compat; lra).
  assert (P4 : 0 <= t * (hi - b)) by (apply Qmult_le_0_compat; lra).
  split; lra.
Qed.

Lemma length_dropna (col : list (option Q)) :
  List.length (Num.dropna col)
  = List.length (filter (fun v => negb (Num.isna v)) col).
Proof.
  induction col as [|v col IH]; simpl; [reflexivity|].
  destruct v; simpl; now rewrite IH.
Qed.

(** Rounding to two decimals leaves a whole number as it is. *)
Lemma round2_whole (n : Z) : Num.round2 (inject_Z n) == inject_Z n.
Proof.
  unfold Num.round2.
  assert (Hq : inject_Z n * 100 == inject_Z (n * 100)).
  { rewrite inject_Z_mult. reflexivity. }
  assert (Hf : Qfloor (inject_Z n * 100) = (n * 100)%Z).
  { rewrite Hq. apply Qfloor_Z. }
  assert (Hr : Num.rint (inject_Z n * 100) = (n * 100)%Z).
  { unfold Num.rint. cbv zeta. rewrite Hf.
    assert (H0 : inject_Z n * 100 - inject_Z (n * 100) == 0) by (rewrite Hq; ring).
    destruct (Qle_bool (inject_Z n * 100 - inject_Z (n * 100)) (1 # 2)) eqn:E1.
    - destruct (Qle_bool (1 # 2) (inject_Z n * 100 - inject_Z (n * 100))) eqn:E2;
        [|reflexivity].
      apply Qle_bool_iff in E2. lra.
    - assert (C : Qle_bool (inject_Z n * 100 - inject_Z (n * 100)) (1 # 2) = true)
        by (apply Qle_bool_iff; lra).
      congruence. }
  rewrite Hr, inject_Z_mult. field.
Qed.

(** One column of the summary: whenever the values are there, the mean and
    the three quartiles lie between the minimum and the maximum. *)
Definition describe_in_order (d : pd.Describe) : Prop :=
  forall mn mx, pd.d_min d = Some mn -> pd.d_max d = Some mx ->
    mn <= mx
    /\ (forall v, pd.d_mean d = Some v -> mn <= v /\ v <= mx)
    /\ (forall v, pd.d_q25 d = Some v -> mn <= v /\ v <= mx)
    /\ (forall v, pd.d_q50 d = Some v -> mn <= v /\ v <= mx)
    /\ (forall v, pd.d_q75 d = Some v -> mn <= v /\ v <= mx).

Lemma round2_opt_bounds (lo hi : Q) (v : option Q) (r : Q) :
  (forall q, v = Some q -> lo <= q /\ q <= hi) ->
  Num.round2_opt v = Some r -> Num.round2 lo <= r /\ r <= Num.round2 hi.
Proof.
  intros Hv. destruct v as [q|]; [|discriminate]. intros [= <-].
  destruct (Hv q eq_refl). split; now apply round2_mono.
Qed.

Lemma describe_ordered `{Pandas} (col : list (option Q)) :
  describe_in_order (pd.round2_describe (pd.describe col)).
Proof.
  unfold describe_in_order, pd.round2_describe, pd.describe. cbn [pd.d_min pd.d_max
    pd.d_mean pd.d_q25 pd.d_q50 pd.d_q75].
  set (xs := Num.dropna col).
  intros mn mx Hmn Hmx.
  destruct (Num.min_of xs) as [lo|] eqn:Elo; [|discriminate].
  destruct (Num.max_of xs) as [hi|] eqn:Ehi; [|discriminate].
  injection Hmn as <-. injection Hmx as <-.
  destruct (min_of_spec xs lo Elo) as [Hlo_in Hlo].
  destruct (max_of_spec xs hi Ehi) as [Hhi_in Hhi].
  assert (Hall : forall x, In x xs -> lo <= x /\ x <= hi) by (intros; split; auto).
  split; [apply round2_mono, Hlo, Hhi_in|].
  split; [intros v; apply round2_opt_bounds; intros q; now apply mean_of_bounds|].
  repeat split; try (intros v; apply round2_opt_bounds; intros q;
                     now apply quantile_of_bounds).
  all: eapply round2_opt_bounds; eauto using quantile_of_bounds.
Qed.

(** On a table with the columns of a transformed table, the [basic_stats]
    view of [analyze_data] has one summary per analysis column, in the order
    of the source's list; its count is the number of values of the column
    that are not missing, and its rounded mean and quartiles lie between the
    rounded minimum and maximum. *)
Theorem analyze_data_basic_stats `{Pandas} (s : State) (df : DataFrame) :
  frame s = Some df ->
  (forall col, In col analysis_requirements -> pd.has_column col df = true) ->
  exists s' views l stats,
    analyze_data s = (Return views, s')
    /\ In ("basic_stats", l) views
    /\ nth_error (heap s') l = Some (OBasicStats stats)
    /\ map fst stats = analysis_cols
    /\ forall col d, In (col, d) stats ->
         pd.d_count d
         == inject_Z (Z.of_nat (List.length
                                  (filter (fun v => negb (Num.isna v))
                                          (map (get_float col) (rows df)))))
         /\ describe_in_order d.
Proof.
  intros Hs Hall.
  destruct (analyze_data_heap s df Hs Hall)
    as (s' & b & c & w & t & E & Hheap & Hb & _).
  exists s'. eexists. exists b, (basic_stats_of df).
  split; [exact E|]. split; [simpl; auto|]. split.
  { rewrite Hheap, Hb, nth_error_app2 by lia.
    rewrite Nat.sub_diag. reflexivity. }
  split; [reflexivity|].
  intros col d Hin.
  destruct Hin as [Ea|[Ea|[Ea|[Ea|[]]]]]; inversion Ea; subst; split;
    try apply describe_ordered;
    cbn [pd.round2_describe pd.describe pd.d_count];
    rewrite round2_whole, length_dropna; reflexivity.
Qed.

Lemma analyze_data_basic_stats_witness :
  exists s' views l stats,
    analyze_data transformed_test_state = (Return views, s')
    /\ In ("basic_stats", l) views
    /\ nth_error (heap s') l = Some (OBasicStats stats)
    /\ map fst stats = analysis_cols.
Proof.
  destruct (analyze_data_basic_stats transformed_test_state
                                     (frame_of transformed_test_state))
    as (s' & views & l & stats & E & Hin & Hl & Hc & _).
  - vm_compute. reflexivity.
  - intros col Hin. apply mem_in. vm_compute. vm_compute in Hin.
    intuition auto.
  - exists s', views, l, stats. split; [exact E|]. split; [exact Hin|].
    split; [exact Hl|exact Hc].
Defined.

(** ** [__init__] and [main] *)

(** [WeatherDataPipeline(input_file, output_dir)]: the constructor creates
    the output directory ([mkdir(exist_ok=True)]), which can fail;
    [mkdir_error] tells for a path the error of creating it, if any. *)
Definition new_pipeline (input_file output_dir : string) (files : string -> File)
           (can_write : string -> bool) (mkdir_error : string -> option string)
  : Outcome State :=
  match mkdir_error output_dir with
  | Some msg => Raise (OSError msg)
  | None => Return (init input_file output_dir files can_write)
  end.

(** [main()], for a script in the directory [here]: the exit status, or the
    exception that escapes. *)
Definition main `{Pandas} (here : string) (files : string -> File)
           (can_write : string -> bool) (mkdir_error : string -> option string)
  : Outcome Z :=
  let data_dir := path_join here "data" in
  let input_file := path_join data_dir "weather_data.csv" in
  let output_dir := path_join here "outputs" in
  match new_pipeline input_file output_dir files can_write mkdir_error with
  | Raise e => Raise e
  | Return pipeline =>
      match fst (run_pipeline pipeline) with
      | Raise e => Raise e
      | Return success => if negb success then Return 1%Z else Return 0%Z
      end
  end.





Example main_on_test_data :
  main "." (one_file "./data/weather_data.csv" (Csv required_columns test_records))
       (fun _ => true) (fun _ => None) = Return 0%Z
  /\ main "." (fun _ => NoSuchFile) (fun _ => true) (fun _ => None) = Return 1%Z
  /\ main "." (fun _ => NoSuchFile) (fun _ => true)
          (fun _ => Some "[Errno 13] Permission denied: './outputs'")
     = Raise (OSError "[Errno 13] Permission denied: './outputs'").
Proof. vm_compute. repeat split; reflexivity. Qed.
